(** * GraphRAG front end: the page controller, embedded in Rocq

    The repository is a single-page browser script.  Three revisions of
    the script are under [src/]:

    - [src/index.js]            the plain JavaScript controller  ([Basic]);
    - [src/unnamed/part_001]    the same controller with the multi-phase
                                ("enhanced") literature review  ([Enhanced]);
    - [src/unnamed/part_000]    the older TypeScript controller that reads
                                PDF files in the browser  ([Legacy]).

    Everything the three revisions share, character for character, is
    embedded once, in the first half of this file.

    The embedding is shallow.  Module-level variables and the DOM nodes the
    script touches are one record, [World]; an [async] function is a state
    transformer that either returns or throws ([Js]); [await] is sequencing,
    so one handler runs from its first statement to its last without another
    handler interleaving.  The backend, and the few browser services whose
    result the script only prints, are the fields of the class [Browser]. *)

From Stdlib Require Import String Ascii List ZArith Lia Bool DecimalString.
Import ListNotations.
Local Open Scope string_scope.
Local Open Scope list_scope.

Set Implicit Arguments.

(* ================================================================== *)
(** ** JavaScript strings

    A string is a sequence of bytes (UTF-8).  Only the ASCII part of the
    white-space and letter-case tables of ECMAScript is modelled. *)

Module JsString.

Definition LF : ascii := ascii_of_nat 10.
Definition DQ : string := String (ascii_of_nat 34) EmptyString.

Definition is_space (c : ascii) : bool :=
  let n := nat_of_ascii c in
  ((9 <=? n)%nat && (n <=? 13)%nat) || (n =? 32)%nat.

Fixpoint trimStart (s : string) : string :=
  match s with
  | EmptyString => EmptyString
  | String c s' => if is_space c then trimStart s' else s
  end.

Fixpoint trimEnd (s : string) : string :=
  match s with
  | EmptyString => EmptyString
  | String c s' =>
      match trimEnd s' with
      | EmptyString => if is_space c then EmptyString else String c EmptyString
      | t => String c t
      end
  end.

(** [s.trim()] *)
Definition trim (s : string) : string := trimEnd (trimStart s).

Definition lower (c : ascii) : ascii :=
  let n := nat_of_ascii c in
  if ((65 <=? n)%nat && (n <=? 90)%nat) then ascii_of_nat (n + 32) else c.

(** [s.toLowerCase()] *)
Fixpoint toLowerCase (s : string) : string :=
  match s with
  | EmptyString => EmptyString
  | String c s' => String (lower c) (toLowerCase s')
  end.

(** [s.split(sep)] for a one-character separator: never the empty list. *)
Fixpoint split (sep : ascii) (s : string) : list string :=
  match s with
  | EmptyString => [EmptyString]
  | String c s' =>
      if Ascii.eqb c sep then EmptyString :: split sep s'
      else match split sep s' with
           | hd :: tl => String c hd :: tl
           | [] => [String c EmptyString]
           end
  end.

(** [file.name.split('.').pop().toLowerCase()] *)
Definition fileExtension (name : string) : string :=
  toLowerCase (last (split "." name) EmptyString).

(** [s.replace(/\n/g, '<br>')] *)
Fixpoint replace_newlines (s : string) : string :=
  match s with
  | EmptyString => EmptyString
  | String c s' =>
      if Ascii.eqb c LF then ("<br>" ++ replace_newlines s')%string
      else String c (replace_newlines s')
  end.

(** [s.replace(/<br>/g, '\n')] *)
Fixpoint replace_br (s : string) : string :=
  match s with
  | EmptyString => EmptyString
  | String c s' =>
      match c, s' with
      | "<"%char, String "b" (String "r" (String ">" rest)) =>
          String LF (replace_br rest)
      | _, _ => String c (replace_br s')
      end
  end.

(** Decimal rendering of an integer, as [String(n)] prints it. *)
Definition ofZ (n : Z) : string := NilZero.string_of_int (Z.to_int n).
Definition ofNat (n : nat) : string := ofZ (Z.of_nat n).

(** *** [parseInt(s)] with no radix argument

    Leading white space is skipped, one sign is read, a [0x]/[0X] prefix
    selects radix 16, and the longest run of digits of the radix is the
    value; no digit at all is [NaN], here [None]. *)

Definition digit_value (c : ascii) : option Z :=
  let n := nat_of_ascii c in
  if ((48 <=? n)%nat && (n <=? 57)%nat) then Some (Z.of_nat (n - 48))
  else if ((97 <=? n)%nat && (n <=? 122)%nat) then Some (Z.of_nat (n - 87))
  else if ((65 <=? n)%nat && (n <=? 90)%nat) then Some (Z.of_nat (n - 55))
  else None.

Fixpoint digits (radix : Z) (s : string) (acc : option Z) : option Z :=
  match s with
  | EmptyString => acc
  | String c s' =>
      match digit_value c with
      | Some d =>
          if (d <? radix)%Z
          then digits radix s'
                 (Some (match acc with Some a => a * radix + d | None => d end)%Z)
          else acc
      | None => acc
      end
  end.

Definition strip_sign (s : string) : bool * string :=
  match s with
  | String "-" s' => (true, s')
  | String "+" s' => (false, s')
  | _ => (false, s)
  end.

Definition strip_radix (s : string) : Z * string :=
  match s with
  | String "0" (String "x" s') => (16%Z, s')
  | String "0" (String "X" s') => (16%Z, s')
  | _ => (10%Z, s)
  end.

Definition parseInt (s : string) : option Z :=
  let (neg, s1) := strip_sign (trimStart s) in
  let (radix, s2) := strip_radix s1 in
  match digits radix s2 None with
  | Some n => Some (if neg then (- n)%Z else n)
  | None => None
  end.

End JsString.

(* ================================================================== *)
(** ** JavaScript values that come out of [response.json()]

    Numbers are integers: the script never computes with a number of the
    backend, it prints it or tests it for truth. *)

#[local] Set Warnings "-register-all".

Inductive JSON : Type :=
| JNull
| JBool (b : bool)
| JNum (n : Z)
| JStr (s : string)
| JArr (items : list JSON)
| JObj (fields : list (string * JSON)).

(** A JavaScript value as the script sees it: [None] is [undefined]. *)
Definition JSVal := option JSON.

(** What a [throw] carries.  [ErrorObj] is [new Error(message)]; the engine
    raises [TypeError]s, [SyntaxError]s and, for a name that is not
    declared, [ReferenceError]s; a [FileReader] rejects the promise with
    the progress event itself, which has no [message]. *)
Inductive Exn : Type :=
| ErrorObj (message : string)
| TypeError (message : string)
| SyntaxError (message : string)
| ReferenceError (message : string)
| ProgressEvent.

Module Value.

(** [Boolean(v)] *)
Definition truthy (v : JSVal) : bool :=
  match v with
  | None => false
  | Some JNull => false
  | Some (JBool b) => b
  | Some (JNum n) => negb (n =? 0)%Z
  | Some (JStr s) => negb (s =? "")%string
  | Some (JArr _) => true
  | Some (JObj _) => true
  end.

(** [String(v)], also what a template literal does to [${v}]; an array
    joins its elements with commas, [null] elements printing as nothing. *)
Fixpoint toStr (j : JSON) : string :=
  match j with
  | JNull => "null"
  | JBool true => "true"
  | JBool false => "false"
  | JNum n => JsString.ofZ n
  | JStr s => s
  | JArr items =>
      (fix join (l : list JSON) : string :=
         match l with
         | [] => ""
         | [x] => match x with JNull => "" | _ => toStr x end
         | x :: rest =>
             ((match x with JNull => "" | _ => toStr x end) ++ "," ++ join rest)%string
         end) items
  | JObj _ => "[object Object]"
  end.

Definition toString (v : JSVal) : string :=
  match v with
  | None => "undefined"
  | Some j => toStr j
  end.

(** Lookup in a parsed object: [JSON.parse] keeps the last duplicate. *)
Fixpoint lookup (k : string) (fields : list (string * JSON)) : JSVal :=
  match fields with
  | [] => None
  | (k', v) :: rest =>
      match lookup k rest with
      | Some v' => Some v'
      | None => if (k =? k')%string then Some v else None
      end
  end.

(** [v.k] for a property name [k] that no prototype defines, except
    [length] on arrays and strings (of a string, the number of bytes:
    the number of UTF-16 code units when the string is ASCII).  Reading a
    property of [null] or [undefined] raises a [TypeError]. *)
Definition prop (v : JSVal) (k : string) : Exn + JSVal :=
  match v with
  | None => inl (TypeError ("Cannot read properties of undefined (reading '" ++ k ++ "')"))
  | Some JNull => inl (TypeError ("Cannot read properties of null (reading '" ++ k ++ "')"))
  | Some (JObj fields) => inr (lookup k fields)
  | Some (JArr items) =>
      inr (if (k =? "length")%string then Some (JNum (Z.of_nat (List.length items))) else None)
  | Some (JStr s) =>
      inr (if (k =? "length")%string then Some (JNum (Z.of_nat (String.length s))) else None)
  | Some (JBool _) | Some (JNum _) => inr None
  end.

(** [e.message] of a caught value, printed in a template literal. *)
Definition message (e : Exn) : string :=
  match e with
  | ErrorObj m | TypeError m | SyntaxError m | ReferenceError m => m
  | ProgressEvent => "undefined"
  end.

End Value.

(* ================================================================== *)
(** ** The network and the browser *)

(** What [fetch] is called with.  [req_body] is the value handed to
    [JSON.stringify]; [None] when [options.body] is never assigned. *)
Record Request : Type := mkRequest {
  req_method : string;
  req_url : string;
  req_contentType : string;
  req_body : JSVal
}.

(** What [response.json()] settles to. *)
Inductive Body : Type :=
| Malformed (why : string)
| Parsed (j : JSON).

Record Response : Type := mkResponse {
  status : Z;
  body : Body
}.

(** [response.ok] *)
Definition ok (r : Response) : bool :=
  ((200 <=? status r) && (status r <=? 299))%Z.

(** What [fetch] settles to: it rejects on a network failure only. *)
Inductive FetchOutcome : Type :=
| Rejected (why : string)
| Responded (r : Response).

(** The services of the host the script relies on.  [backend n req] is the
    outcome of request [req] when [n] requests were issued before it. *)
Class Browser : Type := {
  backend : nat -> Request -> FetchOutcome;
  (** [new Date(v).toLocaleString()] *)
  dateToLocaleString : JSVal -> string;
  (** [element.innerText] of an element whose [innerHTML] is given *)
  innerText : string -> string;
  (** [element.innerHTML] read from an element whose [innerHTML] was
      assigned the given string: the browser parses what is assigned and
      serialises the nodes it made of it when the property is read, so
      that [R&D] comes back as [R&amp;D] *)
  serializedHTML : string -> string;
  (** [Number(s) > n] for a string [s]: the numeric-literal grammar of
      ECMAScript is the browser's *)
  stringGt : string -> Z -> bool;
  (** [Object.entries(v)] *)
  objectEntries : JSON -> list (string * JSON);
  (** [String(Object.prototype[k])] when [Object.prototype] has a member
      named [k]: what a lookup in an object literal finds for a key the
      literal does not define *)
  objectPrototype : string -> option string;
  (** [document.getElementById(id) !== null], for the elements the script
      looks up when it uses them and not when it starts *)
  hasElement : string -> bool
}.

(* ================================================================== *)
(** ** The page *)

(** Boolean DOM state: a [hidden] class, or a [disabled] attribute. *)
Inductive Flag : Type :=
| loader_hidden
| knowledgeBaseContainer_hidden
| literatureReviewSection_hidden
| qaSection_hidden
| writingAssistantSection_hidden
| reviewGenerationProgress_hidden
| sectionRefinementControls_hidden
| processButton_disabled
| fileInput_disabled
| generateReviewButton_disabled
| analyzeTextButton_disabled
| similarityCheckButton_disabled
| questionInput_disabled
| chatButton_disabled.

(** Textual DOM state: a [value], a [textContent] or an [innerHTML]. *)
Inductive Slot : Type :=
| loaderText_textContent
| articleInput_value
| fileInput_value
| fileNameDisplay_textContent
| reviewTopicInput_value
| reviewDraftOutput_innerHTML
| writingEditor_innerHTML
| suggestionsPanel_innerHTML
| questionInput_value
| refinementFeedback_value
| currentPhaseText_textContent
| phaseProgressFill_width.

Scheme Equality for Flag.
Scheme Equality for Slot.

(** A [button.version-button] inside [draftVersionControls]. *)
Record Button : Type := mkButton {
  btn_index : option string;      (* dataset.index *)
  btn_section : option string;    (* dataset.section *)
  btn_text : string;              (* textContent *)
  btn_active : bool               (* classList contains 'active' *)
}.

Inductive ConsoleEntry : Type :=
| ConsoleLog (label : string)
| ConsoleError (label : string) (e : Exn).

Record World : Type := mkWorld {
  (* --- App State --- *)
  isLoading : bool;
  documents : JSON;
  currentFileName : string;
  draftHistory : list JSVal;
  (* --- DOM --- *)
  flags : Flag -> bool;
  texts : Slot -> string;
  checked : string -> option string;   (* value of the checked radio of a group *)
  knowledgeList : list string;         (* innerHTML of each card, in order *)
  reviewProgressLog : list string;     (* content of each div.log-entry *)
  draftVersionControls : list Button;
  chatContainer : list (string * string);  (* textContent, sender *)
  (* --- what the user and the outside see --- *)
  alerts : list string;
  console : list ConsoleEntry;
  requests : list Request;
  (* --- Date.now() --- *)
  now : Z
}.

Definition set_isLoading (v : bool) (w : World) : World :=
  mkWorld v (documents w) (currentFileName w) (draftHistory w) (flags w)
    (texts w) (checked w) (knowledgeList w) (reviewProgressLog w)
    (draftVersionControls w) (chatContainer w) (alerts w) (console w)
    (requests w) (now w).

Definition set_documents (v : JSON) (w : World) : World :=
  mkWorld (isLoading w) v (currentFileName w) (draftHistory w) (flags w)
    (texts w) (checked w) (knowledgeList w) (reviewProgressLog w)
    (draftVersionControls w) (chatContainer w) (alerts w) (console w)
    (requests w) (now w).

Definition set_currentFileName (v : string) (w : World) : World :=
  mkWorld (isLoading w) (documents w) v (draftHistory w) (flags w)
    (texts w) (checked w) (knowledgeList w) (reviewProgressLog w)
    (draftVersionControls w) (chatContainer w) (alerts w) (console w)
    (requests w) (now w).

Definition set_draftHistory (v : list JSVal) (w : World) : World :=
  mkWorld (isLoading w) (documents w) (currentFileName w) v (flags w)
    (texts w) (checked w) (knowledgeList w) (reviewProgressLog w)
    (draftVersionControls w) (chatContainer w) (alerts w) (console w)
    (requests w) (now w).

Definition set_flags (v : Flag -> bool) (w : World) : World :=
  mkWorld (isLoading w) (documents w) (currentFileName w) (draftHistory w) v
    (texts w) (checked w) (knowledgeList w) (reviewProgressLog w)
    (draftVersionControls w) (chatContainer w) (alerts w) (console w)
    (requests w) (now w).

Definition set_texts (v : Slot -> string) (w : World) : World :=
  mkWorld (isLoading w) (documents w) (currentFileName w) (draftHistory w)
    (flags w) v (checked w) (knowledgeList w) (reviewProgressLog w)
    (draftVersionControls w) (chatContainer w) (alerts w) (console w)
    (requests w) (now w).

Definition set_knowledgeList (v : list string) (w : World) : World :=
  mkWorld (isLoading w) (documents w) (currentFileName w) (draftHistory w)
    (flags w) (texts w) (checked w) v (reviewProgressLog w)
    (draftVersionControls w) (chatContainer w) (alerts w) (console w)
    (requests w) (now w).

Definition set_reviewProgressLog (v : list string) (w : World) : World :=
  mkWorld (isLoading w) (documents w) (currentFileName w) (draftHistory w)
    (flags w) (texts w) (checked w) (knowledgeList w) v
    (draftVersionControls w) (chatContainer w) (alerts w) (console w)
    (requests w) (now w).

Definition set_draftVersionControls (v : list Button) (w : World) : World :=
  mkWorld (isLoading w) (documents w) (currentFileName w) (draftHistory w)
    (flags w) (texts w) (checked w) (knowledgeList w) (reviewProgressLog w)
    v (chatContainer w) (alerts w) (console w) (requests w) (now w).

Definition set_chatContainer (v : list (string * string)) (w : World) : World :=
  mkWorld (isLoading w) (documents w) (currentFileName w) (draftHistory w)
    (flags w) (texts w) (checked w) (knowledgeList w) (reviewProgressLog w)
    (draftVersionControls w) v (alerts w) (console w) (requests w) (now w).

Definition set_alerts (v : list string) (w : World) : World :=
  mkWorld (isLoading w) (documents w) (currentFileName w) (draftHistory w)
    (flags w) (texts w) (checked w) (knowledgeList w) (reviewProgressLog w)
    (draftVersionControls w) (chatContainer w) v (console w) (requests w)
    (now w).

Definition set_console (v : list ConsoleEntry) (w : World) : World :=
  mkWorld (isLoading w) (documents w) (currentFileName w) (draftHistory w)
    (flags w) (texts w) (checked w) (knowledgeList w) (reviewProgressLog w)
    (draftVersionControls w) (chatContainer w) (alerts w) v (requests w)
    (now w).

Definition set_requests (v : list Request) (w : World) : World :=
  mkWorld (isLoading w) (documents w) (currentFileName w) (draftHistory w)
    (flags w) (texts w) (checked w) (knowledgeList w) (reviewProgressLog w)
    (draftVersionControls w) (chatContainer w) (alerts w) (console w) v
    (now w).

(** Assigning one flag, one slot. *)
Definition set_flag (f : Flag) (b : bool) (w : World) : World :=
  set_flags (fun g => if Flag_beq g f then b else flags w g) w.

Definition set_text (s : Slot) (v : string) (w : World) : World :=
  set_texts (fun t => if Slot_beq t s then v else texts w t) w.

(* ================================================================== *)
(** ** Computations of the script: state, and [throw] *)

Inductive Outcome (A : Type) : Type :=
| Returned (a : A)
| Thrown (e : Exn).

Arguments Returned {A} a.
Arguments Thrown {A} e.

Definition Js (A : Type) : Type := World -> Outcome A * World.

Definition ret {A : Type} (a : A) : Js A := fun w => (Returned a, w).

Definition throw {A : Type} (e : Exn) : Js A := fun w => (Thrown e, w).

Definition bind {A B : Type} (m : Js A) (k : A -> Js B) : Js B :=
  fun w =>
    match m w with
    | (Returned a, w') => k a w'
    | (Thrown e, w') => (Thrown e, w')
    end.

Declare Scope js_scope.
Delimit Scope js_scope with js.
Bind Scope js_scope with Js.

Notation "x <- m ;; k" := (bind m (fun x => k))
  (at level 61, m at next level, right associativity) : js_scope.
Notation "m ;; k" := (bind m (fun _ => k))
  (at level 61, right associativity) : js_scope.

Local Open Scope js_scope.

(** [try { body } catch (error) { handler }] *)
Definition try_catch {A : Type} (body : Js A) (handler : Exn -> Js A) : Js A :=
  fun w =>
    match body w with
    | (Returned a, w') => (Returned a, w')
    | (Thrown e, w') => handler e w'
    end.

(** [try { body } finally { fin }]: [fin] runs however [body] ends, and the
    block ends as [body] did unless [fin] itself throws. *)
Definition try_finally {A : Type} (body : Js A) (fin : Js unit) : Js A :=
  fun w =>
    match body w with
    | (o, w') =>
        match fin w' with
        | (Returned _, w'') => (o, w'')
        | (Thrown e, w'') => (Thrown e, w'')
        end
    end.

(** A statement that only assigns. *)
Definition modify (f : World -> World) : Js unit := fun w => (Returned tt, f w).

(** An expression that only reads. *)
Definition gets {A : Type} (f : World -> A) : Js A := fun w => (Returned (f w), w).

(** An expression that may raise. *)
Definition lift {A : Type} (r : Exn + A) : Js A :=
  match r with
  | inl e => throw e
  | inr a => ret a
  end.

(** [for (let i = start; i < start + items.length; i++) body(i, items[i])] *)
Fixpoint for_each {A : Type} (body : nat -> A -> Js unit) (i : nat) (items : list A)
  : Js unit :=
  match items with
  | [] => ret tt
  | x :: rest => body i x ;; for_each body (S i) rest
  end.

(** The final state and the outcome of a run. *)
Definition final {A : Type} (m : Js A) (w : World) : World := snd (m w).
Definition outcome {A : Type} (m : Js A) (w : World) : Outcome A := fst (m w).

Definition returns {A : Type} (m : Js A) (w : World) : Prop :=
  exists a, outcome m w = Returned a.

(** [alert(text)], [console.log(label, ...)], [console.error(label, error)] *)
Definition alert (text : string) : Js unit :=
  modify (fun w => set_alerts (alerts w ++ [text]) w).

Definition console_log (label : string) : Js unit :=
  modify (fun w => set_console (console w ++ [ConsoleLog label]) w).

Definition console_error (label : string) (e : Exn) : Js unit :=
  modify (fun w => set_console (console w ++ [ConsoleError label e]) w).

(* ================================================================== *)
(** ** The script: what the three revisions share *)

Section Script.

Context `{Browser}.

(** [const API_BASE = '/api'] *)
Definition API_BASE : string := "/api".

(** [v > n] and [v === n] for a number literal [n], [v === s] for a
    string literal [s]. *)
Definition gt (v : JSVal) (n : Z) : bool :=
  match v with
  | None => false
  | Some JNull => (n <? 0)%Z
  | Some (JBool b) => (n <? (if b then 1 else 0))%Z
  | Some (JNum m) => (n <? m)%Z
  | Some (JStr s) => stringGt s n
  | Some (JArr items) => stringGt (Value.toStr (JArr items)) n
  | Some (JObj _) => false
  end.

Definition strictEqNum (v : JSVal) (n : Z) : bool :=
  match v with
  | Some (JNum m) => (m =? n)%Z
  | _ => false
  end.

Definition strictEqStr (v : JSVal) (s : string) : bool :=
  match v with
  | Some (JStr t) => (t =? s)%string
  | _ => false
  end.

(** [a || b] *)
Definition orElse (a : JSVal) (b : JSON) : JSON :=
  match a with
  | Some j => if Value.truthy a then j else b
  | None => b
  end.

(** [documents.length].  [documents] only ever holds
    [result.documents || []], which is not [null]
    (see [documents_not_null] below). *)
Definition documents_length (w : World) : JSVal :=
  match Value.prop (Some (documents w)) "length" with
  | inr v => v
  | inl _ => None
  end.

(** [function setLoading(loading, text = 'Processing...')] *)
Definition setLoading (loading : bool) (text : string) : Js unit :=
  modify (set_isLoading loading) ;;
  modify (set_flag loader_hidden (negb loading)) ;;
  modify (set_text loaderText_textContent text) ;;
  modify (fun w => set_flag processButton_disabled
                     (loading || (texts w articleInput_value =? "")%string) w) ;;
  modify (set_flag fileInput_disabled loading) ;;
  modify (fun w => set_flag generateReviewButton_disabled
                     (loading || strictEqNum (documents_length w) 0) w) ;;
  modify (set_flag analyzeTextButton_disabled loading) ;;
  modify (set_flag similarityCheckButton_disabled loading) ;;
  modify (fun w => set_flag questionInput_disabled
                     (loading || strictEqNum (documents_length w) 0) w) ;;
  modify (fun w => set_flag chatButton_disabled
                     (loading || strictEqNum (documents_length w) 0) w).

(** [await fetch(url, options)]: the request is recorded, the backend
    decides how it settles. *)
Definition fetch (req : Request) : Js Response :=
  fun w =>
    let w' := set_requests (requests w ++ [req]) w in
    match backend (List.length (requests w)) req with
    | Rejected why => (Thrown (TypeError why), w')
    | Responded r => (Returned r, w')
    end.

(** [await response.json()] *)
Definition response_json (r : Response) : Js JSON :=
  match body r with
  | Parsed j => ret j
  | Malformed why => throw (SyntaxError why)
  end.

(** [async function apiCall(endpoint, method = 'GET', data = null)] *)
Definition apiCall (endpoint : string) (method : string) (data : JSVal) : Js JSON :=
  let options :=
    {| req_method := method;
       req_url := (API_BASE ++ endpoint)%string;
       req_contentType := "application/json";
       req_body := if Value.truthy data then data else None |} in
  response <- fetch options ;;
  if negb (ok response) then
    errorData <- try_catch (response_json response)
                   (fun _ => ret (JObj [("message", JStr "Unknown error")])) ;;
    message <- lift (Value.prop (Some errorData) "message") ;;
    throw (ErrorObj (if Value.truthy message then Value.toString message
                     else ("HTTP " ++ JsString.ofZ (status response))%string))
  else
    response_json response.

(** A line break inside a template literal, followed by the [n] spaces
    that indent the next line of the source. *)
Definition indented (n : nat) : string :=
  String JsString.LF (string_of_list_ascii (repeat " "%char n)).

(** The template literal assigned to [card.innerHTML], with its line
    breaks and its indentation. *)
Definition card_innerHTML (filename chunks processed path : string) : string :=
  (indented 12 ++ "<h4>" ++ filename ++ "</h4>"
   ++ indented 12 ++ "<p><strong>Chunks:</strong> " ++ chunks
   ++ " | <strong>Processed:</strong> " ++ processed ++ "</p>"
   ++ indented 12 ++ "<p><strong>Path:</strong> " ++ path ++ "</p>"
   ++ indented 8)%string.

(** The body of [documents.forEach(doc => ...)] *)
Definition renderCard (doc : JSON) : Js unit :=
  filename <- lift (Value.prop (Some doc) "filename") ;;
  chunks <- lift (Value.prop (Some doc) "chunks") ;;
  processed_at <- lift (Value.prop (Some doc) "processed_at") ;;
  path <- lift (Value.prop (Some doc) "path") ;;
  modify (fun w =>
    set_knowledgeList
      (knowledgeList w
       ++ [card_innerHTML (Value.toString filename) (Value.toString chunks)
             (dateToLocaleString processed_at) (Value.toString path)]) w).

(** [v.forEach(...)]: only arrays have the method. *)
Definition forEach (what : string) (v : JSVal) (body : nat -> JSON -> Js unit)
  : Js unit :=
  match v with
  | Some (JArr items) => for_each body 0 items
  | Some JNull => throw (TypeError ("Cannot read properties of null (reading 'forEach')"))
  | None => throw (TypeError ("Cannot read properties of undefined (reading 'forEach')"))
  | _ => throw (TypeError (what ++ ".forEach is not a function"))
  end.

(** [function renderDocuments()] *)
Definition renderDocuments : Js unit :=
  modify (set_knowledgeList []) ;;
  len <- gets documents_length ;;
  (if gt len 0 then
     modify (set_flag knowledgeBaseContainer_hidden false) ;;
     modify (set_flag literatureReviewSection_hidden false) ;;
     modify (set_flag qaSection_hidden false)
   else ret tt) ;;
  docs <- gets documents ;;
  forEach "documents" (Some docs) (fun _ doc => renderCard doc).

(** [async function loadDocuments()] *)
Definition loadDocuments : Js unit :=
  try_catch
    (result <- apiCall "/documents" "GET" None ;;
     docs <- lift (Value.prop (Some result) "documents") ;;
     modify (set_documents (orElse docs (JArr []))) ;;
     renderDocuments ;;
     len <- gets documents_length ;;
     if gt len 0 then
       modify (set_flag questionInput_disabled false) ;;
       modify (set_flag chatButton_disabled false) ;;
       modify (set_flag generateReviewButton_disabled false) ;;
       modify (set_flag qaSection_hidden false) ;;
       modify (set_flag literatureReviewSection_hidden false)
     else ret tt)
    (fun error => console_error "Error loading documents:" error).

(** [async function checkSystemStatus()] *)
Definition checkSystemStatus : Js bool :=
  try_catch
    (result <- apiCall "/status" "GET" None ;;
     console_log "✅ GraphRAG system status:" ;;
     st <- lift (Value.prop (Some result) "status") ;;
     if strictEqStr st "ready" then
       loadDocuments ;;
       ret true
     else ret false)
    (fun error =>
       console_error "❌ System not ready:" error ;;
       ret false).

(** [async function handleProcessArticle()] *)
Definition handleProcessArticle : Js unit :=
  articleText <- gets (fun w => JsString.trim (texts w articleInput_value)) ;;
  if (articleText =? "")%string then
    alert "Please paste text into the text area or upload a file."
  else
    docName <- gets (fun w =>
      if (currentFileName w =? "")%string
      then ("Manual_Entry_" ++ JsString.ofZ (now w) ++ ".txt")%string
      else currentFileName w) ;;
    setLoading true ("Adding " ++ docName ++ " to GraphRAG...") ;;
    try_finally
      (try_catch
         (result <- apiCall "/add_document" "POST"
                      (Some (JObj [("content", JStr articleText);
                                   ("filename", JStr docName)])) ;;
          console_log "✅ Document added:" ;;
          loadDocuments ;;
          modify (set_text articleInput_value "") ;;
          modify (set_text fileInput_value "") ;;
          modify (set_text fileNameDisplay_textContent "") ;;
          modify (set_currentFileName "") ;;
          alert ("✅ Successfully added " ++ JsString.DQ ++ docName ++ JsString.DQ
                 ++ " to GraphRAG system!"))
         (fun error =>
            console_error "Error adding document:" error ;;
            alert ("❌ Error adding document: " ++ Value.message error)))
      (setLoading false "Processing...").

(** [function addProgressLog(html)]; the scrolling is not modelled. *)
Definition addProgressLog (html : string) : Js unit :=
  modify (fun w => set_reviewProgressLog (reviewProgressLog w ++ [html]) w).

(** [function addMessageToChat(text, sender)]; [textContent = text]
    prints [undefined] and [null] as the empty string. *)
Definition textContentOf (v : JSVal) : string :=
  match v with
  | None | Some JNull => ""
  | Some j => Value.toStr j
  end.

Definition addMessageToChat (text : JSVal) (sender : string) : Js unit :=
  modify (fun w => set_chatContainer (chatContainer w ++ [(textContentOf text, sender)]) w).

(** [async function handleAskQuestion(event)]; [event.preventDefault()]
    and [questionInput.focus()] leave the modelled state alone. *)
Definition handleAskQuestion : Js unit :=
  userQuestion <- gets (fun w => JsString.trim (texts w questionInput_value)) ;;
  loading <- gets isLoading ;;
  len <- gets documents_length ;;
  if (userQuestion =? "")%string || loading || strictEqNum len 0 then ret tt
  else
    setLoading true "Asking GraphRAG..." ;;
    addMessageToChat (Some (JStr userQuestion)) "user" ;;
    modify (set_text questionInput_value "") ;;
    try_finally
      (try_catch
         (result <- apiCall "/query" "POST"
                      (Some (JObj [("question", JStr userQuestion)])) ;;
          answer <- lift (Value.prop (Some result) "answer") ;;
          addMessageToChat answer "model")
         (fun error =>
            console_error "Error asking question:" error ;;
            addMessageToChat
              (Some (JStr ("Sorry, I encountered an error: " ++ Value.message error)))
              "model"))
      (setLoading false "Processing...").

(** [v.replace(/\n/g, '<br>')]: only strings have the method. *)
Definition replaceNewlines (what : string) (v : JSVal) : Exn + string :=
  match v with
  | Some (JStr s) => inr (JsString.replace_newlines s)
  | Some JNull => inl (TypeError "Cannot read properties of null (reading 'replace')")
  | None => inl (TypeError "Cannot read properties of undefined (reading 'replace')")
  | _ => inl (TypeError (what ++ ".replace is not a function"))
  end.

Definition placeholder (text : string) : string :=
  ("<div class=" ++ JsString.DQ ++ "placeholder" ++ JsString.DQ ++ ">" ++ text
   ++ "</div>")%string.

(** The template literal assigned to [suggestionsPanel.innerHTML], with
    its line breaks and its indentation. *)
Definition suggestionCard (answer : string) : string :=
  let q := JsString.DQ in
  (indented 12 ++ "<div class=" ++ q ++ "suggestion-card" ++ q ++ ">"
   ++ indented 16 ++ "<div class=" ++ q ++ "suggestion-card-header" ++ q ++ ">"
   ++ indented 20 ++ "<span class=" ++ q ++ "suggestion-category Style" ++ q
   ++ ">GraphRAG Analysis</span>"
   ++ indented 16 ++ "</div>"
   ++ indented 16 ++ "<div class=" ++ q ++ "suggestion-body" ++ q ++ ">"
   ++ indented 20 ++ answer
   ++ indented 16 ++ "</div>"
   ++ indented 12 ++ "</div>"
   ++ indented 8)%string.

Definition quoted (text : string) : string :=
  (JsString.DQ ++ text ++ JsString.DQ)%string.

Definition blankLine : string :=
  String JsString.LF (String JsString.LF EmptyString).

(** [async function handleAnalyzeText()] *)
Definition handleAnalyzeText : Js unit :=
  text <- gets (fun w => JsString.trim (innerText (texts w writingEditor_innerHTML))) ;;
  if (text =? "")%string then
    alert "Please write some text first."
  else
    setLoading true "Analyzing text..." ;;
    modify (set_text suggestionsPanel_innerHTML (placeholder "Analyzing...")) ;;
    try_finally
      (try_catch
         (result <- apiCall "/query" "POST"
                      (Some (JObj [("question", JStr
                         ("Please analyze this text for grammar, style, and clarity issues. Provide specific suggestions for improvement:"
                          ++ blankLine ++ quoted text))])) ;;
          answer <- lift (Value.prop (Some result) "answer") ;;
          html <- lift (replaceNewlines "result.answer" answer) ;;
          modify (set_text suggestionsPanel_innerHTML (suggestionCard html)))
         (fun error =>
            console_error "Error analyzing text:" error ;;
            modify (set_text suggestionsPanel_innerHTML
                      (placeholder "Failed to analyze text."))))
      (setLoading false "Processing...").

(** [async function handleSimilarityCheck()] *)
Definition handleSimilarityCheck : Js unit :=
  text <- gets (fun w => JsString.trim (innerText (texts w writingEditor_innerHTML))) ;;
  if (text =? "")%string then
    alert "Please write some text first."
  else
    setLoading true "Checking for similarity..." ;;
    try_finally
      (try_catch
         (result <- apiCall "/query" "POST"
                      (Some (JObj [("question", JStr
                         ("Check if this text has any similarities to the documents in the knowledge base. Identify any potential plagiarism or very similar passages:"
                          ++ blankLine ++ quoted text))])) ;;
          answer <- lift (Value.prop (Some result) "answer") ;;
          alert ("Similarity Check Results:" ++ blankLine ++ Value.toString answer))
         (fun error =>
            console_error "Error checking similarity:" error ;;
            alert "Error during similarity check."))
      (setLoading false "Processing...").

(** *** The click listener of [draftVersionControls]

    The event target is the [k]-th child of the container; every child
    is a [button.version-button], and a click that hits no child is a
    click on the container itself, which has not the class. *)

(** [draftHistory[index]]: [NaN], a negative number and a number past
    the end name no element. *)
Definition draftAt (history : list JSVal) (index : option Z) : JSVal :=
  match index with
  | Some i =>
      if (i <? 0)%Z then None
      else match nth_error history (Z.to_nat i) with
           | Some v => v
           | None => None
           end
  | None => None
  end.

(** [target.dataset.index || '0'] *)
Definition storedIndex (target : Button) : string :=
  match btn_index target with
  | Some s => if (s =? "")%string then "0" else s
  | None => "0"
  end.

Definition activateOnly (k : nat) (buttons : list Button) : list Button :=
  map (fun ib : nat * Button =>
         mkButton (btn_index (snd ib)) (btn_section (snd ib)) (btn_text (snd ib))
           (fst ib =? k)%nat)
      (combine (seq 0 (List.length buttons)) buttons).

Definition versionButtonClick (k : nat) : Js unit :=
  buttons <- gets draftVersionControls ;;
  match nth_error buttons k with
  | None => ret tt
  | Some target =>
      modify (set_draftVersionControls (activateOnly k buttons)) ;;
      let index := JsString.parseInt (storedIndex target) in
      history <- gets draftHistory ;;
      let draftText := orElse (draftAt history index)
                         (JStr "Could not load this version.") in
      html <- lift (replaceNewlines "draftText" (Some draftText)) ;;
      modify (set_text reviewDraftOutput_innerHTML html)
  end.

(** [async function initializeApp()], up to the port the alert names,
    in which the revisions differ. *)
Definition initialize (port : string) : Js unit :=
  console_log "🚀 Initializing GraphRAG Frontend..." ;;
  setLoading true "Connecting to GraphRAG system..." ;;
  try_finally
    (try_catch
       (isReady <- checkSystemStatus ;;
        if (isReady : bool) then console_log "✅ GraphRAG system is ready!"
        else console_log "⚠️  GraphRAG system not ready, but you can still add documents")
       (fun error =>
          console_error "❌ Error connecting to GraphRAG:" error ;;
          alert ("Could not connect to GraphRAG system. Make sure the backend is running on port "
                 ++ port ++ ".")))
    (setLoading false "Processing...").

End Script.

Section SetLoading.

Context `{Browser}.

(** [setLoading] in closed form. *)
Definition loading (l : bool) (text : string) (w : World) : World :=
  let w := set_isLoading l w in
  let w := set_flag loader_hidden (negb l) w in
  let w := set_text loaderText_textContent text w in
  let w := set_flag processButton_disabled
             (l || (texts w articleInput_value =? "")%string) w in
  let w := set_flag fileInput_disabled l w in
  let w := set_flag generateReviewButton_disabled
             (l || strictEqNum (documents_length w) 0) w in
  let w := set_flag analyzeTextButton_disabled l w in
  let w := set_flag similarityCheckButton_disabled l w in
  let w := set_flag questionInput_disabled
             (l || strictEqNum (documents_length w) 0) w in
  set_flag chatButton_disabled (l || strictEqNum (documents_length w) 0) w.

Lemma setLoading_run (l : bool) (text : string) (w : World) :
  setLoading l text w = (Returned tt, loading l text w).
Proof. reflexivity. Qed.

End SetLoading.

(* ================================================================== *)
(** ** Files picked in the file input *)

Record File : Type := mkFile {
  file_name : string;
  file_type : string;
  (** [await file.text()] *)
  file_text : Exn + string;
  (** [reader.result] after [readAsDataURL(file)]; [None] when
      [reader.onerror] fires instead of [reader.onload] *)
  file_dataURL : option string;
  (** the [str] of the text items of each page that [pdfjsLib] extracts,
      or what makes [arrayBuffer], [getDocument], [getPage] or
      [getTextContent] reject ([Legacy] only) *)
  file_pdfPages : Exn + list (list (option string))
}.

(** [handleFileSelect] of [src/index.js] and of [src/unnamed/part_001]. *)
Section Upload.

Context `{Browser}.

(** [new Promise((resolve, reject) => { reader.onload = ...;
    reader.onerror = reject; reader.readAsDataURL(file) })] *)
Definition readAsDataURL (file : File) : Js string :=
  match file_dataURL file with
  | Some result => ret result
  | None => throw ProgressEvent
  end.

(** The two binary branches of the single-file path, which differ in
    [file_type] and in the wording of the alert. *)
Definition uploadBinary (file : File) (fileType kind : string) : Js unit :=
  base64 <- readAsDataURL file ;;
  _ <- apiCall "/add_document" "POST"
         (Some (JObj [("content", JStr base64);
                      ("filename", JStr (file_name file));
                      ("file_type", JStr fileType)])) ;;
  alert ("✅ " ++ kind ++ " " ++ quoted (file_name file) ++ " uploaded successfully!") ;;
  loadDocuments ;;
  modify (set_text fileInput_value "") ;;
  modify (set_text fileNameDisplay_textContent "") ;;
  modify (set_currentFileName "") ;;
  setLoading false "Processing...".

Definition selectOne (file : File) : Js unit :=
  modify (set_text fileNameDisplay_textContent ("Selected: " ++ file_name file)) ;;
  modify (set_currentFileName (file_name file)) ;;
  modify (set_text articleInput_value "") ;;
  setLoading true ("Reading " ++ file_name file ++ "...") ;;
  try_finally
    (try_catch
       (let fileExtension := JsString.fileExtension (file_name file) in
        if (file_type file =? "application/pdf")%string || (fileExtension =? "pdf")%string
        then uploadBinary file "pdf" "PDF file"
        else if (fileExtension =? "docx")%string || (fileExtension =? "doc")%string
        then uploadBinary file "docx" "Word document"
        else
          fullText <- lift (file_text file) ;;
          modify (set_text articleInput_value (JsString.trim fullText)))
       (fun error =>
          console_error "Error processing file:" error ;;
          modify (set_text fileNameDisplay_textContent "Error processing file.") ;;
          modify (set_currentFileName "") ;;
          alert ("Error processing " ++ file_name file ++ ": " ++ Value.message error)))
    (setLoading false "Processing...").

(** The body of [for (let i = 0; i < files.length; i++)] *)
Definition uploadOne (total : nat) (i : nat) (file : File) : Js unit :=
  setLoading true ("Processing " ++ JsString.ofNat (i + 1) ++ "/" ++ JsString.ofNat total
                   ++ ": " ++ file_name file) ;;
  try_catch
    (let fileExtension := JsString.fileExtension (file_name file) in
     if (fileExtension =? "pdf")%string || (fileExtension =? "docx")%string
        || (fileExtension =? "doc")%string
     then
       base64 <- readAsDataURL file ;;
       _ <- apiCall "/add_document" "POST"
              (Some (JObj [("content", JStr base64);
                           ("filename", JStr (file_name file));
                           ("file_type",
                            JStr (if (fileExtension =? "pdf")%string then "pdf" else "docx"))])) ;;
       ret tt
     else
       fullText <- lift (file_text file) ;;
       _ <- apiCall "/add_document" "POST"
              (Some (JObj [("content", JStr (JsString.trim fullText));
                           ("filename", JStr (file_name file));
                           ("file_type", JStr "text")])) ;;
       ret tt)
    (fun error =>
       console_error ("Error processing file " ++ file_name file ++ ":") error ;;
       alert ("Error processing " ++ file_name file ++ ". Continuing with next file.")).

Definition selectMany (files : list File) : Js unit :=
  modify (set_text fileNameDisplay_textContent
            ("Processing " ++ JsString.ofNat (List.length files) ++ " files...")) ;;
  for_each (uploadOne (List.length files)) 0 files ;;
  loadDocuments ;;
  setLoading false "Processing..." ;;
  modify (set_text fileNameDisplay_textContent
            (JsString.ofNat (List.length files) ++ " file(s) processed.")) ;;
  modify (set_text fileInput_value "").

(** [async function handleFileSelect(event)]; [files] is
    [event.target.files], [None] when it is [null]. *)
Definition handleFileSelect (files : option (list File)) : Js unit :=
  match files with
  | None | Some [] =>
      modify (set_text fileNameDisplay_textContent "") ;;
      modify (set_currentFileName "")
  | Some [file] => selectOne file
  | Some files => selectMany files
  end.

End Upload.

(* ================================================================== *)
(** ** Literature review of [src/index.js] and [src/unnamed/part_000] *)

Section Review.

Context `{Browser}.

(** [function renderDraftViewer()] *)
Definition renderDraftViewer : Js unit :=
  modify (set_draftVersionControls []) ;;
  history <- gets draftHistory ;;
  if (List.length history =? 0)%nat then ret tt
  else
    for_each
      (fun index _ =>
         modify (fun w =>
           set_draftVersionControls
             (draftVersionControls w
              ++ [mkButton (Some (JsString.ofNat index)) None
                    (if (index =? 0)%nat then "Draft"
                     else ("Version " ++ JsString.ofNat (index + 1))%string)
                    (index =? List.length history - 1)%nat]) w))
      0 history.

(** A line break inside the prompt's template literal, with the
    indentation of the source line that follows it. *)
Definition continuation : string :=
  String JsString.LF "                     ".

Definition reviewPrompt (reviewLength topic : string) : string :=
  if (reviewLength =? "detailed")%string then
    ("Generate a comprehensive literature review on the topic: " ++ quoted topic ++ ". "
     ++ continuation ++ "Structure it with:"
     ++ continuation ++ "1. Introduction (define the topic and scope)"
     ++ continuation ++ "2. Main body sections (compare and contrast the sources, identify themes)"
     ++ continuation ++ "3. Conclusion (summarize key findings and gaps)"
     ++ continuation ++ "Use academic writing style and include proper citations.")%string
  else
    ("Generate a concise literature review (1-2 paragraphs) on the topic: "
     ++ quoted topic ++ ". "
     ++ continuation
     ++ "Compare and contrast the key findings from the sources and include citations.")%string.

(** [async function handleGenerateReview(event)], up to the way the
    checked radio button of the group [review-length] is read, in which
    the two revisions differ. *)
Definition generateReview (readReviewLength : Js string) : Js unit :=
  topic <- gets (fun w => JsString.trim (texts w reviewTopicInput_value)) ;;
  if (topic =? "")%string then ret tt
  else
    len <- gets documents_length ;;
    if strictEqNum len 0 then alert "Please add some documents first!"
    else
      modify (set_flag reviewGenerationProgress_hidden false) ;;
      modify (set_reviewProgressLog []) ;;
      modify (set_text reviewDraftOutput_innerHTML "") ;;
      modify (set_draftVersionControls []) ;;
      modify (set_draftHistory []) ;;
      setLoading true "Generating literature review..." ;;
      try_finally
        (try_catch
           (reviewLength <- readReviewLength ;;
            let prompt := reviewPrompt reviewLength topic in
            addProgressLog "<strong>Step 1:</strong> Querying GraphRAG system..." ;;
            result <- apiCall "/query" "POST" (Some (JObj [("question", JStr prompt)])) ;;
            addProgressLog "<strong>Step 2:</strong> Literature review generated!" ;;
            draft <- lift (Value.prop (Some result) "answer") ;;
            modify (fun w => set_draftHistory (draftHistory w ++ [draft]) w) ;;
            html <- lift (replaceNewlines "draft" draft) ;;
            modify (set_text reviewDraftOutput_innerHTML html) ;;
            renderDraftViewer ;;
            html' <- lift (replaceNewlines "draft" draft) ;;
            modify (set_text writingEditor_innerHTML html') ;;
            modify (set_flag writingAssistantSection_hidden false) ;;
            addProgressLog
              "<strong>Complete!</strong> Review ready for editing in Writing Assistant.")
           (fun error =>
              console_error "Error generating review:" error ;;
              addProgressLog ("❌ Error: " ++ Value.message error) ;;
              alert "Error generating literature review."))
        (setLoading false "Processing...").

End Review.

(** [src/index.js] *)
Module Basic.
Section Basic.

Context `{Browser}.

(** [reviewLengthInput ? reviewLengthInput.value : 'detailed'] *)
Definition readReviewLength : Js string :=
  gets (fun w => match checked w "review-length" with
                 | Some value => value
                 | None => "detailed"
                 end).

Definition handleGenerateReview : Js unit := generateReview readReviewLength.

Definition initializeApp : Js unit := initialize "5001".

End Basic.
End Basic.

(** [src/unnamed/part_000] *)
Module Legacy.
Section Legacy.

Context `{Browser}.

(** [(document.querySelector(...) as HTMLInputElement).value] *)
Definition readReviewLength : Js string :=
  checkedInput <- gets (fun w => checked w "review-length") ;;
  match checkedInput with
  | Some value => ret value
  | None => throw (TypeError "Cannot read properties of null (reading 'value')")
  end.

Definition handleGenerateReview : Js unit := generateReview readReviewLength.

Definition initializeApp : Js unit := initialize "5000".

(** [textContent.items.map(item => item.str ?? '').join(' ') + '\n\n'] *)
Definition pageText (items : list (option string)) : string :=
  (String.concat " " (map (fun str => match str with Some t => t | None => "" end) items)
   ++ blankLine)%string.

(** The text of a picked file: the pages of a PDF one after the other,
    or [await file.text()]. *)
Definition readFullText (file : File) : Js string :=
  if (file_type file =? "application/pdf")%string then
    pages <- lift (file_pdfPages file) ;;
    ret (String.concat "" (map pageText pages))
  else lift (file_text file).

Definition selectOne (file : File) : Js unit :=
  modify (set_text fileNameDisplay_textContent ("Selected: " ++ file_name file)) ;;
  modify (set_currentFileName (file_name file)) ;;
  modify (set_text articleInput_value "") ;;
  setLoading true ("Reading " ++ file_name file ++ "...") ;;
  try_finally
    (try_catch
       (fullText <- readFullText file ;;
        modify (set_text articleInput_value (JsString.trim fullText)))
       (fun error =>
          console_error "Error processing file:" error ;;
          modify (set_text fileNameDisplay_textContent "Error processing file.") ;;
          modify (set_currentFileName "") ;;
          alert ("Error processing " ++ file_name file ++ ".")))
    (setLoading false "Processing...").

Definition uploadOne (total : nat) (i : nat) (file : File) : Js unit :=
  setLoading true ("Processing " ++ JsString.ofNat (i + 1) ++ "/" ++ JsString.ofNat total
                   ++ ": " ++ file_name file) ;;
  try_catch
    (fullText <- readFullText file ;;
     _ <- apiCall "/add_document" "POST"
            (Some (JObj [("content", JStr (JsString.trim fullText));
                         ("filename", JStr (file_name file))])) ;;
     ret tt)
    (fun error =>
       console_error ("Error processing file " ++ file_name file ++ ":") error ;;
       alert ("Error processing " ++ file_name file ++ ". Continuing with next file.")).

Definition selectMany (files : list File) : Js unit :=
  modify (set_text fileNameDisplay_textContent
            ("Processing " ++ JsString.ofNat (List.length files) ++ " files...")) ;;
  for_each (uploadOne (List.length files)) 0 files ;;
  loadDocuments ;;
  setLoading false "Processing..." ;;
  modify (set_text fileNameDisplay_textContent
            (JsString.ofNat (List.length files) ++ " file(s) processed.")) ;;
  modify (set_text fileInput_value "").

(** [async function handleFileSelect(event: Event)] *)
Definition handleFileSelect (files : option (list File)) : Js unit :=
  match files with
  | None | Some [] =>
      modify (set_text fileNameDisplay_textContent "") ;;
      modify (set_currentFileName "")
  | Some [file] => selectOne file
  | Some files => selectMany files
  end.

End Legacy.
End Legacy.

(** [src/unnamed/part_001] *)
Module Enhanced.
Section Enhanced.

Context `{Browser}.

(** [addProgressLog(html)] in [part_001].  The file calls the function
    fifteen times and declares it nowhere (in [index.js] and [part_000]
    it follows [handleGenerateReview]), so the name does not resolve and
    every call raises a [ReferenceError].  The callee is looked up before
    the argument is evaluated: [html], the computation of the argument,
    never runs. *)
Definition addProgressLog (html : Js string) : Js unit :=
  throw (ReferenceError "addProgressLog is not defined").

(** [table[key]] for an object literal [table] with string values: the
    literal's own entry, or what [Object.prototype] has under the name. *)
Definition tableLookup (table : list (string * string)) (key : string) : option string :=
  match find (fun entry => (fst entry =? key)%string) table with
  | Some entry => Some (snd entry)
  | None => objectPrototype key
  end.

Definition phaseNames : list (string * string) :=
  [("Scoping", "Scoping and Question Development");
   ("Literature Search", "Comprehensive Literature Search");
   ("Critical Analysis", "Critical Analysis and Theme Identification");
   ("Synthesis", "Synthesis and Framework Development");
   ("Academic Writing", "Academic Writing (5 C's Framework)");
   ("Refinement", "Iterative Refinement and Quality Assurance")].

Definition progressPercentages : list nat := [15; 30; 50; 70; 85; 100]%nat.

(** [function getPhaseDescription(phase)] *)
Definition getPhaseDescription (phase : JSVal) : string :=
  let descriptions :=
    [("Scoping", "Defining research questions and search strategy");
     ("Literature Search", "Identifying and gathering relevant sources");
     ("Critical Analysis", "Analyzing themes, patterns, and debates");
     ("Synthesis", "Developing conceptual framework and connections");
     ("Academic Writing", "Writing sections using the 5 C's framework");
     ("Refinement", "Quality assessment and iterative improvement")] in
  match tableLookup descriptions (Value.toString phase) with
  | Some description => description
  | None => "Processing..."
  end.

(** [function updatePhaseIndicator(phaseName, percentage)] *)
Definition updatePhaseIndicator (phaseName : string) (percentage : nat) : Js unit :=
  (if hasElement "current-phase-text"
   then modify (set_text currentPhaseText_textContent phaseName)
   else ret tt) ;;
  (if hasElement "phase-progress-fill"
   then modify (set_text phaseProgressFill_width (JsString.ofNat percentage ++ "%"))
   else ret tt).

(** [items.join(sep)] *)
Definition join (sep : string) (items : list JSON) : string :=
  String.concat sep
    (map (fun item => match item with JNull => "" | _ => Value.toStr item end) items).

(** [phases[0], phases[1], ...] as [for (let i = 0; i < phases.length;
    i++)] visits them.  On an object that is not an array the loop runs
    while [length > i]; it is cut after one more round than the object
    has fields, by when [phases[i]] was [undefined] at least once, which
    the loop body does not survive. *)
Fixpoint visitedFields (fields : list (string * JSON)) (i fuel : nat) : list JSVal :=
  match fuel with
  | O => []
  | S fuel' =>
      if gt (Value.lookup "length" fields) (Z.of_nat i)
      then Value.lookup (JsString.ofNat i) fields :: visitedFields fields (S i) fuel'
      else []
  end.

Definition visited (phases : JSON) : list JSVal :=
  match phases with
  | JArr items => map Some items
  | JStr s => map (fun c => Some (JStr (String c EmptyString))) (list_ascii_of_string s)
  | JObj fields => visitedFields fields 0 (S (List.length fields))
  | _ => []
  end.

(** The body of the loop of [processReviewPhases]; the half second of
    [setTimeout] at its end leaves the modelled state alone. *)
Definition showPhase (i : nat) (phase : JSVal) : Js unit :=
  name <- lift (Value.prop phase "phase") ;;
  let phaseName :=
    match tableLookup phaseNames (Value.toString name) with
    | Some known => known
    | None => textContentOf name
    end in
  let progress :=
    match nth_error progressPercentages i with
    | Some percentage => percentage
    | None => ((i + 1) * 16)%nat
    end in
  updatePhaseIndicator phaseName progress ;;
  addProgressLog
    (ret ("<strong>" ++ Value.toString name ++ ":</strong> "
          ++ getPhaseDescription name)%string) ;;
  research_questions <- lift (Value.prop phase "research_questions") ;;
  (if strictEqStr name "Scoping" && Value.truthy research_questions then
     addProgressLog
       (count <- lift (Value.prop research_questions "length") ;;
        ret ("📋 Research Questions Identified: " ++ Value.toString count)%string) ;;
     forEach "phase.research_questions" research_questions
       (fun idx rq =>
          addProgressLog
            (question <- lift (Value.prop (Some rq) "question") ;;
             ret ("   " ++ JsString.ofNat (idx + 1) ++ ". "
                  ++ Value.toString question)%string))
   else ret tt) ;;
  sources_found <- lift (Value.prop phase "sources_found") ;;
  (if strictEqStr name "Literature Search" && Value.truthy sources_found then
     addProgressLog (ret ("📚 Sources Found: " ++ Value.toString sources_found)%string) ;;
     sources_by_type <- lift (Value.prop phase "sources_by_type") ;;
     match sources_by_type with
     | Some by_type =>
         if Value.truthy sources_by_type then
           for_each
             (fun _ entry =>
                addProgressLog
                  (ret ("   - " ++ fst entry ++ ": " ++ Value.toStr (snd entry))%string))
             0 (objectEntries by_type)
         else ret tt
     | None => ret tt
     end
   else ret tt) ;;
  themes_identified <- lift (Value.prop phase "themes_identified") ;;
  (if strictEqStr name "Critical Analysis" && Value.truthy themes_identified then
     addProgressLog
       (ret ("🔍 Themes Identified: " ++ Value.toString themes_identified)%string) ;;
     major_themes <- lift (Value.prop phase "major_themes") ;;
     if Value.truthy major_themes then
       forEach "phase.major_themes" major_themes
         (fun _ theme => addProgressLog (ret ("   - " ++ Value.toStr theme)%string))
     else ret tt
   else ret tt) ;;
  sections_written <- lift (Value.prop phase "sections_written") ;;
  (if strictEqStr name "Academic Writing" && Value.truthy sections_written then
     addProgressLog
       (ret ("✍️ Sections Written: " ++ Value.toString sections_written)%string) ;;
     addProgressLog
       (total_word_count <- lift (Value.prop phase "total_word_count") ;;
        ret ("📊 Total Word Count: "
             ++ Value.toStr (orElse total_word_count (JStr "N/A")))%string) ;;
     addProgressLog
       (writing_principles <- lift (Value.prop phase "writing_principles") ;;
        joined <- match writing_principles with
                  | None | Some JNull => ret ""
                  | Some (JArr items) => ret (join ", " items)
                  | Some _ =>
                      throw (TypeError "phase.writing_principles?.join is not a function")
                  end ;;
        ret ("🎯 Writing Framework: "
             ++ (if (joined =? "")%string then "5 C's" else joined))%string)
   else ret tt).

(** [async function processReviewPhases(phases)] *)
Definition processReviewPhases (phases : JSON) : Js unit :=
  for_each showPhase 0 (visited phases).

(** [function renderEnhancedDraftViewer(process)] *)
Definition sections : list string :=
  ["Introduction"; "Methodology"; "Themes"; "Analysis"; "Synthesis"; "Conclusion"].

Definition renderEnhancedDraftViewer (process : JSVal) : Js unit :=
  modify (set_draftVersionControls []) ;;
  if negb (Value.truthy process) then ret tt
  else
    phases <- lift (Value.prop process "phases") ;;
    if negb (Value.truthy phases) then ret tt
    else
      for_each
        (fun index section =>
           modify (fun w =>
             set_draftVersionControls
               (draftVersionControls w
                ++ [mkButton None (Some (JsString.toLowerCase section)) section
                      (index =? 0)%nat]) w))
        0 sections.

(** [function showSectionContent(sectionName)] *)
Definition showSectionContent (sectionName : string) : Js unit :=
  history <- gets draftHistory ;;
  let fullContent := orElse (draftAt history (Some 0%Z)) (JStr "No content available") in
  html <- lift (replaceNewlines "fullContent" (Some fullContent)) ;;
  modify (set_text reviewDraftOutput_innerHTML html).

(** The click listener [renderEnhancedDraftViewer] gives the [k]-th
    section button. *)
Definition sectionButtonClick (k : nat) : Js unit :=
  match nth_error sections k with
  | None => ret tt
  | Some section =>
      modify (fun w => set_draftVersionControls
                         (activateOnly k (draftVersionControls w)) w) ;;
      showSectionContent (JsString.toLowerCase section)
  end.

(** [async function handleGenerateReview(event)] *)
Definition handleGenerateReview : Js unit :=
  topic <- gets (fun w => JsString.trim (texts w reviewTopicInput_value)) ;;
  if (topic =? "")%string then ret tt
  else
    len <- gets documents_length ;;
    if strictEqNum len 0 then alert "Please add some documents first!"
    else
      modify (set_flag reviewGenerationProgress_hidden false) ;;
      modify (set_reviewProgressLog []) ;;
      modify (set_text reviewDraftOutput_innerHTML "") ;;
      modify (set_draftVersionControls []) ;;
      modify (set_draftHistory []) ;;
      setLoading true "Initializing enhanced literature review generation..." ;;
      try_finally
        (try_catch
           (reviewType <- gets (fun w => match checked w "review-type" with
                                         | Some value => value
                                         | None => "systematic"
                                         end) ;;
            reviewDepth <- gets (fun w => match checked w "review-depth" with
                                          | Some value => value
                                          | None => "comprehensive"
                                          end) ;;
            addProgressLog
              (ret "<strong>Phase 1:</strong> Initializing enhanced GraphRAG literature review system...") ;;
            updatePhaseIndicator "Scoping and Question Development" 15 ;;
            result <- apiCall "/generate_enhanced_review" "POST"
                        (Some (JObj [("topic", JStr topic);
                                     ("review_type", JStr reviewType);
                                     ("depth", JStr reviewDepth)])) ;;
            process <- lift (Value.prop (Some result) "process") ;;
            (if Value.truthy process then
               phases <- lift (Value.prop process "phases") ;;
               match phases with
               | Some phases' =>
                   if Value.truthy phases then processReviewPhases phases' else ret tt
               | None => ret tt
               end
             else ret tt) ;;
            final_review <- lift (Value.prop (Some result) "final_review") ;;
            let finalReview :=
              orElse final_review
                (JStr "Review generation completed but no content received.") in
            modify (fun w => set_draftHistory (draftHistory w ++ [Some finalReview]) w) ;;
            html <- lift (replaceNewlines "finalReview" (Some finalReview)) ;;
            modify (set_text reviewDraftOutput_innerHTML html) ;;
            process' <- lift (Value.prop (Some result) "process") ;;
            renderEnhancedDraftViewer process' ;;
            html' <- lift (replaceNewlines "finalReview" (Some finalReview)) ;;
            modify (set_text writingEditor_innerHTML html') ;;
            modify (set_flag writingAssistantSection_hidden false) ;;
            addProgressLog
              (ret "<strong>Complete!</strong> Enhanced literature review ready for editing.") ;;
            updatePhaseIndicator "Review Complete" 100 ;;
            if hasElement "section-refinement-controls"
            then modify (set_flag sectionRefinementControls_hidden false)
            else throw (TypeError "Cannot read properties of null (reading 'classList')"))
           (fun error =>
              console_error "Error generating enhanced review:" error ;;
              addProgressLog (ret ("❌ Error: " ++ Value.message error)%string) ;;
              alert "Error generating enhanced literature review." ;;
              updatePhaseIndicator "Error Occurred" 0))
        (setLoading false "Processing...").

(** [Object.values(v)] *)
Definition objectValues (v : JSON) : list JSON := map snd (objectEntries v).

(** [async function handleSectionRefinement(refinementType)]; what it
    reads from [reviewDraftOutput.innerHTML] is the browser's
    serialisation of what was assigned to it. *)
Definition handleSectionRefinement (refinementType : string) : Js unit :=
  currentSection <- gets (fun w => serializedHTML (texts w reviewDraftOutput_innerHTML)) ;;
  feedback <- (if hasElement "refinement-feedback"
               then gets (fun w => JsString.trim (texts w refinementFeedback_value))
               else throw (TypeError "Cannot read properties of null (reading 'value')")) ;;
  if (currentSection =? "")%string then alert "No section content to refine."
  else
    setLoading true ("Applying " ++ refinementType ++ " refinement...") ;;
    try_finally
      (try_catch
         (result <- apiCall "/refine_review_section" "POST"
                      (Some (JObj [("section_content",
                                    JStr (JsString.replace_br currentSection));
                                   ("refinement_type", JStr refinementType);
                                   ("feedback", JStr feedback)])) ;;
          refined_section <- lift (Value.prop (Some result) "refined_section") ;;
          html <- lift (replaceNewlines "result.refined_section" refined_section) ;;
          modify (set_text reviewDraftOutput_innerHTML html) ;;
          modify (set_text writingEditor_innerHTML html) ;;
          (if hasElement "refinement-feedback"
           then modify (set_text refinementFeedback_value "")
           else throw (TypeError "Cannot set properties of null (setting 'value')")) ;;
          addProgressLog
            (ret ("<strong>Refinement Applied:</strong> " ++ refinementType)%string) ;;
          addProgressLog
            (improvements_made <- lift (Value.prop (Some result) "improvements_made") ;;
             ret ("📈 Improvements: "
                  ++ join ", " (objectValues (orElse improvements_made (JObj []))))%string))
         (fun error =>
            console_error "Error refining section:" error ;;
            alert ("Error applying refinement: " ++ Value.message error)))
      (setLoading false "Processing...").

Definition initializeApp : Js unit := initialize "5001".

End Enhanced.
End Enhanced.

(* ================================================================== *)
(** * Properties *)

(** ** A concrete browser, for the examples *)

Module Example.

(** A backend that answers every request the same way. *)
Definition constantly (answer : FetchOutcome) : Browser :=
  {| backend := fun _ _ => answer;
     dateToLocaleString := Value.toString;
     innerText := fun html => html;
     serializedHTML := fun html => html;
     stringGt := fun _ _ => false;
     objectEntries := fun v => match v with JObj fields => fields | _ => [] end;
     objectPrototype := fun _ => None;
     hasElement := fun _ => true |}.

(** The page as the script finds it when it is loaded. *)
Definition page : World :=
  {| isLoading := false;
     documents := JArr [];
     currentFileName := "";
     draftHistory := [];
     flags := fun _ => true;
     texts := fun _ => "";
     checked := fun _ => None;
     knowledgeList := [];
     reviewProgressLog := [];
     draftVersionControls := [];
     chatContainer := [];
     alerts := [];
     console := [];
     requests := [];
     now := 1700000000000 |}.

End Example.

(* ================================================================== *)
(** ** Running a computation: weakest preconditions

    [wp m Q w]: run from [w], [m] ends in an outcome and a state that
    [Q] relates.  Every computation of the script is total, so this is a
    statement about the one run there is. *)

Definition wp {A : Type} (m : Js A) (Q : Outcome A -> World -> Prop) (w : World) : Prop :=
  Q (outcome m w) (final m w).

Arguments wp {A} m Q w : simpl never.

Section Wp.

Variable A : Type.
Variable Q : Outcome A -> World -> Prop.
Variable w : World.

Lemma wp_ret (a : A) : Q (Returned a) w -> wp (ret a) Q w.
Proof. exact (fun q => q). Qed.

Lemma wp_throw (e : Exn) : Q (Thrown e) w -> wp (throw e) Q w.
Proof. exact (fun q => q). Qed.

Lemma wp_gets (f : World -> A) : Q (Returned (f w)) w -> wp (gets f) Q w.
Proof. exact (fun q => q). Qed.

Lemma wp_lift (r : Exn + A) :
  match r with inl e => Q (Thrown e) w | inr a => Q (Returned a) w end ->
  wp (lift r) Q w.
Proof. destruct r; exact (fun q => q). Qed.

Lemma wp_bind (B : Type) (m : Js B) (k : B -> Js A) :
  wp m (fun o w' => match o with
                    | Returned b => wp (k b) Q w'
                    | Thrown e => Q (Thrown e) w'
                    end) w ->
  wp (bind m k) Q w.
Proof.
  unfold wp, outcome, final, bind.
  destruct (m w) as [[b | e] w']; exact (fun q => q).
Qed.

Lemma wp_try_catch (body : Js A) (handler : Exn -> Js A) :
  wp body (fun o w' => match o with
                       | Returned a => Q (Returned a) w'
                       | Thrown e => wp (handler e) Q w'
                       end) w ->
  wp (try_catch body handler) Q w.
Proof.
  unfold wp, outcome, final, try_catch.
  destruct (body w) as [[a | e] w']; exact (fun q => q).
Qed.

Lemma wp_try_finally (body : Js A) (fin : Js unit) :
  wp body (fun o w' =>
             wp fin (fun o' w'' => match o' with
                                   | Returned _ => Q o w''
                                   | Thrown e => Q (Thrown e) w''
                                   end) w') w ->
  wp (try_finally body fin) Q w.
Proof.
  unfold wp, outcome, final, try_finally.
  destruct (body w) as [o w']; cbn.
  destruct (fin w') as [[u | e] w'']; exact (fun q => q).
Qed.

Lemma wp_weaken (m : Js A) (P : Outcome A -> World -> Prop) :
  (forall o w', P o w' -> Q o w') -> wp m P w -> wp m Q w.
Proof. unfold wp; auto. Qed.

End Wp.

Lemma wp_modify (Q : Outcome unit -> World -> Prop) (w : World) (f : World -> World) :
  Q (Returned tt) (f w) -> wp (modify f) Q w.
Proof. exact (fun q => q). Qed.

(** One step of symbolic execution. *)
Ltac wp_step :=
  lazymatch goal with
  | |- wp (bind _ _) _ _ => apply wp_bind
  | |- wp (ret _) _ _ => apply wp_ret
  | |- wp (throw _) _ _ => apply wp_throw
  | |- wp (gets _) _ _ => apply wp_gets
  | |- wp (modify _) _ _ => apply wp_modify
  | |- wp (lift _) _ _ => apply wp_lift
  | |- wp (try_catch _ _) _ _ => apply wp_try_catch
  | |- wp (try_finally _ _) _ _ => apply wp_try_finally
  | |- wp (alert _) _ _ => apply wp_modify
  | |- wp (console_log _) _ _ => apply wp_modify
  | |- wp (console_error _ _) _ _ => apply wp_modify
  end.

(** Reading a field of a state that assignments built. *)
Ltac fields :=
  cbn [isLoading documents currentFileName draftHistory flags texts checked
       knowledgeList reviewProgressLog draftVersionControls chatContainer
       alerts console requests now
       set_isLoading set_documents set_currentFileName set_draftHistory
       set_flags set_texts set_knowledgeList set_reviewProgressLog
       set_draftVersionControls set_chatContainer set_alerts set_console
       set_requests set_flag set_text].

Tactic Notation "fields" "in" hyp(H) :=
  cbn [isLoading documents currentFileName draftHistory flags texts checked
       knowledgeList reviewProgressLog draftVersionControls chatContainer
       alerts console requests now
       set_isLoading set_documents set_currentFileName set_draftHistory
       set_flags set_texts set_knowledgeList set_reviewProgressLog
       set_draftVersionControls set_chatContainer set_alerts set_console
       set_requests set_flag set_text] in H.

(** The state a run has reached, field by field. *)
Ltac norm_state :=
  lazymatch goal with
  | |- wp ?m ?Q ?w =>
      let w' := eval cbv beta iota zeta delta
                  [isLoading documents currentFileName draftHistory flags texts
                   checked knowledgeList reviewProgressLog draftVersionControls
                   chatContainer alerts console requests now
                   set_isLoading set_documents set_currentFileName set_draftHistory
                   set_flags set_texts set_knowledgeList set_reviewProgressLog
                   set_draftVersionControls set_chatContainer set_alerts set_console
                   set_requests set_flag set_text loading documents_length] in w in
      change (wp m Q w')
  | _ => idtac
  end.

(** ** Invariants of a computation

    [preserves I m]: a run of [m] from a state in [I] ends in [I],
    however it ends. *)

Definition preserves {A : Type} (I : World -> Prop) (m : Js A) : Prop :=
  forall w, I w -> I (final m w).

Section Preserves.

Variable I : World -> Prop.

Lemma preserves_ret (A : Type) (a : A) : preserves I (ret a).
Proof. exact (fun w i => i). Qed.

Lemma preserves_throw (A : Type) (e : Exn) : preserves I (throw (A := A) e).
Proof. exact (fun w i => i). Qed.

Lemma preserves_gets (A : Type) (f : World -> A) : preserves I (gets f).
Proof. exact (fun w i => i). Qed.

Lemma preserves_lift (A : Type) (r : Exn + A) : preserves I (lift r).
Proof. destruct r; exact (fun w i => i). Qed.

Lemma preserves_modify (f : World -> World) :
  (forall w, I w -> I (f w)) -> preserves I (modify f).
Proof. exact (fun h => h). Qed.

Lemma preserves_bind (A B : Type) (m : Js A) (k : A -> Js B) :
  preserves I m -> (forall a, preserves I (k a)) -> preserves I (bind m k).
Proof.
  unfold preserves, final, bind. intros Hm Hk w Hw.
  specialize (Hm w Hw). destruct (m w) as [[a | e] w']; cbn in *.
  - now apply Hk.
  - exact Hm.
Qed.

Lemma preserves_try_catch (A : Type) (body : Js A) (handler : Exn -> Js A) :
  preserves I body -> (forall e, preserves I (handler e)) ->
  preserves I (try_catch body handler).
Proof.
  unfold preserves, final, try_catch. intros Hb Hh w Hw.
  specialize (Hb w Hw). destruct (body w) as [[a | e] w']; cbn in *.
  - exact Hb.
  - now apply Hh.
Qed.

Lemma preserves_try_finally (A : Type) (body : Js A) (fin : Js unit) :
  preserves I body -> preserves I fin -> preserves I (try_finally body fin).
Proof.
  unfold preserves, final, try_finally. intros Hb Hf w Hw.
  specialize (Hb w Hw). destruct (body w) as [o w']; cbn in *.
  specialize (Hf w' Hb). now destruct (fin w') as [[u | e] w''].
Qed.

Lemma preserves_for_each (A : Type) (body : nat -> A -> Js unit) (items : list A) :
  (forall i x, preserves I (body i x)) ->
  forall i, preserves I (for_each body i items).
Proof.
  intro Hbody. induction items as [| x rest IH]; intro i; cbn [for_each].
  - apply preserves_ret.
  - apply preserves_bind; [apply Hbody | intros _; apply IH].
Qed.

End Preserves.

Ltac head_of t :=
  lazymatch t with
  | ?f _ => head_of f
  | _ => t
  end.

(** Walks through a computation; what it cannot decide is left as goals:
    an assignment to the field the invariant reads, or a request. *)
Ltac preserve_step :=
  lazymatch goal with
  | |- preserves _ (ret _) => apply preserves_ret
  | |- preserves _ (throw _) => apply preserves_throw
  | |- preserves _ (gets _) => apply preserves_gets
  | |- preserves _ (lift _) => apply preserves_lift
  | |- preserves _ (bind _ _) => apply preserves_bind; [| intro]
  | |- preserves _ (try_catch _ _) => apply preserves_try_catch; [| intro]
  | |- preserves _ (try_finally _ _) => apply preserves_try_finally
  | |- preserves _ (for_each _ _ _) => apply preserves_for_each; intros
  | |- preserves _ (modify _) =>
      apply preserves_modify; intros ? ?; cbv beta; fields; try assumption
  | |- preserves _ (if ?b then _ else _) => destruct b
  | |- preserves _ (match ?x with _ => _ end) => destruct x
  | |- preserves _ (let _ := _ in _) => cbv zeta
  | |- preserves _ ?m => let h := head_of m in unfold h
  end.

(** ** [apiCall] *)

Section ApiCall.

Context `{Browser}.

(** The request [apiCall] hands to [fetch]. *)
Definition requestOf (endpoint method : string) (data : JSVal) : Request :=
  {| req_method := method;
     req_url := (API_BASE ++ endpoint)%string;
     req_contentType := "application/json";
     req_body := if Value.truthy data then data else None |}.

(** What [apiCall] makes of the way its [fetch] settles. *)
Definition settle (answer : FetchOutcome) : Outcome JSON :=
  match answer with
  | Rejected why => Thrown (TypeError why)
  | Responded r =>
      if ok r then
        match body r with
        | Parsed j => Returned j
        | Malformed why => Thrown (SyntaxError why)
        end
      else
        match body r with
        | Malformed _ => Thrown (ErrorObj "Unknown error")
        | Parsed j =>
            match Value.prop (Some j) "message" with
            | inl e => Thrown e
            | inr message =>
                Thrown (ErrorObj (if Value.truthy message then Value.toString message
                                  else ("HTTP " ++ JsString.ofZ (status r))%string))
            end
        end
  end.

(** How the backend answers a request made in state [w]. *)
Definition answer (w : World) (req : Request) : Outcome JSON :=
  settle (backend (List.length (requests w)) req).

(** [apiCall] performs one [fetch], whatever comes back, and touches
    nothing else. *)
Lemma apiCall_run (endpoint method : string) (data : JSVal) (w : World) :
  apiCall endpoint method data w
  = (settle (backend (List.length (requests w)) (requestOf endpoint method data)),
     set_requests (requests w ++ [requestOf endpoint method data]) w).
Proof.
  unfold apiCall, bind, fetch. fold (requestOf endpoint method data).
  unfold settle.
  destruct (backend _ _) as [why | r]; [reflexivity |].
  destruct (ok r); cbn [negb].
  - unfold response_json. destruct (body r); reflexivity.
  - unfold try_catch, response_json.
    destruct (body r) as [why | j]; [reflexivity |].
    cbn [ret]. destruct j; reflexivity.
Qed.

Lemma preserves_apiCall (I : World -> Prop) (endpoint method : string) (data : JSVal) :
  (forall w, I w -> I (set_requests (requests w ++ [requestOf endpoint method data]) w)) ->
  preserves I (apiCall endpoint method data).
Proof.
  intros HI w Hw. unfold final. rewrite apiCall_run. now apply HI.
Qed.

Lemma wp_apiCall (endpoint method : string) (data : JSVal)
      (Q : Outcome JSON -> World -> Prop) (w : World) :
  Q (settle (backend (List.length (requests w)) (requestOf endpoint method data)))
    (set_requests (requests w ++ [requestOf endpoint method data]) w) ->
  wp (apiCall endpoint method data) Q w.
Proof. unfold wp, outcome, final. now rewrite apiCall_run. Qed.

End ApiCall.




(* ================================================================== *)
(** ** What the user, or the page load, can set off *)

Inductive Revision : Type :=
| index_js      (* src/index.js *)
| part_000      (* src/unnamed/part_000 *)
| part_001.     (* src/unnamed/part_001 *)

Inductive Operation : Type :=
| ProcessArticle
| FileSelect (rev : Revision) (files : option (list File))
| GenerateReview (rev : Revision)
| AskQuestion
| AnalyzeText
| SimilarityCheck
| SectionRefinement (refinementType : string)   (* part_001 only *)
| VersionClick (k : nat)
| SectionClick (k : nat)                        (* part_001 only *)
| Initialize (rev : Revision).

Section Operations.

Context `{Browser}.

Definition run (op : Operation) : Js unit :=
  match op with
  | ProcessArticle => handleProcessArticle
  | FileSelect part_000 files => Legacy.handleFileSelect files
  | FileSelect _ files => handleFileSelect files
  | GenerateReview index_js => Basic.handleGenerateReview
  | GenerateReview part_000 => Legacy.handleGenerateReview
  | GenerateReview part_001 => Enhanced.handleGenerateReview
  | AskQuestion => handleAskQuestion
  | AnalyzeText => handleAnalyzeText
  | SimilarityCheck => handleSimilarityCheck
  | SectionRefinement refinementType => Enhanced.handleSectionRefinement refinementType
  | VersionClick k => versionButtonClick k
  | SectionClick k => Enhanced.sectionButtonClick k
  | Initialize index_js => Basic.initializeApp
  | Initialize part_000 => Legacy.initializeApp
  | Initialize part_001 => Enhanced.initializeApp
  end.

(** The requests a run adds to those issued before it. *)
Definition issued {A : Type} (m : Js A) (w : World) : list Request :=
  skipn (List.length (requests w)) (requests (final m w)).

End Operations.

(** ** The REST contract *)

Definition contract : list (string * string) :=
  [("GET", "/api/status");
   ("GET", "/api/documents");
   ("POST", "/api/add_document");
   ("POST", "/api/query");
   ("POST", "/api/generate_enhanced_review");
   ("POST", "/api/refine_review_section")].

Definition target (req : Request) : string * string := (req_method req, req_url req).

Definition inContract (req : Request) : bool :=
  existsb (fun pair => (fst pair =? req_method req)%string
                       && (snd pair =? req_url req)%string) contract.

Ltac preserve_with finish :=
  repeat first
    [ lazymatch goal with
      | |- preserves _ (apiCall _ _ _) =>
          apply preserves_apiCall; intros ? ?; cbv beta; fields; finish
      end
    | preserve_step ].

Section Contract.

Context `{Browser}.

(** Since some state [w0], only requests of the contract were added. *)
Definition onlyContract (w0 w : World) : Prop :=
  exists added, requests w = requests w0 ++ added
                /\ Forall (fun req => inContract req = true) added.

Lemma onlyContract_step (w0 w : World) (req : Request) :
  onlyContract w0 w -> inContract req = true ->
  exists added, requests w ++ [req] = requests w0 ++ added
                /\ Forall (fun r => inContract r = true) added.
Proof.
  intros (added & -> & Hadded) Hreq. exists (added ++ [req]). split.
  - now rewrite app_assoc.
  - apply Forall_app. auto.
Qed.

Lemma run_onlyContract (w0 : World) (op : Operation) :
  preserves (onlyContract w0) (run op).
Proof.
  destruct op as [| rev files | rev | | | | refinementType | k | k | rev];
    try destruct rev; cbn [run].
  all: unfold onlyContract;
    preserve_with ltac:(apply onlyContract_step; [assumption | reflexivity]).
Qed.

Lemma inContract_target (req : Request) :
  inContract req = true -> In (target req) contract.
Proof.
  unfold inContract. rewrite existsb_exists.
  intros ([method url] & Hin & Heq). cbn [fst snd] in Heq.
  apply andb_true_iff in Heq. destruct Heq as [Hm Hu].
  apply String.eqb_eq in Hm, Hu. subst. now destruct req.
Qed.

Lemma skipn_length_app (A : Type) (l added : list A) :
  skipn (List.length l) (l ++ added) = added.
Proof. induction l; [reflexivity | exact IHl]. Qed.

Lemma run_issued (op : Operation) (w : World) :
  requests (final (run op) w) = requests w ++ issued (run op) w
  /\ Forall (fun req => In (target req) contract) (issued (run op) w).
Proof.
  destruct (run_onlyContract (w0 := w) op (w := w)) as (added & Hadded & Hall).
  - exists []. split; [now rewrite app_nil_r | constructor].
  - unfold issued. rewrite Hadded, skipn_length_app. split; [reflexivity |].
    eapply Forall_impl; [| exact Hall]. exact inContract_target.
Qed.

End Contract.

Module ContractExamples.

Definition ready : Browser :=
  Example.constantly
    (Responded {| status := 200; body := Parsed (JObj [("status", JStr "ready")]) |}).

Definition down : Browser := Example.constantly (Rejected "Failed to fetch").

(** A page with one document, a topic, a pasted article, an editor
    with text and a draft on display. *)
Definition busyPage : World :=
  set_text reviewTopicInput_value "graph retrieval"
    (set_text articleInput_value "Some article."
       (set_text writingEditor_innerHTML "A sentence to check."
          (set_text reviewDraftOutput_innerHTML "A draft.<br>Second line."
             (set_documents (JArr [JObj [("filename", JStr "a.txt")]]) Example.page)))).

End ContractExamples.

(** C5.  Whatever operation runs, in whatever revision, from whatever
    state and against whatever backend, every request it issues is one of
    the six method/endpoint pairs of the contract.  Five of the pairs are
    shown to be issued, each by some operation; the sixth,
    [POST /api/generate_enhanced_review], is the request that
    [handleGenerateReview] of [part_001] names, after a call of
    [addProgressLog] that its run does not get past. *)
Theorem requests_within_contract :
  (forall (B : Browser) (op : Operation) (w : World),
      requests (final (run op) w) = requests w ++ issued (run op) w
      /\ Forall (fun req => In (target req) contract) (issued (run op) w))
  /\ Forall (fun pair =>
               In pair contract
               /\ exists (B : Browser) (op : Operation) (w : World),
                    In pair (map target (issued (run op) w)))
            [("GET", "/api/status");
             ("GET", "/api/documents");
             ("POST", "/api/add_document");
             ("POST", "/api/query");
             ("POST", "/api/refine_review_section")].
Proof.
  split.
  - intros B op w. apply run_issued.
  - repeat apply Forall_cons; try apply Forall_nil; (split; [cbn; tauto |]).
    + exists ContractExamples.down, (Initialize index_js), Example.page.
      vm_compute. auto.
    + exists ContractExamples.ready, (Initialize part_001), Example.page.
      vm_compute. auto.
    + exists ContractExamples.down, ProcessArticle, ContractExamples.busyPage.
      vm_compute. auto.
    + exists ContractExamples.down, AnalyzeText, ContractExamples.busyPage.
      vm_compute. auto.
    + exists ContractExamples.down, (SectionRefinement "clarity"), ContractExamples.busyPage.
      vm_compute. auto.
Qed.

(* ================================================================== *)
(** ** The handlers that talk to the backend once *)

(** The five handlers the loading flag frames: process article,
    generate review, ask question, analyze text, similarity check. *)
Inductive Exchange : Type :=
| ExProcessArticle
| ExGenerateReview (rev : Revision)
| ExAskQuestion
| ExAnalyzeText
| ExSimilarityCheck.

Definition operation (x : Exchange) : Operation :=
  match x with
  | ExProcessArticle => ProcessArticle
  | ExGenerateReview rev => GenerateReview rev
  | ExAskQuestion => AskQuestion
  | ExAnalyzeText => AnalyzeText
  | ExSimilarityCheck => SimilarityCheck
  end.

(** Nothing is loading: the flag is down and the loader is hidden. *)
Definition idle (w : World) : Prop :=
  isLoading w = false /\ flags w loader_hidden = true.

(** A case analysis, unless a hypothesis settled the case before. *)
Ltac case_on x :=
  first [ match goal with E : x = _ |- _ => rewrite E end
        | destruct x eqn:? ].

Ltac wp_auto_step :=
  lazymatch goal with
  | |- wp (if ?b then _ else _) _ _ => case_on b
  | |- wp (match ?x with _ => _ end) _ _ => case_on x
  | |- match ?x with _ => _ end => case_on x
  | |- wp (let _ := _ in _) _ _ => cbv zeta
  | |- wp (bind _ _) _ _ => wp_step
  | |- wp (ret _) _ _ => wp_step
  | |- wp (throw _) _ _ => wp_step
  | |- wp (gets _) _ _ => wp_step
  | |- wp (modify _) _ _ => wp_step
  | |- wp (lift _) _ _ => wp_step
  | |- wp (try_catch _ _) _ _ => wp_step
  | |- wp (try_finally _ _) _ _ => wp_step
  | |- wp (apiCall _ _ _) _ _ => apply wp_apiCall
  | |- wp ?m _ _ => let h := head_of m in unfold h at 1
  end.

Ltac wp_next :=
  wp_auto_step; cbv beta iota; norm_state; unfold documents_length; fields;
  cbn [negb andb orb].

Section Loading.

Context `{Browser}.

(** The input guard of a handler: [true] when the run gets as far as
    [setLoading(true, ...)]. *)
Definition passesGuard (x : Exchange) (w : World) : bool :=
  match x with
  | ExProcessArticle =>
      negb (JsString.trim (texts w articleInput_value) =? "")%string
  | ExGenerateReview _ =>
      negb (JsString.trim (texts w reviewTopicInput_value) =? "")%string
      && negb (strictEqNum (documents_length w) 0)
  | ExAskQuestion =>
      negb ((JsString.trim (texts w questionInput_value) =? "")%string
            || isLoading w || strictEqNum (documents_length w) 0)
  | ExAnalyzeText | ExSimilarityCheck =>
      negb (JsString.trim (innerText (texts w writingEditor_innerHTML)) =? "")%string
  end.

(** [finally { setLoading(false) }] *)
Lemma wp_finally_idle (A : Type) (body : Js A) (text : string) (w : World) :
  wp (try_finally body (setLoading false text)) (fun _ w' => idle w') w.
Proof.
  unfold wp, outcome, final, try_finally.
  destruct (body w) as [o w']. cbn. split; reflexivity.
Qed.

Lemma exchange_idle (x : Exchange) (w : World) :
  idle w \/ passesGuard x w = true ->
  wp (run (operation x)) (fun _ w' => idle w') w.
Proof.
  intro Hstart. destruct w.
  destruct x as [| rev | | |]; try destruct rev; cbn [operation run] in *.
  all: unfold passesGuard, documents_length in Hstart; fields in Hstart.
  all: repeat lazymatch goal with
              | |- wp (try_finally _ _) _ _ => apply wp_finally_idle
              | _ => wp_next
              end.
  all: destruct Hstart as [Hidle | Hpass]; [exact Hidle |].
  all: revert Hpass;
    repeat match goal with
           | E : _ = _ |- _ => rewrite E; clear E
           end;
    cbn [negb andb orb]; intro Hpass; discriminate Hpass.
Qed.

End Loading.


(* ================================================================== *)
(** ** [renderDocuments] *)

Section RenderDocuments.

Context `{Browser}.

(** [doc.k] of a document that is not [null]. *)
Definition field (doc : JSON) (k : string) : JSVal :=
  match Value.prop (Some doc) k with
  | inr v => v
  | inl _ => None
  end.

(** The card of one document. *)
Definition card (doc : JSON) : string :=
  card_innerHTML (Value.toString (field doc "filename"))
    (Value.toString (field doc "chunks"))
    (dateToLocaleString (field doc "processed_at"))
    (Value.toString (field doc "path")).

(** The cards [forEach] gets to append: it stops at a [null] entry,
    whose [filename] cannot be read. *)
Fixpoint cards (items : list JSON) : list string :=
  match items with
  | [] => []
  | JNull :: _ => []
  | doc :: rest => card doc :: cards rest
  end.


Lemma renderCard_run (doc : JSON) (w : World) :
  doc <> JNull ->
  renderCard doc w
  = (Returned tt, set_knowledgeList (knowledgeList w ++ [card doc]) w).
Proof. destruct doc; [congruence | reflexivity ..]. Qed.

Lemma for_each_renderCard (items : list JSON) :
  exists o,
    (Forall (fun doc => doc <> JNull) items -> o = Returned tt)
    /\ forall i w,
         for_each (fun (_ : nat) doc => renderCard doc) i items w
         = (o, set_knowledgeList (knowledgeList w ++ cards items) w).
Proof.
  induction items as [| doc rest (o & Ho & IH)].
  - exists (Returned tt). split; [reflexivity |]. intros i w.
    cbn [for_each cards]. rewrite app_nil_r. now destruct w.
  - destruct doc.
    1: { eexists. split.
         - intro Hall. inversion Hall; congruence.
         - intros i w. cbn [for_each cards]. rewrite app_nil_r.
           destruct w; reflexivity. }
    all: exists o; split;
      [ intro Hall; inversion Hall; auto
      | intros i w; cbn [for_each cards]; unfold bind;
        rewrite renderCard_run by discriminate;
        rewrite IH; fields; now rewrite <- app_assoc ].
Qed.

(** What [renderDocuments] does to the visibility of the sections. *)
Definition reveal (w : World) : World :=
  if gt (documents_length w) 0 then
    set_flag qaSection_hidden false
      (set_flag literatureReviewSection_hidden false
         (set_flag knowledgeBaseContainer_hidden false w))
  else w.


(** [renderDocuments] up to its loop. *)
Lemma renderDocuments_start (w : World) :
  renderDocuments w
  = forEach "documents" (Some (documents w)) (fun _ doc => renderCard doc)
      (set_knowledgeList [] (reveal w)).
Proof.
  destruct w. unfold renderDocuments, reveal, bind, modify, gets, documents_length.
  fields. now destruct (gt _ _).
Qed.

(** [renderDocuments] in closed form: the outcome and the cards depend
    on [documents] alone. *)
Lemma renderDocuments_run (d : JSON) :
  exists o kl,
    (forall items, d = JArr items -> kl = cards items
       /\ (Forall (fun doc => doc <> JNull) items -> o = Returned tt))
    /\ forall w, documents w = d ->
         renderDocuments w = (o, set_knowledgeList kl (reveal w)).
Proof.
  destruct d as [| b | n | s | items | fields].
  5: { destruct (for_each_renderCard items) as (o & Ho & Hrun).
       exists o, (cards items). split.
       - intros items' [= <-]. auto.
       - intros w Hd. rewrite renderDocuments_start, Hd. cbn [forEach]. rewrite Hrun.
         reflexivity. }
  all: eexists _, []; (split; [discriminate |]);
    intros w Hd; rewrite renderDocuments_start, Hd; reflexivity.
Qed.


End RenderDocuments.

Module RenderExample.


Definition notes : JSON :=
  JObj [("filename", JStr "notes.txt"); ("path", JStr "docs/notes.txt");
        ("chunks", JNum 3); ("processed_at", JStr "2024-05-02T09:30:00")].



End RenderExample.




(* ================================================================== *)
(** ** Clicking a draft version button *)

Section VersionClick.

Definition fallbackText : string := "Could not load this version.".

(** A history that holds strings, as [draftHistory: string[]] declares. *)
Definition historyOf (drafts : list string) : list JSVal :=
  map (fun draft => Some (JStr draft)) drafts.

(** What the output pane shows for an index: the draft it selects, if it
    selects one and that draft is not the empty string. *)
Definition shown (drafts : list string) (index : option Z) : string :=
  match index with
  | None => fallbackText
  | Some i =>
      if (i <? 0)%Z then fallbackText
      else match nth_error drafts (Z.to_nat i) with
           | Some draft =>
               if (draft =? "")%string then fallbackText
               else JsString.replace_newlines draft
           | None => fallbackText
           end
  end.

Lemma draftAt_historyOf (drafts : list string) (index : option Z) :
  replaceNewlines "draftText"
    (Some (orElse (draftAt (historyOf drafts) index) (JStr fallbackText)))
  = inr (shown drafts index).
Proof.
  destruct index as [i |]; [| reflexivity].
  unfold draftAt, shown, historyOf. destruct (i <? 0)%Z; [reflexivity |].
  rewrite nth_error_map.
  destruct (nth_error drafts (Z.to_nat i)) as [draft |]; [| reflexivity].
  cbn [option_map orElse Value.truthy].
  destruct (draft =? "")%string; reflexivity.
Qed.

Lemma versionButtonClick_run (w : World) (k : nat) (target : Button)
      (drafts : list string) :
  nth_error (draftVersionControls w) k = Some target ->
  draftHistory w = historyOf drafts ->
  versionButtonClick k w
  = (Returned tt,
     set_text reviewDraftOutput_innerHTML
       (shown drafts (JsString.parseInt (storedIndex target)))
       (set_draftVersionControls (activateOnly k (draftVersionControls w)) w)).
Proof.
  intros Hk Hd. unfold versionButtonClick, bind, gets. rewrite Hk.
  unfold modify at 1. fields. rewrite Hd, draftAt_historyOf. reflexivity.
Qed.

End VersionClick.

Module ClickExample.

(** One draft, and a button whose stored index does not parse. *)
Definition oddButton : World :=
  set_draftVersionControls [mkButton (Some "abc") None "Draft" true]
    (set_draftHistory [Some (JStr "First draft")] Example.page).

(** One draft, and the button [renderDraftViewer] makes for it. *)
Definition oneDraft : World :=
  set_draftVersionControls [mkButton (Some "0") None "Draft" true]
    (set_draftHistory (historyOf [("Line one" ++ String JsString.LF "line two")%string])
       Example.page).

End ClickExample.

(** C10, as the claim states it, fails: a stored index that does not
    parse is [NaN], not 0.  With one draft in the history and [abc]
    stored on the button, the pane shows the fallback text and not the
    draft at index 0. *)
Lemma unparseable_index_not_zero :
  let w := ClickExample.oddButton in
  draftHistory w = historyOf ["First draft"]
  /\ option_map btn_index (nth_error (draftVersionControls w) 0) = Some (Some "abc")
  /\ JsString.parseInt "abc" = None
  /\ texts (final (versionButtonClick 0) w) reviewDraftOutput_innerHTML
     = "Could not load this version."
  /\ texts (final (versionButtonClick 0) w) reviewDraftOutput_innerHTML
     <> JsString.replace_newlines "First draft".
Proof.
  intro w. repeat split; try reflexivity. vm_compute. discriminate.
Qed.

(** C10 (amended).  With strings in the history, a click on a version
    button never faults.  A missing or empty stored index reads as 0; the
    stored text goes through [parseInt], and one that does not parse
    gives [NaN].  When the index selects no draft ([NaN], negative, past
    the end) or the draft it selects is the empty string, the pane shows
    ['Could not load this version.']; otherwise it shows that draft with
    every newline replaced by [<br>]. *)
Theorem versionButtonClick_shows (w : World) (k : nat) (target : Button)
        (drafts : list string) :
  nth_error (draftVersionControls w) k = Some target ->
  draftHistory w = historyOf drafts ->
  outcome (versionButtonClick k) w = Returned tt
  /\ (btn_index target = None \/ btn_index target = Some "" -> storedIndex target = "0")
  /\ JsString.parseInt "0" = Some 0%Z
  /\ texts (final (versionButtonClick k) w) reviewDraftOutput_innerHTML
     = match JsString.parseInt (storedIndex target) with
       | None => "Could not load this version."
       | Some i =>
           if (i <? 0)%Z then "Could not load this version."
           else match nth_error drafts (Z.to_nat i) with
                | Some draft =>
                    if (draft =? "")%string then "Could not load this version."
                    else JsString.replace_newlines draft
                | None => "Could not load this version."
                end
       end.
Proof.
  intros Hk Hd. unfold outcome, final.
  rewrite (@versionButtonClick_run w k target drafts Hk Hd). cbn [fst snd].
  split; [reflexivity |]. split; [| split; reflexivity].
  intros [Hnone | Hempty]; unfold storedIndex; [now rewrite Hnone | now rewrite Hempty].
Qed.

(** The theorem at the button of the only draft. *)
Lemma versionButtonClick_shows_witness :
  let w := ClickExample.oneDraft in
  nth_error (draftVersionControls w) 0 = Some (mkButton (Some "0") None "Draft" true)
  /\ draftHistory w = historyOf [("Line one" ++ String JsString.LF "line two")%string]
  /\ texts (final (versionButtonClick 0) w) reviewDraftOutput_innerHTML
     = "Line one<br>line two".
Proof.
  intro w. split; [reflexivity |]. split; [reflexivity |].
  exact (proj2 (proj2 (proj2
           (@versionButtonClick_shows w 0 _ _ eq_refl eq_refl)))).
Defined.

(* ================================================================== *)
(** ** [loadDocuments] *)

Section LoadDocuments.

Context `{Browser}.

Definition documentsRequest : Request := requestOf "/documents" "GET" None.

(** What a reload may change: the documents, the cards, the visibility of
    sections and the state of some controls, the console; and it adds
    its one request. *)
Definition reloaded (w w' : World) : Prop :=
  exists docs fl kl con,
    w' = mkWorld (isLoading w) docs (currentFileName w) (draftHistory w) fl (texts w)
           (checked w) kl (reviewProgressLog w) (draftVersionControls w)
           (chatContainer w) (alerts w) con (requests w ++ [documentsRequest]) (now w)
    /\ fl loader_hidden = flags w loader_hidden
    /\ (docs = documents w \/ Value.truthy (Some docs) = true)
    /\ match answer w documentsRequest with
       | Thrown e => con = console w ++ [ConsoleError "Error loading documents:" e]
       | Returned _ => True
       end.

Lemma wp_renderDocuments (Q : Outcome unit -> World -> Prop) (w : World) :
  (forall o kl, Q o (set_knowledgeList kl (reveal w))) -> wp renderDocuments Q w.
Proof.
  intro HQ. destruct (renderDocuments_run (documents w)) as (o & kl & _ & Hrun).
  unfold wp, outcome, final. rewrite (Hrun w eq_refl). apply HQ.
Qed.

Lemma truthy_orElse (v : JSVal) (d : JSON) :
  Value.truthy (Some d) = true -> Value.truthy (Some (orElse v d)) = true.
Proof.
  intro Hd. unfold orElse. destruct v as [j |]; [| exact Hd].
  destruct (Value.truthy (Some j)) eqn:Hj; [exact Hj | exact Hd].
Qed.

(** [loadDocuments] never throws, and it issues its one request. *)
Lemma loadDocuments_run (w : World) :
  wp loadDocuments (fun o w' => o = Returned tt /\ reloaded w w') w.
Proof.
  destruct w. unfold reloaded, answer, documentsRequest. fields.
  repeat lazymatch goal with
         | |- wp renderDocuments _ _ =>
             apply wp_renderDocuments; intros [[] | ?] ?; unfold reveal, documents_length;
             fields; destruct (gt _ _); norm_state
         | |- wp (if ?b then _ else _) _ _ => destruct b
         | |- wp _ _ _ => wp_next
         | |- match ?x with _ => _ end => destruct x
         end.
  all: split; [reflexivity |].
  all: eexists _, _, _, _; split; [reflexivity |]; fields; cbn [Flag_beq].
  all: split; [reflexivity |].
  all: split; [first [ left; reflexivity | right; now apply truthy_orElse ] |].
  all: first [ exact I | reflexivity ].
Qed.

Lemma wp_loadDocuments (Q : Outcome unit -> World -> Prop) (w : World) :
  (forall w', reloaded w w' -> Q (Returned tt) w') -> wp loadDocuments Q w.
Proof.
  intro HQ. eapply wp_weaken; [| apply loadDocuments_run].
  intros o w' [-> Hw']. now apply HQ.
Qed.

End LoadDocuments.

(* ================================================================== *)
(** ** The viewers of the drafts *)

Section Viewers.

Context `{Browser}.

Lemma wp_setLoading (l : bool) (text : string) (Q : Outcome unit -> World -> Prop)
      (w : World) :
  Q (Returned tt) (loading l text w) -> wp (setLoading l text) Q w.
Proof. unfold wp, outcome, final. now rewrite setLoading_run. Qed.

(** The phase indicator is two texts, if the page has the elements. *)
Lemma wp_updatePhaseIndicator (phaseName : string) (percentage : nat)
      (Q : Outcome unit -> World -> Prop) (w : World) :
  (forall tx, Q (Returned tt) (set_texts tx w)) ->
  wp (Enhanced.updatePhaseIndicator phaseName percentage) Q w.
Proof.
  intro HQ. unfold wp, outcome, final, Enhanced.updatePhaseIndicator, bind.
  destruct (hasElement "current-phase-text"), (hasElement "phase-progress-fill");
    cbn; try apply HQ.
  specialize (HQ (texts w)). now destruct w.
Qed.

(** The button [renderDraftViewer] makes for index [i] of [n] drafts. *)
Definition versionButton (n i : nat) : Button :=
  mkButton (Some (JsString.ofNat i)) None
    (if (i =? 0)%nat then "Draft" else ("Version " ++ JsString.ofNat (i + 1))%string)
    (i =? n - 1)%nat.

Lemma renderDraftViewer_loop (n : nat) (history : list JSVal) :
  forall i w,
    for_each
      (fun index (_ : JSVal) =>
         modify (fun w =>
           set_draftVersionControls
             (draftVersionControls w ++ [versionButton n index]) w))
      i history w
    = (Returned tt,
       set_draftVersionControls
         (draftVersionControls w
          ++ map (versionButton n) (seq i (List.length history))) w).
Proof.
  induction history as [| d rest IH]; intros i w.
  - cbn. rewrite app_nil_r. now destruct w.
  - cbn [for_each List.length seq map]. unfold bind, modify at 1. rewrite IH.
    fields. now rewrite <- app_assoc.
Qed.

(** [renderDraftViewer] in closed form. *)
Lemma renderDraftViewer_run (w : World) :
  renderDraftViewer w
  = (Returned tt,
     set_draftVersionControls
       (map (versionButton (List.length (draftHistory w)))
            (seq 0 (List.length (draftHistory w)))) w).
Proof.
  unfold renderDraftViewer, bind, gets. unfold modify at 1.
  fields. destruct (draftHistory w) as [| d rest] eqn:Hh.
  - reflexivity.
  - cbn [List.length Nat.eqb]. unfold versionButton in *.
    rewrite (renderDraftViewer_loop (S (List.length rest)) (d :: rest)).
    reflexivity.
Qed.

Lemma wp_renderDraftViewer (Q : Outcome unit -> World -> Prop) (w : World) :
  Q (Returned tt)
    (set_draftVersionControls
       (map (versionButton (List.length (draftHistory w)))
            (seq 0 (List.length (draftHistory w)))) w) ->
  wp renderDraftViewer Q w.
Proof. unfold wp, outcome, final. now rewrite renderDraftViewer_run. Qed.

(** What [processReviewPhases] may change: the phase indicator, and
    nothing else, as no call of [addProgressLog] returns. *)
Definition narrated (w w' : World) : Prop :=
  exists tx, w' = set_texts tx w.

Lemma narrated_refl (w : World) : narrated w w.
Proof. exists (texts w). now destruct w. Qed.

Lemma narrated_texts (w w' : World) (tx : Slot -> string) :
  narrated w w' -> narrated w (set_texts tx w').
Proof. intros (tx' & ->). now exists tx. Qed.

Lemma processReviewPhases_narrates (w0 : World) (phases : JSON) :
  preserves (narrated w0) (Enhanced.processReviewPhases phases).
Proof.
  unfold Enhanced.processReviewPhases.
  apply preserves_for_each. intros i phase.
  unfold Enhanced.showPhase.
  repeat first
    [ lazymatch goal with
      | |- preserves _ (modify _) =>
          apply preserves_modify; intros ? ?; now apply narrated_texts
      end
    | preserve_step ].
Qed.

Lemma wp_processReviewPhases (phases : JSON) (Q : Outcome unit -> World -> Prop)
      (w : World) :
  (forall o tx, Q o (set_texts tx w)) ->
  wp (Enhanced.processReviewPhases phases) Q w.
Proof.
  intro HQ. unfold wp.
  destruct (processReviewPhases_narrates (w0 := w) phases (narrated_refl w))
    as (tx & ->).
  apply HQ.
Qed.

End Viewers.

(** Symbolic execution, with the closed forms and the frames above. *)
Ltac wp_special :=
  lazymatch goal with
  | |- wp loadDocuments _ _ =>
      apply wp_loadDocuments;
      let w' := fresh "w" in
      intros w' (? & ? & ? & ? & -> & ? & ? & ?); fields
  | |- wp (Enhanced.processReviewPhases _) _ _ =>
      apply wp_processReviewPhases; intros [[] | ?] ?; norm_state
  | |- wp renderDraftViewer _ _ =>
      apply wp_renderDraftViewer; norm_state; fields
  | |- wp (setLoading _ _) _ _ => apply wp_setLoading; norm_state
  | |- wp (Enhanced.updatePhaseIndicator _ _) _ _ =>
      apply wp_updatePhaseIndicator; intro; norm_state
  | |- wp (for_each _ _ (_ :: _)) _ _ => cbn [for_each]
  | |- wp (for_each _ _ []) _ _ => cbn [for_each]
  | |- wp (Enhanced.renderEnhancedDraftViewer _) _ _ =>
      unfold Enhanced.renderEnhancedDraftViewer, Enhanced.sections
  end.

Ltac wp_exec := repeat first [ wp_special | wp_next ].

(* ================================================================== *)
(** ** One exchange per handler *)

Section Exchanges.

Context `{Browser}.

(** [currentFileName || `Manual_Entry_${Date.now()}.txt`] *)
Definition docName (w : World) : string :=
  if (currentFileName w =? "")%string
  then ("Manual_Entry_" ++ JsString.ofZ (now w) ++ ".txt")%string
  else currentFileName w.

Definition queryRequest (question : string) : Request :=
  requestOf "/query" "POST" (Some (JObj [("question", JStr question)])).

Definition editorText (w : World) : string :=
  JsString.trim (innerText (texts w writingEditor_innerHTML)).

Definition topicOf (w : World) : string :=
  JsString.trim (texts w reviewTopicInput_value).

Definition radio (w : World) (group fallback : string) : string :=
  match checked w group with
  | Some value => value
  | None => fallback
  end.

(** The request a handler is about to make in state [w], if its run gets
    that far.  The review of [part_000] reads the checked radio button
    without a default and gives up, inside its [try], when none is
    checked.  The review of [part_001] calls [addProgressLog], which the
    file does not define, before its [apiCall], and gets to no request. *)
Definition mainRequest (x : Exchange) (w : World) : option Request :=
  if passesGuard x w then
    match x with
    | ExProcessArticle =>
        Some (requestOf "/add_document" "POST"
                (Some (JObj [("content", JStr (JsString.trim (texts w articleInput_value)));
                             ("filename", JStr (docName w))])))
    | ExGenerateReview index_js =>
        Some (queryRequest (reviewPrompt (radio w "review-length" "detailed") (topicOf w)))
    | ExGenerateReview part_000 =>
        match checked w "review-length" with
        | Some value => Some (queryRequest (reviewPrompt value (topicOf w)))
        | None => None
        end
    | ExGenerateReview part_001 => None
    | ExAskQuestion =>
        Some (queryRequest (JsString.trim (texts w questionInput_value)))
    | ExAnalyzeText =>
        Some (queryRequest
                ("Please analyze this text for grammar, style, and clarity issues. Provide specific suggestions for improvement:"
                 ++ blankLine ++ quoted (editorText w)))
    | ExSimilarityCheck =>
        Some (queryRequest
                ("Check if this text has any similarities to the documents in the knowledge base. Identify any potential plagiarism or very similar passages:"
                 ++ blankLine ++ quoted (editorText w)))
    end
  else None.

(** The requests of a whole run: the handler's own and, after an article
    was accepted, the reload of the document list. *)
Definition exchange (x : Exchange) (w : World) : list Request :=
  match mainRequest x w with
  | None => []
  | Some req =>
      req :: match x, answer w req with
             | ExProcessArticle, Returned _ => [documentsRequest]
             | _, _ => []
             end
  end.

(** How a handler shows the user that its request failed with [e]. *)
Definition surfaced (x : Exchange) (e : Exn) (w w' : World) : Prop :=
  match x with
  | ExProcessArticle =>
      alerts w' = alerts w ++ [("❌ Error adding document: " ++ Value.message e)%string]
  | ExGenerateReview part_001 => False   (* it makes no request *)
  | ExGenerateReview _ =>
      alerts w' = alerts w ++ ["Error generating literature review."]
      /\ reviewProgressLog w'
         = ["<strong>Step 1:</strong> Querying GraphRAG system...";
            ("❌ Error: " ++ Value.message e)%string]
  | ExAskQuestion =>
      chatContainer w'
      = chatContainer w
        ++ [(JsString.trim (texts w questionInput_value), "user");
            (("Sorry, I encountered an error: " ++ Value.message e)%string, "model")]
      /\ alerts w' = alerts w
      /\ reviewProgressLog w' = reviewProgressLog w
  | ExAnalyzeText =>
      texts w' suggestionsPanel_innerHTML = placeholder "Failed to analyze text."
      /\ alerts w' = alerts w
      /\ reviewProgressLog w' = reviewProgressLog w
  | ExSimilarityCheck =>
      alerts w' = alerts w ++ ["Error during similarity check."]
  end.

(** The history of drafts after a review run: emptied, then at most the
    one draft of this run; with [renderDraftViewer], a draft that is a
    string is on display under the one button the viewer then has. *)
Definition drafted (rev : Revision) (w w' : World) : Prop :=
  match mainRequest (ExGenerateReview rev) w with
  | Some req =>
      match answer w req with
      | Returned result =>
          match result with
          | JNull => draftHistory w' = []
          | _ => draftHistory w' = [field result "answer"]
          end
          /\ match field result "answer" with
             | Some (JStr draft) =>
                 draftVersionControls w' = [versionButton 1 0]
                 /\ texts w' reviewDraftOutput_innerHTML
                    = JsString.replace_newlines draft
             | _ => True
             end
      | Thrown _ => draftHistory w' = []
      end
  | None =>
      if passesGuard (ExGenerateReview rev) w then draftHistory w' = []
      else draftHistory w' = draftHistory w
  end.

(** How a run ends.  Every handler returns, but the review of [part_001]
    past its guard: the [ReferenceError] of its first [addProgressLog]
    takes it to its [catch], which calls [addProgressLog] again. *)
Definition ending (x : Exchange) (w : World) : Outcome unit :=
  match x with
  | ExGenerateReview part_001 =>
      if passesGuard x w
      then Thrown (ReferenceError "addProgressLog is not defined")
      else Returned tt
  | _ => Returned tt
  end.

(** Everything the properties below need from one run of a handler. *)
Definition summary (x : Exchange) (w : World) (o : Outcome unit) (w' : World) : Prop :=
  o = ending x w
  /\ requests w' = requests w ++ exchange x w
  /\ match mainRequest x w with
     | Some req =>
         match answer w req with
         | Thrown e => surfaced x e w w'
         | Returned _ => True
         end
     | None => True
     end
  /\ match x with
     | ExGenerateReview rev => drafted rev w w'
     | _ => draftHistory w' = draftHistory w
     end.

Lemma exchange_summary (x : Exchange) (w : World) :
  wp (run (operation x)) (summary x w) w.
Proof.
  destruct w.
  destruct x as [| rev | | |]; try destruct rev; cbn [operation run].
  all: unfold summary, ending, surfaced, drafted, exchange, mainRequest, answer,
         passesGuard, documents_length, queryRequest, editorText, topicOf, radio,
         docName, field,
         Basic.handleGenerateReview, Legacy.handleGenerateReview, generateReview,
         Basic.readReviewLength, Legacy.readReviewLength;
       fields.
  all: wp_exec.
  all: cbn [negb andb orb app Slot_beq]; rewrite <- ?app_assoc, ?app_nil_r.
  all: repeat match goal with
              | E : _ = _ |- _ => rewrite E
              end.
  all: repeat split; auto.
  all: try match goal with
           | E : Value.prop (Some ?a) _ = _ |- match ?a with _ => _ end =>
               destruct a; cbn [Value.prop] in E; try discriminate E;
               try (injection E as <-); reflexivity
           end.
  all: match goal with
       | E : replaceNewlines _ ?j = _ |- _ =>
           destruct j as [[] |]; try exact I; cbn [replaceNewlines] in E;
           try discriminate E; injection E as <-
       end.
  all: cbn [List.length seq map Slot_beq]; repeat split; reflexivity.
Qed.

End Exchanges.

Module ExchangeExamples.

(** A backend that accepts everything and answers with an empty object. *)
Definition agreeable : Browser :=
  Example.constantly (Responded {| status := 200; body := Parsed (JObj []) |}).

End ExchangeExamples.

(** C3, as the claim states it, fails: a run of process article whose
    [POST /add_document] succeeds goes on to reload the document list, so
    it issues two requests; and a handler that returns at its input guard
    issues none. *)
Lemma process_article_issues_two :
  ~ (forall (B : Browser) (x : Exchange) (w : World),
        List.length (issued (run (operation x)) w) = 1%nat).
Proof.
  intro claim.
  specialize (claim ExchangeExamples.agreeable ExProcessArticle ContractExamples.busyPage).
  vm_compute in claim. discriminate claim.
Qed.

(** C3 (amended).  A run of generate review ([index.js], [part_000]),
    ask question, analyze text or similarity check issues its one request
    when it gets past the handler's input guard, and none when it returns
    at the guard (or, for the review of [part_000], when no radio button
    is checked).  A run of process article issues its
    [POST /add_document] and then, when that succeeded, one
    [GET /documents] that reloads the list. *)
Theorem one_exchange `{Browser} (x : Exchange) (w : World) :
  x <> ExGenerateReview part_001 ->
  issued (run (operation x)) w
  = match mainRequest x w with
    | None => []
    | Some req =>
        req :: match x, answer w req with
               | ExProcessArticle, Returned _ => [documentsRequest]
               | _, _ => []
               end
    end
  /\ (mainRequest x w = None <->
      passesGuard x w = false
      \/ (x = ExGenerateReview part_000 /\ checked w "review-length" = None)).
Proof.
  intro Hx. split.
  - destruct (exchange_summary x w) as (_ & Hrequests & _).
    unfold issued. rewrite Hrequests. apply skipn_length_app.
  - unfold mainRequest. destruct (passesGuard x w); [| tauto].
    destruct x as [| [] | | |]; try congruence;
      try (split; [discriminate | intros [|[? _]]; discriminate]).
    destruct (checked w "review-length").
    + split; [discriminate | intros [| [_ ?]]; discriminate].
    + split; auto.
Qed.

(** The theorem at an article pasted into the text area and accepted by
    the backend: the upload, then the reload. *)
Lemma one_exchange_witness :
  let B := ExchangeExamples.agreeable in
  ExProcessArticle <> ExGenerateReview part_001
  /\ map target (issued (run (operation ExProcessArticle)) ContractExamples.busyPage)
     = [("POST", "/api/add_document"); ("GET", "/api/documents")].
Proof.
  intro B. split; [discriminate |].
  rewrite (proj1 (@one_exchange B ExProcessArticle ContractExamples.busyPage
                    ltac:(discriminate))).
  vm_compute. reflexivity.
Defined.

(* ================================================================== *)
(** ** The history of drafts *)

Section Drafts.

Context `{Browser}.


(** The buttons [renderEnhancedDraftViewer] makes. *)
Definition sectionButton (index : nat) (section : string) : Button :=
  mkButton None (Some (JsString.toLowerCase section)) section (index =? 0)%nat.

Definition sectionButtons : list Button :=
  map (fun entry => sectionButton (fst entry) (snd entry))
      (combine (seq 0 (List.length Enhanced.sections)) Enhanced.sections).

(** [process.phases] of a [process] that is not [null] or [undefined]. *)
Definition phasesOf (process : JSVal) : JSVal :=
  match Value.prop process "phases" with
  | inr phases => phases
  | inl _ => None
  end.

Lemma renderEnhancedDraftViewer_run (process : JSVal) (w : World) :
  Enhanced.renderEnhancedDraftViewer process w
  = (Returned tt,
     set_draftVersionControls
       (if Value.truthy process && Value.truthy (phasesOf process)
        then sectionButtons else []) w).
Proof.
  unfold Enhanced.renderEnhancedDraftViewer, phasesOf, bind. unfold modify at 1.
  destruct (Value.truthy process) eqn:Hprocess; cbn [negb andb]; [| reflexivity].
  destruct (Value.prop process "phases") as [e | phases] eqn:Hphases.
  - destruct process as [[] |]; discriminate.
  - cbn [lift ret]. destruct (Value.truthy phases); cbn [negb]; [| reflexivity].
    destruct w. reflexivity.
Qed.


End Drafts.

Module DraftExample.

Definition writer : Browser :=
  Example.constantly
    (Responded {| status := 200;
                  body := Parsed (JObj [("answer", JStr "Graphs help retrieval.")]) |}).

(** A page that still shows two drafts of an earlier run. *)
Definition stale : World :=
  set_draftHistory [Some (JStr "old draft"); Some (JStr "older draft")]
    ContractExamples.busyPage.


End DraftExample.




(* ================================================================== *)
(** ** Uploading a batch of files *)

Section Batch.

Context `{Browser}.

(** What reading the file for the batch upload gives: the request that
    carries its content, or what the read failed with.  It depends on the
    file alone. *)
Definition batchRequest (rev : Revision) (file : File) : Exn + Request :=
  match rev with
  | part_000 =>
      if (file_type file =? "application/pdf")%string then
        match file_pdfPages file with
        | inl e => inl e
        | inr pages =>
            inr (requestOf "/add_document" "POST"
                   (Some (JObj [("content",
                                 JStr (JsString.trim
                                         (String.concat "" (map Legacy.pageText pages))));
                                ("filename", JStr (file_name file))])))
        end
      else
        match file_text file with
        | inl e => inl e
        | inr fullText =>
            inr (requestOf "/add_document" "POST"
                   (Some (JObj [("content", JStr (JsString.trim fullText));
                                ("filename", JStr (file_name file))])))
        end
  | _ =>
      let fileExtension := JsString.fileExtension (file_name file) in
      if (fileExtension =? "pdf")%string || (fileExtension =? "docx")%string
         || (fileExtension =? "doc")%string
      then
        match file_dataURL file with
        | None => inl ProgressEvent
        | Some base64 =>
            inr (requestOf "/add_document" "POST"
                   (Some (JObj [("content", JStr base64);
                                ("filename", JStr (file_name file));
                                ("file_type",
                                 JStr (if (fileExtension =? "pdf")%string
                                       then "pdf" else "docx"))])))
        end
      else
        match file_text file with
        | inl e => inl e
        | inr fullText =>
            inr (requestOf "/add_document" "POST"
                   (Some (JObj [("content", JStr (JsString.trim fullText));
                                ("filename", JStr (file_name file));
                                ("file_type", JStr "text")])))
        end
  end.

(** The loop body of a revision. *)
Definition uploadOneOf (rev : Revision) : nat -> nat -> File -> Js unit :=
  match rev with
  | part_000 => Legacy.uploadOne
  | _ => uploadOne
  end.

Definition selectManyOf (rev : Revision) : list File -> Js unit :=
  match rev with
  | part_000 => Legacy.selectMany
  | _ => selectMany
  end.

(** The alert that follows a file that failed. *)
Definition continuing (file : File) : string :=
  ("Error processing " ++ file_name file ++ ". Continuing with next file.")%string.

(** The requests of the batch, and the files of the batch that fail,
    when [n] requests were issued before the batch. *)
Fixpoint uploads (rev : Revision) (files : list File) : list Request :=
  match files with
  | [] => []
  | file :: rest =>
      match batchRequest rev file with
      | inl _ => uploads rev rest
      | inr req => req :: uploads rev rest
      end
  end.

Fixpoint failures (rev : Revision) (n : nat) (files : list File) : list File :=
  match files with
  | [] => []
  | file :: rest =>
      match batchRequest rev file with
      | inl _ => file :: failures rev n rest
      | inr req =>
          match settle (backend n req) with
          | Returned _ => failures rev (S n) rest
          | Thrown _ => file :: failures rev (S n) rest
          end
      end
  end.

(** One round of the loop: whatever happens to the file, the round ends
    normally. *)
Definition batchStep (rev : Revision) (file : File) (w w' : World) : Prop :=
  match batchRequest rev file with
  | inl _ =>
      requests w' = requests w /\ alerts w' = alerts w ++ [continuing file]
  | inr req =>
      requests w' = requests w ++ [req]
      /\ match answer w req with
         | Returned _ => alerts w' = alerts w
         | Thrown _ => alerts w' = alerts w ++ [continuing file]
         end
  end.

Lemma uploadOne_step (rev : Revision) (total i : nat) (file : File) (w : World) :
  wp (uploadOneOf rev total i file)
     (fun o w' => o = Returned tt /\ batchStep rev file w w') w.
Proof.
  destruct w.
  destruct rev; cbn [uploadOneOf]; unfold batchStep, batchRequest, answer, continuing,
    Legacy.readFullText, readAsDataURL; fields.
  all: wp_exec.
  all: cbn [negb andb orb app]; rewrite <- ?app_assoc, ?app_nil_r.
  all: repeat match goal with
              | E : _ = _ |- _ => rewrite E
              end.
  all: repeat split; auto.
Qed.

(** The loop: every file has its round. *)
Definition batchRun (rev : Revision) (files : list File) (w w' : World) : Prop :=
  requests w' = requests w ++ uploads rev files
  /\ alerts w' = alerts w ++ map continuing (failures rev (List.length (requests w)) files).

Lemma batch_loop (rev : Revision) (total : nat) (files : list File) :
  forall i w,
    wp (for_each (uploadOneOf rev total) i files)
       (fun o w' => o = Returned tt /\ batchRun rev files w w') w.
Proof.
  induction files as [| file rest IH]; intros i w.
  - cbn [for_each]. apply wp_ret. unfold batchRun. cbn [uploads failures map].
    now rewrite !app_nil_r.
  - cbn [for_each]. apply wp_bind.
    eapply wp_weaken; [| apply uploadOne_step].
    intros o w1 [-> Hstep]. cbv beta iota.
    eapply wp_weaken; [| apply IH].
    intros o w' [-> [Hrequests Halerts]]. split; [reflexivity |].
    unfold batchRun, batchStep, answer in *. cbn [uploads failures].
    destruct (batchRequest rev file) as [e | req].
    + destruct Hstep as [Hr Ha]. rewrite Hrequests, Halerts, Hr, Ha.
      cbn [map]. now rewrite <- app_assoc.
    + destruct Hstep as [Hr Ha]. rewrite Hrequests, Halerts, Hr.
      rewrite length_app, Nat.add_1_r. cbn [List.length].
      destruct (settle (backend (List.length (requests w)) req)); rewrite Ha.
      * now rewrite <- app_assoc.
      * cbn [map]. now rewrite <- !app_assoc.
Qed.

End Batch.

Section BatchRun.

Context `{Browser}.

Lemma selectMany_run (rev : Revision) (files : list File) (w : World) :
  wp (selectManyOf rev files)
     (fun o w' =>
        o = Returned tt
        /\ requests w' = requests w ++ uploads rev files ++ [documentsRequest]
        /\ alerts w' = alerts w
                       ++ map continuing (failures rev (List.length (requests w)) files)
        /\ idle w') w.
Proof.
  assert (Hrun : forall (body : nat -> nat -> File -> Js unit),
             body = uploadOneOf rev ->
             wp (modify (set_text fileNameDisplay_textContent
                           ("Processing " ++ JsString.ofNat (List.length files) ++ " files...")) ;;
                 for_each (body (List.length files)) 0 files ;;
                 loadDocuments ;;
                 setLoading false "Processing..." ;;
                 modify (set_text fileNameDisplay_textContent
                           (JsString.ofNat (List.length files) ++ " file(s) processed.")) ;;
                 modify (set_text fileInput_value ""))
                (fun o w' =>
                   o = Returned tt
                   /\ requests w' = requests w ++ uploads rev files ++ [documentsRequest]
                   /\ alerts w' = alerts w
                        ++ map continuing (failures rev (List.length (requests w)) files)
                   /\ idle w') w).
  { intros body ->.
    apply wp_bind, wp_modify. cbv beta iota. apply wp_bind.
    eapply wp_weaken; [| apply batch_loop].
    intros o w2 [-> [Hrequests Halerts]]. cbv beta iota.
    fields in Hrequests. fields in Halerts.
    apply wp_bind, wp_loadDocuments.
    intros w3 (docs & fl & kl & con & -> & Hfl & _ & _).
    apply wp_bind, wp_setLoading. cbv beta iota.
    apply wp_bind, wp_modify. cbv beta iota. apply wp_modify.
    unfold idle, loading. fields. cbn [Flag_beq negb].
    rewrite Hrequests, Halerts, <- app_assoc. auto. }
  destruct rev; apply Hrun; reflexivity.
Qed.

End BatchRun.

Module BatchExample.



(** A scanned PDF that the reader cannot read. *)
Definition brokenPdf : File :=
  {| file_name := "scan.pdf"; file_type := "application/pdf";
     file_text := inl (ErrorObj "unreadable"); file_dataURL := None;
     file_pdfPages := inl (ErrorObj "Invalid PDF structure") |}.


End BatchExample.



(* ================================================================== *)
(** ** Every operation, request by request *)

Section Plans.

Context `{Browser}.

Definition statusRequest : Request := requestOf "/status" "GET" None.

(** The upload of the one file picked, in [index.js] and [part_001]:
    PDF and Word files go to the backend as a data URL, a text file only
    fills the text area. *)
Definition binaryUpload (file : File) (fileType : string) : option Request :=
  match file_dataURL file with
  | Some base64 =>
      Some (requestOf "/add_document" "POST"
              (Some (JObj [("content", JStr base64);
                           ("filename", JStr (file_name file));
                           ("file_type", JStr fileType)])))
  | None => None
  end.

Definition singleUpload (file : File) : option Request :=
  let fileExtension := JsString.fileExtension (file_name file) in
  if (file_type file =? "application/pdf")%string || (fileExtension =? "pdf")%string
  then binaryUpload file "pdf"
  else if (fileExtension =? "docx")%string || (fileExtension =? "doc")%string
  then binaryUpload file "docx"
  else None.

(** The pane, as the script reads it. *)
Definition paneMarkup (w : World) : string :=
  serializedHTML (texts w reviewDraftOutput_innerHTML).

Definition refinementRequest (refinementType : string) (w : World) : option Request :=
  if hasElement "refinement-feedback" then
    if (paneMarkup w =? "")%string then None
    else
      Some (requestOf "/refine_review_section" "POST"
              (Some (JObj [("section_content", JStr (JsString.replace_br (paneMarkup w)));
                           ("refinement_type", JStr refinementType);
                           ("feedback",
                            JStr (JsString.trim (texts w refinementFeedback_value)))])))
  else None.

(** A batch upload: two files or more. *)
Definition isBatch (op : Operation) : bool :=
  match op with
  | FileSelect _ (Some (_ :: _ :: _)) => true
  | _ => false
  end.

(** The first request of an operation that is not a batch upload, if its
    run gets as far as a request. *)
Definition firstRequest (op : Operation) (w : World) : option Request :=
  match op with
  | ProcessArticle => mainRequest ExProcessArticle w
  | GenerateReview rev => mainRequest (ExGenerateReview rev) w
  | AskQuestion => mainRequest ExAskQuestion w
  | AnalyzeText => mainRequest ExAnalyzeText w
  | SimilarityCheck => mainRequest ExSimilarityCheck w
  | FileSelect part_000 _ => None
  | FileSelect _ (Some [file]) => singleUpload file
  | FileSelect _ _ => None
  | SectionRefinement refinementType => refinementRequest refinementType w
  | Initialize _ => Some statusRequest
  | VersionClick _ | SectionClick _ => None
  end.

(** What follows a first request that succeeded with [result]: the
    reload of the document list, or nothing. *)
Definition followUp (op : Operation) (result : JSON) : list Request :=
  match op with
  | ProcessArticle => [documentsRequest]
  | FileSelect _ _ => [documentsRequest]
  | Initialize _ =>
      if strictEqStr (field result "status") "ready" then [documentsRequest] else []
  | _ => []
  end.

Definition planned (op : Operation) (w : World) : list Request :=
  match firstRequest op w with
  | None => []
  | Some req =>
      req :: match answer w req with
             | Returned result => followUp op result
             | Thrown _ => []
             end
  end.

(** How an operation shows that its first request failed with [e]. *)
Definition failureShown (op : Operation) (e : Exn) (w w' : World) : Prop :=
  match op with
  | ProcessArticle => surfaced ExProcessArticle e w w'
  | GenerateReview rev => surfaced (ExGenerateReview rev) e w w'
  | AskQuestion => surfaced ExAskQuestion e w w'
  | AnalyzeText => surfaced ExAnalyzeText e w w'
  | SimilarityCheck => surfaced ExSimilarityCheck e w w'
  | FileSelect _ (Some [file]) =>
      alerts w' = alerts w
                  ++ [("Error processing " ++ file_name file ++ ": " ++ Value.message e)%string]
  | SectionRefinement _ =>
      alerts w' = alerts w ++ [("Error applying refinement: " ++ Value.message e)%string]
  | Initialize _ =>
      console w' = console w
                   ++ [ConsoleLog "🚀 Initializing GraphRAG Frontend...";
                       ConsoleError "❌ System not ready:" e;
                       ConsoleLog "⚠️  GraphRAG system not ready, but you can still add documents"]
      /\ alerts w' = alerts w
  | _ => True
  end.

Definition account (op : Operation) (w : World) (o : Outcome unit) (w' : World) : Prop :=
  requests w' = requests w ++ planned op w
  /\ (o = Returned tt \/ requests w' = requests w)
  /\ match firstRequest op w with
     | Some req =>
         match answer w req with
         | Thrown e => failureShown op e w w'
         | Returned _ => True
         end
     | None => True
     end.

Lemma planned_exchange (x : Exchange) (w : World) :
  planned (operation x) w = exchange x w.
Proof.
  unfold planned, exchange.
  destruct x as [| [] | | |]; cbn [operation firstRequest followUp];
    destruct (mainRequest _ w) as [req |]; try reflexivity;
    destruct (answer w req); reflexivity.
Qed.

Lemma exchange_account (x : Exchange) (w : World) :
  wp (run (operation x)) (account (operation x) w) w.
Proof.
  eapply wp_weaken; [| apply exchange_summary].
  intros o w' (Ho & Hrequests & Hshown & _). unfold account.
  rewrite planned_exchange. split; [exact Hrequests |]. split.
  - destruct x as [| [] | | |]; cbn [ending] in Ho; try (now left).
    unfold exchange, mainRequest in Hrequests.
    destruct (passesGuard (ExGenerateReview part_001) w); [right | now left].
    now rewrite app_nil_r in Hrequests.
  - destruct x as [| [] | | |]; exact Hshown.
Qed.

Lemma other_account (op : Operation) (w : World) :
  match op with
  | FileSelect _ _ | SectionRefinement _ | Initialize _ | VersionClick _ | SectionClick _ =>
      isBatch op = false
  | _ => False
  end ->
  wp (run op) (account op w) w.
Proof.
  intro Hop. destruct w.
  destruct op as [| rev files | rev | | | | refinementType | k | k | rev];
    try contradiction.
  - destruct files as [[| file [| file' rest]] |]; try discriminate Hop;
      destruct rev; cbn [run handleFileSelect Legacy.handleFileSelect].
    all: unfold account, planned, firstRequest, followUp, failureShown, answer,
           singleUpload, binaryUpload, selectOne, Legacy.selectOne, uploadBinary,
           Legacy.readFullText, readAsDataURL, quoted; fields.
    all: wp_exec.
    all: cbn [negb andb orb app]; rewrite <- ?app_assoc, ?app_nil_r.
    all: repeat match goal with
                | E : _ = _ |- _ => rewrite E
                end.
    all: repeat split; auto.
  - cbn [run]. unfold account, planned, firstRequest, followUp, failureShown, answer,
      refinementRequest, paneMarkup; fields.
    wp_exec.
    all: cbn [negb andb orb app]; rewrite <- ?app_assoc, ?app_nil_r.
    all: repeat match goal with
                | E : _ = _ |- _ => rewrite E
                end.
    all: repeat split; auto.
  - cbn [run]. unfold account, planned, firstRequest; fields.
    wp_exec.
    all: rewrite ?app_nil_r; repeat split; auto.
  - cbn [run]. unfold account, planned, firstRequest, Enhanced.sectionButtonClick,
      Enhanced.sections; fields.
    wp_exec.
    all: rewrite ?app_nil_r; repeat split; auto.
  - destruct rev; cbn [run]; unfold Basic.initializeApp, Legacy.initializeApp,
      Enhanced.initializeApp, initialize.
    all: unfold account, planned, firstRequest, followUp, failureShown, answer,
           statusRequest, field; fields.
    all: wp_exec.
    all: cbn [negb andb orb app]; rewrite <- ?app_assoc, ?app_nil_r.
    all: repeat match goal with
                | E : _ = _ |- _ => rewrite E
                end.
    all: repeat split; auto.
Qed.

End Plans.

Section Accounts.

Context `{Browser}.

Lemma run_account (op : Operation) (w : World) :
  isBatch op = false -> wp (run op) (account op w) w.
Proof.
  intro Hop.
  destruct op as [| rev files | rev | | | | refinementType | k | k | rev].
  - exact (exchange_account ExProcessArticle w).
  - now apply other_account.
  - exact (exchange_account (ExGenerateReview rev) w).
  - exact (exchange_account ExAskQuestion w).
  - exact (exchange_account ExAnalyzeText w).
  - exact (exchange_account ExSimilarityCheck w).
  - now apply other_account.
  - now apply other_account.
  - now apply other_account.
  - now apply other_account.
Qed.

Lemma issued_planned (op : Operation) (w : World) :
  isBatch op = false -> issued (run op) w = planned op w.
Proof.
  intro Hop. destruct (run_account op w Hop) as (Hrequests & _).
  unfold issued. rewrite Hrequests. apply skipn_length_app.
Qed.

Lemma skipn_all_length (A : Type) (l : list A) : skipn (List.length l) l = [].
Proof. induction l; [reflexivity | exact IHl]. Qed.

(** No run lets a failed request escape: a run that throws has not
    issued any request. *)
Lemma run_returns (op : Operation) (w : World) :
  outcome (run op) w = Returned tt \/ issued (run op) w = [].
Proof.
  destruct (isBatch op) eqn:Hop.
  - left. destruct op as [| rev [[| f1 [| f2 rest]] |] | | | | | | | |];
      try discriminate Hop.
    assert (Hselect : run (FileSelect rev (Some (f1 :: f2 :: rest)))
                      = selectManyOf rev (f1 :: f2 :: rest))
      by (destruct rev; reflexivity).
    rewrite Hselect. exact (proj1 (selectMany_run rev (f1 :: f2 :: rest) w)).
  - destruct (run_account op w Hop) as (_ & [Ho | Hsame] & _); [now left | right].
    unfold issued. fold (final (run op) w). rewrite Hsame. apply skipn_all_length.
Qed.

(** In what an operation outside a batch issues, a request that fails
    is the last one. *)
Lemma planned_stops (op : Operation) (w : World) (k : nat) (req : Request) (e : Exn) :
  nth_error (planned op w) k = Some req ->
  settle (backend (List.length (requests w) + k) req) = Thrown e ->
  List.length (planned op w) = S k.
Proof.
  unfold planned. destruct (firstRequest op w) as [first |]; [| now destruct k].
  destruct k as [| k]; cbn [nth_error].
  - intros [= ->]. rewrite Nat.add_0_r. fold (answer w req). now intros ->.
  - destruct (answer w first) as [result | e']; [| now destruct k].
    assert (Hfollow : followUp op result = [] \/ followUp op result = [documentsRequest]).
    { destruct op; cbn [followUp]; auto. destruct (strictEqStr _ _); auto. }
    destruct Hfollow as [-> | ->]; [now destruct k |].
    destruct k as [| k]; [reflexivity | now destruct k].
Qed.

(** [loadDocuments] keeps a failed reload to itself. *)
Lemma loadDocuments_quiet (w : World) (e : Exn) :
  answer w documentsRequest = Thrown e ->
  outcome loadDocuments w = Returned tt
  /\ console (final loadDocuments w)
     = console w ++ [ConsoleError "Error loading documents:" e]
  /\ alerts (final loadDocuments w) = alerts w
  /\ reviewProgressLog (final loadDocuments w) = reviewProgressLog w
  /\ chatContainer (final loadDocuments w) = chatContainer w.
Proof.
  intro Hfail.
  destruct (loadDocuments_run w)
    as (Ho & docs & fl & kl & con & Hw' & _ & _ & Hcon).
  rewrite Hfail in Hcon. split; [exact Ho |].
  rewrite Hw'. cbn [console alerts reviewProgressLog chatContainer]. auto.
Qed.

End Accounts.

Module FailureExample.

(** The page of [ContractExamples.busyPage] with a question typed in. *)
Definition asking : World :=
  set_text questionInput_value " What is GraphRAG? " ContractExamples.busyPage.

Definition question : Request := queryRequest "What is GraphRAG?".

End FailureExample.

(** C6.  [apiCall] performs exactly one [fetch], whatever the response.
    Outside a batch upload, a request that fails is the last request of
    the run: no handler sends anything after it has caught the failure.
    In a batch upload the loop moves on: the requests are one upload per
    readable file, then the reload, and what the backend answered to any
    of them changes none of them. *)
Theorem failed_request_not_retried `{Browser} :
  (forall endpoint method data w,
      issued (apiCall endpoint method data) w = [requestOf endpoint method data])
  /\ (forall op w k req e,
        isBatch op = false ->
        nth_error (issued (run op) w) k = Some req ->
        settle (backend (List.length (requests w) + k) req) = Thrown e ->
        List.length (issued (run op) w) = S k)
  /\ (forall rev files w,
        (2 <= List.length files)%nat ->
        issued (run (FileSelect rev (Some files))) w
        = uploads rev files ++ [documentsRequest]).
Proof.
  split; [| split].
  - intros endpoint method data w. unfold issued, final.
    rewrite apiCall_run. cbn [snd requests set_requests]. apply skipn_length_app.
  - intros op w k req e Hop. rewrite (issued_planned op w Hop). apply planned_stops.
  - intros rev files w Hmany.
    assert (Hselect : run (FileSelect rev (Some files)) = selectManyOf rev files).
    { destruct files as [| f1 [| f2 rest]]; cbn in Hmany; try lia.
      destruct rev; reflexivity. }
    rewrite Hselect.
    destruct (selectMany_run rev files w) as (_ & Hrequests & _).
    unfold issued. fold (final (selectManyOf rev files) w).
    rewrite Hrequests. apply skipn_length_app.
Qed.

(** The theorem at a question asked while the backend is down. *)
Lemma failed_request_not_retried_witness :
  let B := ContractExamples.down in
  isBatch AskQuestion = false
  /\ nth_error (issued (run AskQuestion) FailureExample.asking) 0
     = Some FailureExample.question
  /\ settle (backend (List.length (requests FailureExample.asking) + 0)
               FailureExample.question)
     = Thrown (TypeError "Failed to fetch")
  /\ List.length (issued (run AskQuestion) FailureExample.asking) = 1%nat.
Proof.
  intro B.
  assert (Hnth : nth_error (issued (run AskQuestion) FailureExample.asking) 0
                 = Some FailureExample.question) by (vm_compute; reflexivity).
  split; [reflexivity |]. split; [exact Hnth |]. split; [reflexivity |].
  exact (proj1 (proj2 (@failed_request_not_retried B))
           AskQuestion FailureExample.asking 0%nat FailureExample.question
           (TypeError "Failed to fetch") eq_refl Hnth eq_refl).
Defined.

(** C1, as the claim states it, fails: when the request of ask question
    fails, the handler adds no alert and no entry to the progress log;
    the failure is shown as a message in the chat. *)
Lemma ask_failure_neither_alert_nor_log :
  ~ (forall (B : Browser) (x : Exchange) (w : World) (req : Request) (e : Exn),
        mainRequest x w = Some req ->
        answer w req = Thrown e ->
        alerts (final (run (operation x)) w) <> alerts w
        \/ reviewProgressLog (final (run (operation x)) w) <> reviewProgressLog w).
Proof.
  intro claim.
  destruct (claim ContractExamples.down ExAskQuestion FailureExample.asking
              FailureExample.question (TypeError "Failed to fetch") eq_refl eq_refl)
    as [Halert | Hlog].
  - apply Halert. vm_compute. reflexivity.
  - apply Hlog. vm_compute. reflexivity.
Qed.

(** C1 (amended).  No failure of a backend request leaves the handler
    that made the request: a run of any operation returns normally, or it
    has issued no request at all.  The failure of a handler's own request
    is shown by the handler's [catch] block ([failureShown]): an alert for
    process article, the upload of a picked file, similarity check and
    section refinement; an entry in the progress log and an alert for
    generate review in [index.js] and [part_000]; a message in the chat
    for ask question; the placeholder of the suggestions panel for
    analyze text.  In a batch upload every file that fails has its alert.
    The failure of a reload of the document list is caught inside
    [loadDocuments], which writes it to the console and shows the user
    nothing.  (The review of [part_001] has no first request, see
    [mainRequest], so the second part says nothing of it.) *)
Theorem failures_caught_and_shown `{Browser} :
  (forall op w, outcome (run op) w = Returned tt \/ issued (run op) w = [])
  /\ (forall op w req e,
        isBatch op = false ->
        firstRequest op w = Some req ->
        answer w req = Thrown e ->
        failureShown op e w (final (run op) w))
  /\ (forall rev files w,
        (2 <= List.length files)%nat ->
        alerts (final (run (FileSelect rev (Some files))) w)
        = alerts w ++ map continuing (failures rev (List.length (requests w)) files))
  /\ (forall w e,
        answer w documentsRequest = Thrown e ->
        outcome loadDocuments w = Returned tt
        /\ console (final loadDocuments w)
           = console w ++ [ConsoleError "Error loading documents:" e]
        /\ alerts (final loadDocuments w) = alerts w
        /\ reviewProgressLog (final loadDocuments w) = reviewProgressLog w
        /\ chatContainer (final loadDocuments w) = chatContainer w).
Proof.
  split; [exact run_returns |]. split; [| split; [| exact loadDocuments_quiet]].
  - intros op w req e Hop Hfirst Hfail.
    destruct (run_account op w Hop) as (_ & _ & Hshown).
    now rewrite Hfirst, Hfail in Hshown.
  - intros rev files w Hmany.
    assert (Hselect : run (FileSelect rev (Some files)) = selectManyOf rev files).
    { destruct files as [| f1 [| f2 rest]]; cbn in Hmany; try lia.
      destruct rev; reflexivity. }
    rewrite Hselect. exact (proj1 (proj2 (proj2 (selectMany_run rev files w)))).
Qed.

(** The theorem at a question asked while the backend is down: the
    failure ends up in the chat. *)
Lemma failures_caught_and_shown_witness :
  let B := ContractExamples.down in
  isBatch AskQuestion = false
  /\ firstRequest AskQuestion FailureExample.asking = Some FailureExample.question
  /\ answer FailureExample.asking FailureExample.question
     = Thrown (TypeError "Failed to fetch")
  /\ chatContainer (final (run AskQuestion) FailureExample.asking)
     = [("What is GraphRAG?", "user");
        ("Sorry, I encountered an error: Failed to fetch", "model")].
Proof.
  intro B. split; [reflexivity |]. split; [reflexivity |]. split; [reflexivity |].
  exact (proj1 (proj1 (proj2 (@failures_caught_and_shown B))
                  AskQuestion FailureExample.asking FailureExample.question
                  (TypeError "Failed to fetch") eq_refl eq_refl eq_refl)).
Defined.

(* ================================================================== *)
(** ** The page is idle between two operations *)

Section Idle.

Context `{Browser}.

(** Every operation ends idle when it starts idle; the page load ends
    idle wherever it starts. *)
Lemma run_idle (op : Operation) (w : World) :
  idle w \/ (exists rev, op = Initialize rev) -> idle (final (run op) w).
Proof.
  intro Hstart.
  destruct (isBatch op) eqn:Hop.
  { destruct op as [| rev [[| f1 [| f2 rest]] |] | | | | | | | |];
      try discriminate Hop.
    assert (Hselect : run (FileSelect rev (Some (f1 :: f2 :: rest)))
                      = selectManyOf rev (f1 :: f2 :: rest))
      by (destruct rev; reflexivity).
    rewrite Hselect.
    exact (proj2 (proj2 (proj2 (selectMany_run rev (f1 :: f2 :: rest) w)))). }
  destruct op as [| rev files | rev | | | | refinementType | k | k | rev].
  1: destruct Hstart as [Hidle | [? [=]]];
     exact (exchange_idle ExProcessArticle (or_introl Hidle)).
  2: destruct Hstart as [Hidle | [? [=]]];
     exact (exchange_idle (ExGenerateReview rev) (or_introl Hidle)).
  2: destruct Hstart as [Hidle | [? [=]]];
     exact (exchange_idle ExAskQuestion (or_introl Hidle)).
  2: destruct Hstart as [Hidle | [? [=]]];
     exact (exchange_idle ExAnalyzeText (or_introl Hidle)).
  2: destruct Hstart as [Hidle | [? [=]]];
     exact (exchange_idle ExSimilarityCheck (or_introl Hidle)).
  all: match goal with
       | |- idle (final ?m ?w0) => change (wp m (fun _ w' => idle w') w0)
       end; destruct w.
  - destruct files as [[| file [| file' rest]] |]; try discriminate Hop;
      destruct rev; cbn [run handleFileSelect Legacy.handleFileSelect];
      unfold selectOne, Legacy.selectOne.
    all: repeat lazymatch goal with
                | |- wp (try_finally _ _) _ _ => apply wp_finally_idle
                | |- wp _ _ _ => wp_next
                end.
    all: destruct Hstart as [Hidle | [? [=]]]; exact Hidle.
  - cbn [run]. unfold Enhanced.handleSectionRefinement.
    repeat lazymatch goal with
           | |- wp (try_finally _ _) _ _ => apply wp_finally_idle
           | |- wp _ _ _ => wp_next
           end.
    all: destruct Hstart as [Hidle | [? [=]]]; exact Hidle.
  - cbn [run]. wp_exec.
    all: destruct Hstart as [Hidle | [? [=]]]; exact Hidle.
  - cbn [run]. unfold Enhanced.sectionButtonClick, Enhanced.sections. wp_exec.
    all: destruct Hstart as [Hidle | [? [=]]]; exact Hidle.
  - destruct rev; cbn [run];
      unfold Basic.initializeApp, Legacy.initializeApp, Enhanced.initializeApp, initialize.
    all: repeat lazymatch goal with
                | |- wp (try_finally _ _) _ _ => apply wp_finally_idle
                | |- wp _ _ _ => wp_next
                end.
Qed.

(** The states of the page between two operations: the state the page
    load leaves, and the state any operation leaves after such a state. *)
Inductive reachable : World -> Prop :=
| reach_load (rev : Revision) (w : World) :
    reachable (final (run (Initialize rev)) w)
| reach_step (op : Operation) (w : World) :
    reachable w -> reachable (final (run op) w).

Lemma reachable_idle (w : World) : reachable w -> idle w.
Proof.
  induction 1 as [rev w | op w _ IH].
  - apply run_idle. right. now exists rev.
  - apply run_idle. now left.
Qed.

End Idle.

(** C8.  After a run of process article, generate review, ask question,
    analyze text or similarity check, [isLoading] is false and the loader
    is hidden.  A run that gets past the handler's input guard raises
    the loading flag and restores it whether the backend call succeeds or
    throws, from any state whatever: [setLoading(false)] is the [finally]
    block.  A run that returns at the guard touches neither, and the page
    it starts from, being a state between two operations, is idle. *)
Theorem loading_restored `{Browser} (x : Exchange) (w : World) :
  reachable w \/ passesGuard x w = true ->
  isLoading (final (run (operation x)) w) = false
  /\ flags (final (run (operation x)) w) loader_hidden = true.
Proof.
  intros [Hreach | Hpass].
  - apply (exchange_idle x (w := w)). left. now apply reachable_idle.
  - apply (exchange_idle x (w := w)). now right.
Qed.

(** The theorem at a question asked while the page shows one document and
    the backend is down. *)
Lemma loading_restored_witness :
  let B := ContractExamples.down in
  let w := set_text questionInput_value "What is GraphRAG?" ContractExamples.busyPage in
  passesGuard ExAskQuestion w = true
  /\ isLoading (final handleAskQuestion w) = false
  /\ flags (final handleAskQuestion w) loader_hidden = true.
Proof.
  intros B w. split; [reflexivity |].
  apply (@loading_restored B ExAskQuestion w). right. reflexivity.
Defined.

(* ================================================================== *)
(** ** [documents] is never [null] *)

Section Documents.

Context `{Browser}.

Lemma orElse_not_null (v : JSVal) : orElse v (JArr []) <> JNull.
Proof.
  unfold orElse. destruct v as [[] |]; cbn; try discriminate.
  - destruct b; discriminate.
  - destruct (n =? 0)%Z; discriminate.
  - destruct (s =? "")%string; discriminate.
Qed.

(** The only assignment to [documents] is [result.documents || []]: no
    operation makes it [null], which is what [documents_length] relies
    on. *)
Lemma documents_not_null (op : Operation) :
  preserves (fun w => documents w <> JNull) (run op).
Proof.
  destruct op as [| rev files | rev | | | | refinementType | k | k | rev];
    try destruct rev; cbn [run].
  all: preserve_with ltac:(assumption).
  all: apply orElse_not_null.
Qed.

End Documents.

(* ================================================================== *)
(** * Further properties of the script

    What follows reads more off the three revisions: how the handlers
    compose, what they do at their guards and with answers that lack a
    field, what the page keeps between two operations. *)

From Stdlib Require Import DecimalPos DecimalZ.

(* ================================================================== *)
(** ** Strings: trimming, splitting, numerals *)

Section Strings.

Import JsString.

Lemma trimEnd_cons (c : ascii) (s : string) :
  trimEnd (String c s)
  = match trimEnd s with
    | EmptyString => if is_space c then EmptyString else String c EmptyString
    | t => String c t
    end.
Proof. reflexivity. Qed.

Lemma trimEnd_trimEnd (s : string) : trimEnd (trimEnd s) = trimEnd s.
Proof.
  induction s as [| c s IH]; [reflexivity |].
  cbn [trimEnd]. destruct (trimEnd s) as [| d t] eqn:Hs.
  - destruct (is_space c) eqn:Hc; [reflexivity |]. cbn [trimEnd]. now rewrite Hc.
  - rewrite (trimEnd_cons c (String d t)), IH. reflexivity.
Qed.

Definition startsClean (s : string) : Prop :=
  match s with
  | EmptyString => True
  | String c _ => is_space c = false
  end.

Lemma trimStart_clean (s : string) : startsClean (trimStart s).
Proof.
  induction s as [| c s IH]; [exact I |].
  cbn [trimStart]. destruct (is_space c) eqn:Hc; [exact IH | exact Hc].
Qed.

Lemma trimEnd_clean (s : string) : startsClean s -> startsClean (trimEnd s).
Proof.
  destruct s as [| c s]; [trivial |]. cbn [startsClean trimEnd]. intro Hc.
  rewrite Hc. now destruct (trimEnd s).
Qed.

Lemma trimStart_of_clean (s : string) : startsClean s -> trimStart s = s.
Proof. destruct s as [| c s]; [trivial |]. cbn. now intros ->. Qed.

Lemma trim_trim (s : string) : trim (trim s) = trim s.
Proof.
  unfold trim.
  rewrite (@trimStart_of_clean _ (@trimEnd_clean _ (trimStart_clean s))).
  apply trimEnd_trimEnd.
Qed.

Lemma split_not_nil (sep : ascii) (s : string) : split sep s <> [].
Proof.
  destruct s as [| c s]; cbn [split]; [discriminate |].
  destruct (Ascii.eqb c sep); [discriminate |]. destruct (split sep s); discriminate.
Qed.

Lemma split_app (sep : ascii) (a b : string) :
  split sep (a ++ String sep b) = split sep a ++ split sep b.
Proof.
  induction a as [| c a IH]; cbn [append split].
  - now rewrite Ascii.eqb_refl.
  - rewrite IH. destruct (Ascii.eqb c sep); [reflexivity |].
    destruct (split sep a) as [| hd tl] eqn:Ha; [now apply split_not_nil in Ha |].
    reflexivity.
Qed.

Lemma split_without (sep : ascii) (s : string) :
  (forall c, In c (list_ascii_of_string s) -> c <> sep) -> split sep s = [s].
Proof.
  induction s as [| c s IH]; intro Hs; [reflexivity |].
  cbn [split]. destruct (Ascii.eqb_spec c sep) as [-> | _].
  - exfalso. apply (Hs sep); [now left | reflexivity].
  - rewrite IH; [reflexivity |]. intros d Hd. apply Hs. now right.
Qed.

Lemma last_app_cons (A : Type) (l l' : list A) (d : A) :
  l' <> [] -> last (l ++ l') d = last l' d.
Proof.
  intro Hl'. induction l as [| x l IH]; [reflexivity |].
  cbn [app]. destruct (l ++ l') eqn:Hll.
  - apply app_eq_nil in Hll. now destruct Hll.
  - exact IH.
Qed.

End Strings.

(* ================================================================== *)
(** ** Decimal numerals and [parseInt] *)

Section Decimal.

Import JsString.

Lemma digits_cons (c : ascii) (s : string) (acc : option Z) (d : Z) :
  digit_value c = Some d -> (d <? 10)%Z = true ->
  digits 10 (String c s) acc
  = digits 10 s (Some (match acc with Some a => a * 10 + d | None => d end)%Z).
Proof. intros Hc Hd. cbn [digits]. now rewrite Hc, Hd. Qed.

Ltac digit_step :=
  cbn [NilEmpty.string_of_uint];
  lazymatch goal with
  | |- context [digits 10 (String ?c ?s) ?acc] =>
      let v := eval vm_compute in (digit_value c) in
      lazymatch v with
      | Some ?d => rewrite (@digits_cons c s acc d eq_refl eq_refl)
      end
  end.

Lemma digits_acc (d : Decimal.uint) :
  forall acc : positive,
    digits 10 (NilEmpty.string_of_uint d) (Some (Z.pos acc))
    = Some (Z.pos (Pos.of_uint_acc d acc)).
Proof.
  induction d as [| d IH | d IH | d IH | d IH | d IH | d IH | d IH | d IH | d IH | d IH];
    intro acc; [reflexivity | ..]; digit_step; cbn [Pos.of_uint_acc]; rewrite <- IH;
    do 2 f_equal; lia.
Qed.

Lemma digits_zero (d : Decimal.uint) :
  digits 10 (NilEmpty.string_of_uint d) (Some 0%Z) = Some (Z.of_uint d).
Proof.
  induction d as [| d IH | d | d | d | d | d | d | d | d | d];
    [reflexivity | digit_step; exact IH | ..];
    digit_step; exact (digits_acc d _).
Qed.

Lemma parseInt_plain (s : string) (n : Z) :
  trimStart s = s -> strip_sign s = (false, s) -> strip_radix s = (10%Z, s) ->
  digits 10 s None = Some n -> parseInt s = Some n.
Proof. intros Ht Hs Hr Hd. unfold parseInt. now rewrite Ht, Hs, Hr, Hd. Qed.

Lemma digits_start (d : Decimal.uint) :
  d <> Decimal.Nil ->
  digits 10 (NilEmpty.string_of_uint d) None
  = digits 10 (NilEmpty.string_of_uint d) (Some 0%Z).
Proof.
  destruct d; [congruence | intros _ ..]; cbn [NilEmpty.string_of_uint];
    lazymatch goal with
    | |- digits 10 (String ?c ?s) _ = _ =>
        let v := eval vm_compute in (digit_value c) in
        lazymatch v with
        | Some ?d => rewrite !(@digits_cons c s _ d eq_refl eq_refl)
        end
    end; reflexivity.
Qed.

Lemma parseInt_uint (d : Decimal.uint) :
  d <> Decimal.Nil -> parseInt (NilEmpty.string_of_uint d) = Some (Z.of_uint d).
Proof.
  intro Hd. apply parseInt_plain.
  4: rewrite digits_start by exact Hd; apply digits_zero.
  all: destruct d as [| d | d | d | d | d | d | d | d | d | d];
    [congruence | try reflexivity ..].
  destruct d; reflexivity.
Qed.

Lemma string_of_uint_nonnil (d : Decimal.uint) :
  d <> Decimal.Nil -> NilZero.string_of_uint d = NilEmpty.string_of_uint d.
Proof. destruct d; [congruence | reflexivity ..]. Qed.

Lemma parseInt_ofNat (n : nat) : parseInt (ofNat n) = Some (Z.of_nat n).
Proof.
  unfold ofNat, ofZ. destruct (Z.of_nat n) as [| p | p] eqn:Hn; [reflexivity | | lia].
  cbn [Z.to_int NilZero.string_of_int].
  rewrite string_of_uint_nonnil, parseInt_uint by apply DecimalPos.Unsigned.to_uint_nonnil.
  unfold Z.of_uint. now rewrite DecimalPos.Unsigned.of_to.
Qed.

End Decimal.

(** X1.  The extension the upload code takes from a file name,
    [file.name.split('.').pop().toLowerCase()], is what follows the last
    dot, in lower case; a name that has no dot at all is its own
    extension, so a file called [PDF] is taken for a PDF. *)
Theorem fileExtension_after_last_dot (base ext : string) :
  (forall c, In c (list_ascii_of_string ext) -> c <> "."%char) ->
  JsString.fileExtension (base ++ "." ++ ext) = JsString.toLowerCase ext
  /\ JsString.fileExtension ext = JsString.toLowerCase ext.
Proof.
  intro Hext. unfold JsString.fileExtension.
  change (base ++ "." ++ ext)%string with (base ++ String "." ext)%string.
  rewrite split_app, last_app_cons by apply split_not_nil.
  now rewrite split_without by exact Hext.
Qed.

Lemma fileExtension_after_last_dot_witness :
  JsString.fileExtension "Thesis.final.PDF" = "pdf"
  /\ JsString.fileExtension "PDF" = "pdf".
Proof.
  apply (@fileExtension_after_last_dot "Thesis.final" "PDF").
  intros c [<- | [<- | [<- | []]]]; discriminate.
Defined.

(* ================================================================== *)
(** ** The version buttons *)

Section Buttons.

Lemma activateOnly_from (k : nat) (buttons : list Button) :
  forall start i,
    nth_error
      (map (fun ib : nat * Button =>
              mkButton (btn_index (snd ib)) (btn_section (snd ib)) (btn_text (snd ib))
                (fst ib =? k)%nat)
           (combine (seq start (List.length buttons)) buttons)) i
    = option_map
        (fun b => mkButton (btn_index b) (btn_section b) (btn_text b) (start + i =? k)%nat)
        (nth_error buttons i).
Proof.
  induction buttons as [| b rest IH]; intros start i.
  - now destruct i.
  - destruct i as [| i]; cbn [List.length seq combine map nth_error option_map fst snd].
    + now rewrite Nat.add_0_r.
    + rewrite (IH (S start) i). now rewrite Nat.add_succ_r.
Qed.

(** After a click on the [k]-th button, a button is active exactly when
    it is the [k]-th; its index, section and label are as before. *)
Lemma activateOnly_nth (k i : nat) (buttons : list Button) :
  nth_error (activateOnly k buttons) i
  = option_map
      (fun b => mkButton (btn_index b) (btn_section b) (btn_text b) (i =? k)%nat)
      (nth_error buttons i).
Proof. unfold activateOnly. now rewrite (activateOnly_from k buttons 0 i). Qed.

Lemma versionButtons_nth (n k : nat) :
  (k < n)%nat ->
  nth_error (map (versionButton n) (seq 0 n)) k = Some (versionButton n k).
Proof.
  intro Hk. rewrite nth_error_map, nth_error_seq.
  apply Nat.ltb_lt in Hk. now rewrite Hk.
Qed.

Lemma storedIndex_versionButton (n k : nat) :
  JsString.parseInt (storedIndex (versionButton n k)) = Some (Z.of_nat k).
Proof.
  unfold storedIndex, versionButton. cbn [btn_index].
  destruct (JsString.ofNat k =? "")%string eqn:He; [| apply parseInt_ofNat].
  apply String.eqb_eq in He. pose proof (parseInt_ofNat k) as Hp.
  rewrite He in Hp. discriminate Hp.
Qed.

End Buttons.

(** X2.  The buttons [renderDraftViewer] makes and the click listener of
    [draftVersionControls] fit together: with strings in the history, a
    click on the [k]-th button rendered shows the [k]-th draft, every
    newline replaced by [<br>] (the fallback text if that draft is the
    empty string).  The index a button stores is the decimal numeral that
    [parseInt] reads back; after the click the buttons are as many as the
    drafts, the [k]-th is the only active one, and the labels are [Draft],
    [Version 2], [Version 3], and so on. *)
Theorem version_buttons_round_trip (w : World) (drafts : list string) (k : nat)
        (draft : string) :
  draftHistory w = historyOf drafts ->
  nth_error drafts k = Some draft ->
  let w1 := final renderDraftViewer w in
  let w2 := final (versionButtonClick k) w1 in
  outcome (versionButtonClick k) w1 = Returned tt
  /\ texts w2 reviewDraftOutput_innerHTML
     = (if (draft =? "")%string then "Could not load this version."
        else JsString.replace_newlines draft)
  /\ List.length (draftVersionControls w2) = List.length drafts
  /\ forall i button,
       nth_error (draftVersionControls w2) i = Some button ->
       btn_active button = (i =? k)%nat
       /\ btn_index button = Some (JsString.ofNat i)
       /\ btn_text button
          = (if (i =? 0)%nat then "Draft"
             else ("Version " ++ JsString.ofNat (i + 1))%string).
Proof.
  intros Hh Hk w1 w2.
  assert (Hlt : (k < List.length drafts)%nat).
  { apply nth_error_Some. congruence. }
  assert (Hn : List.length (draftHistory w) = List.length drafts).
  { rewrite Hh. unfold historyOf. apply length_map. }
  assert (Hw1 : w1 = set_draftVersionControls
                       (map (versionButton (List.length drafts))
                            (seq 0 (List.length drafts))) w).
  { unfold w1, final. rewrite renderDraftViewer_run, Hn. reflexivity. }
  assert (Hrun := @versionButtonClick_run w1 k (versionButton (List.length drafts) k) drafts).
  rewrite Hw1 in Hrun at 1 2. cbn [draftVersionControls draftHistory set_draftVersionControls] in Hrun.
  specialize (Hrun (versionButtons_nth Hlt) Hh).
  unfold w2, outcome, final. rewrite Hrun. cbn [fst snd].
  split; [reflexivity |]. split; [| split].
  - cbn [texts set_text set_texts]. cbn [Slot_beq].
    rewrite storedIndex_versionButton. unfold shown.
    destruct (Z.of_nat k <? 0)%Z eqn:Hneg; [apply Z.ltb_lt in Hneg; lia |].
    now rewrite Nat2Z.id, Hk.
  - cbn [draftVersionControls set_text set_texts]. rewrite Hw1.
    cbn [draftVersionControls set_draftVersionControls].
    unfold activateOnly.
    rewrite length_map, length_combine, length_seq, Nat.min_id, length_map, length_seq.
    reflexivity.
  - intros i button. cbn [draftVersionControls set_text set_texts]. rewrite Hw1.
    cbn [draftVersionControls set_draftVersionControls].
    rewrite activateOnly_nth, nth_error_map, nth_error_seq.
    destruct (i <? List.length drafts)%nat; [| discriminate].
    cbn [option_map]. intros [= <-]. repeat split.
Qed.

Lemma version_buttons_round_trip_witness :
  let w := set_draftHistory (historyOf ["first"; ("second" ++ String JsString.LF "line")%string])
             Example.page in
  texts (final (versionButtonClick 1) (final renderDraftViewer w)) reviewDraftOutput_innerHTML
  = "second<br>line".
Proof.
  intro w.
  exact (proj1 (proj2 (@version_buttons_round_trip w _ 1 _ eq_refl eq_refl))).
Defined.

(* ================================================================== *)
(** ** Line breaks, there and back *)

Section LineBreaks.

Import JsString.

Lemma replace_br_match (rest : string) :
  replace_br ("<br>" ++ rest) = String LF (replace_br rest).
Proof. reflexivity. Qed.

Lemma replace_br_other (c : ascii) (s : string) :
  c <> "<"%char -> replace_br (String c s) = String c (replace_br s).
Proof.
  intro Hc. destruct c as [[] [] [] [] [] [] [] []]; try reflexivity.
  now contradiction Hc.
Qed.

Lemma replace_br_lt (s : string) :
  (forall rest, s <> ("br>" ++ rest)%string) ->
  replace_br (String "<" s) = String "<" (replace_br s).
Proof.
  intro Hs.
  destruct s as [| c1 s1]; [reflexivity |].
  destruct c1 as [[] [] [] [] [] [] [] []]; try reflexivity.
  destruct s1 as [| c2 s2]; [reflexivity |].
  destruct c2 as [[] [] [] [] [] [] [] []]; try reflexivity.
  destruct s2 as [| c3 s3]; [reflexivity |].
  destruct c3 as [[] [] [] [] [] [] [] []]; try reflexivity.
  now contradiction (Hs s3).
Qed.

Lemma replace_newlines_head (c : ascii) (s t : string) :
  c <> "<"%char -> replace_newlines s = String c t ->
  exists s', s = String c s' /\ replace_newlines s' = t.
Proof.
  intros Hc Hs. destruct s as [| d s']; [discriminate Hs |].
  cbn [replace_newlines] in Hs. destruct (Ascii.eqb d LF).
  - injection Hs as <- _. now contradiction Hc.
  - injection Hs as -> <-. eauto.
Qed.

(** Undoing the line breaks of a text that holds no [<br>] of its own
    gives the text back. *)
Lemma replace_br_replace_newlines (s : string) :
  (forall pre post, s <> (pre ++ "<br>" ++ post)%string) ->
  replace_br (replace_newlines s) = s.
Proof.
  induction s as [| c s IH]; intro Hs; [reflexivity |].
  assert (Hs' : forall pre post, s <> (pre ++ "<br>" ++ post)%string).
  { intros pre post ->. now apply (Hs (String c pre) post). }
  cbn [replace_newlines]. destruct (Ascii.eqb_spec c LF) as [-> | Hlf].
  - rewrite replace_br_match, IH by exact Hs'. reflexivity.
  - destruct (Ascii.ascii_dec c "<") as [-> | Hlt].
    + rewrite replace_br_lt; [rewrite IH by exact Hs'; reflexivity |].
      intros rest Hrest.
      apply replace_newlines_head in Hrest as (s1 & -> & Hrest); [| discriminate].
      apply replace_newlines_head in Hrest as (s2 & -> & Hrest); [| discriminate].
      apply replace_newlines_head in Hrest as (s3 & -> & _); [| discriminate].
      now apply (Hs "" s3).
    + rewrite replace_br_other, IH by assumption. reflexivity.
Qed.

Lemma replace_newlines_empty (s : string) : replace_newlines s = "" -> s = "".
Proof.
  destruct s as [| c s]; [reflexivity |]. cbn [replace_newlines].
  destruct (Ascii.eqb c LF); discriminate.
Qed.

End LineBreaks.

(* ================================================================== *)
(** ** Section refinement *)

(** The state a run ended in, field by field. *)
Ltac norm_final :=
  cbv beta iota zeta delta
    [isLoading documents currentFileName draftHistory flags texts
     checked knowledgeList reviewProgressLog draftVersionControls
     chatContainer alerts console requests now
     set_isLoading set_documents set_currentFileName set_draftHistory
     set_flags set_texts set_knowledgeList set_reviewProgressLog
     set_draftVersionControls set_chatContainer set_alerts set_console
     set_requests set_flag set_text loading Slot_beq Flag_beq].


(** A value that has properties has all of them: reading a property
    fails on [null] and [undefined] only. *)
Lemma prop_defined (v : JSVal) (k k' : string) (x : JSVal) (e : Exn) :
  Value.prop v k = inr x -> Value.prop v k' = inl e -> False.
Proof. destruct v as [[] |]; discriminate. Qed.

(** What [v.replace(...)] came to tells what [v] was. *)
Ltac settle_replace :=
  repeat match goal with
         | E : replaceNewlines _ ?j = _ |- _ =>
             (tryif is_var j then destruct j as [[] |] else idtac);
             cbn [replaceNewlines] in E;
             first [ discriminate E | injection E as <- | injection E as -> ]
         end.

Section Refinement.

Context `{Browser}.

(** What a run of [handleSectionRefinement] leaves, case by case.  A
    run that got its answer and put it on display goes on to
    [addProgressLog], lands in its [catch] and alerts. *)
Definition refinedTo (refinementType : string) (w : World) (o : Outcome unit) (w' : World)
  : Prop :=
  match refinementRequest refinementType w with
  | None => requests w' = requests w
  | Some req =>
      requests w' = requests w ++ [req]
      /\ o = Returned tt
      /\ reviewProgressLog w' = reviewProgressLog w
      /\ match answer w req with
         | Thrown e =>
             alerts w'
             = alerts w ++ [("Error applying refinement: " ++ Value.message e)%string]
         | Returned result =>
             match field result "refined_section" with
             | Some (JStr refined) =>
                 texts w' reviewDraftOutput_innerHTML = JsString.replace_newlines refined
                 /\ texts w' writingEditor_innerHTML = JsString.replace_newlines refined
                 /\ texts w' refinementFeedback_value = ""
                 /\ alerts w'
                    = alerts w
                      ++ ["Error applying refinement: addProgressLog is not defined"]
             | _ =>
                 texts w' reviewDraftOutput_innerHTML = texts w reviewDraftOutput_innerHTML
                 /\ texts w' writingEditor_innerHTML = texts w writingEditor_innerHTML
                 /\ texts w' refinementFeedback_value = texts w refinementFeedback_value
                 /\ exists e,
                      alerts w'
                      = alerts w
                        ++ [("Error applying refinement: " ++ Value.message e)%string]
             end
         end
  end.

Lemma handleSectionRefinement_run (refinementType : string) (w : World) :
  wp (Enhanced.handleSectionRefinement refinementType) (refinedTo refinementType w) w.
Proof.
  destruct w. unfold refinedTo, refinementRequest, paneMarkup, answer, field. fields.
  wp_exec.
  all: norm_final.
  all: settle_replace.
  all: rewrite <- ?app_assoc, ?app_nil_r; cbn [app].
  all: try match goal with
           | E1 : Value.prop ?v _ = inr _, E2 : Value.prop ?v _ = inl _ |- _ =>
               exfalso; eapply prop_defined; [exact E1 | exact E2]
           end.
  all: repeat split; eauto.
Qed.

End Refinement.

Section Mentions.

(** Whether a text holds a [<br>]. *)
Definition startsWithBr (s : string) : bool :=
  match s with
  | String "<" (String "b" (String "r" (String ">" _))) => true
  | _ => false
  end.

Fixpoint hasBr (s : string) : bool :=
  match s with
  | EmptyString => false
  | String _ s' => startsWithBr s || hasBr s'
  end.

Lemma hasBr_mentions (pre post : string) : hasBr (pre ++ "<br>" ++ post) = true.
Proof.
  induction pre as [| c pre IH]; [reflexivity |].
  change (startsWithBr (String c (pre ++ "<br>" ++ post))
          || hasBr (pre ++ "<br>" ++ post) = true).
  rewrite IH. apply orb_true_r.
Qed.

Lemma hasBr_false (s : string) :
  hasBr s = false -> forall pre post, s <> (pre ++ "<br>" ++ post)%string.
Proof. intros Hs pre post ->. now rewrite hasBr_mentions in Hs. Qed.

End Mentions.

Module RefinementExample.

Definition refiner : Browser :=
  Example.constantly
    (Responded {| status := 200;
                  body := Parsed (JObj [("refined_section",
                                         JStr ("Sharper." ++ String JsString.LF "Shorter."))]) |}).

(** A page that shows a review of two lines. *)
Definition reviewed : World :=
  set_text refinementFeedback_value " tighten the prose "
    (set_text reviewDraftOutput_innerHTML "Line one<br>line two" Example.page).

End RefinementExample.

(** X3.  Section refinement sends the text of the review, not its
    markup.  When the pane was given a text with its newlines replaced by
    [<br>], the text is not empty and holds no [<br>] of its own, and the
    pane reads back as it was assigned (as it does for a text without
    [&], [<] or [>]), the one request of [handleSectionRefinement]
    carries that very text as [section_content], with the refinement type
    and the trimmed feedback. *)
Theorem refinement_sends_plain_text `{Browser}
        (refinementType text : string) (w : World) :
  hasElement "refinement-feedback" = true ->
  text <> "" ->
  (forall pre post, text <> (pre ++ "<br>" ++ post)%string) ->
  texts w reviewDraftOutput_innerHTML = JsString.replace_newlines text ->
  serializedHTML (JsString.replace_newlines text) = JsString.replace_newlines text ->
  issued (Enhanced.handleSectionRefinement refinementType) w
  = [requestOf "/refine_review_section" "POST"
       (Some (JObj [("section_content", JStr text);
                    ("refinement_type", JStr refinementType);
                    ("feedback",
                     JStr (JsString.trim (texts w refinementFeedback_value)))]))].
Proof.
  intros Helement Htext Hplain Hpane Hback.
  pose proof (handleSectionRefinement_run refinementType w) as Hrun.
  unfold wp, refinedTo, refinementRequest, paneMarkup in Hrun.
  rewrite Helement, Hpane, Hback in Hrun.
  destruct (JsString.replace_newlines text =? "")%string eqn:Hempty.
  { apply String.eqb_eq, replace_newlines_empty in Hempty. contradiction. }
  rewrite replace_br_replace_newlines in Hrun by exact Hplain.
  destruct Hrun as [Hrequests _]. unfold issued. rewrite Hrequests.
  apply skipn_length_app.
Qed.

Lemma refinement_sends_plain_text_witness :
  let B := RefinementExample.refiner in
  map req_body (issued (Enhanced.handleSectionRefinement "clarity") RefinementExample.reviewed)
  = [Some (JObj [("section_content", JStr ("Line one" ++ String JsString.LF "line two"));
                 ("refinement_type", JStr "clarity");
                 ("feedback", JStr "tighten the prose")])].
Proof.
  intro B.
  rewrite (@refinement_sends_plain_text B "clarity"
             ("Line one" ++ String JsString.LF "line two") RefinementExample.reviewed
             eq_refl ltac:(discriminate)
             (@hasBr_false ("Line one" ++ String JsString.LF "line two") eq_refl) eq_refl
             eq_refl).
  reflexivity.
Defined.

(** X4.  What [handleSectionRefinement] of [part_001] does with an
    answer.  When the answer has a string [refined_section], the pane and
    the writing editor both show it with [<br>] for newlines and the
    feedback field is emptied; the handler then calls [addProgressLog],
    which [part_001] does not define, so it ends in its [catch]: the
    progress log gains nothing and the user is told
    [Error applying refinement: addProgressLog is not defined] of a
    refinement that was applied.  When [refined_section] is missing or
    not a string, pane, editor and feedback stay as they were and the
    alert carries the [TypeError]'s message.  Either way the handler
    returns. *)
Theorem refinement_applied `{Browser} (refinementType : string) (result : JSON) (w : World) :
  hasElement "refinement-feedback" = true ->
  serializedHTML (texts w reviewDraftOutput_innerHTML) <> "" ->
  answer w (requestOf "/refine_review_section" "POST"
              (Some (JObj [("section_content",
                            JStr (JsString.replace_br
                                    (serializedHTML (texts w reviewDraftOutput_innerHTML))));
                           ("refinement_type", JStr refinementType);
                           ("feedback",
                            JStr (JsString.trim (texts w refinementFeedback_value)))])))
  = Returned result ->
  let w' := final (Enhanced.handleSectionRefinement refinementType) w in
  outcome (Enhanced.handleSectionRefinement refinementType) w = Returned tt
  /\ reviewProgressLog w' = reviewProgressLog w
  /\ match field result "refined_section" with
     | Some (JStr refined) =>
         texts w' reviewDraftOutput_innerHTML = JsString.replace_newlines refined
         /\ texts w' writingEditor_innerHTML = JsString.replace_newlines refined
         /\ texts w' refinementFeedback_value = ""
         /\ alerts w'
            = alerts w ++ ["Error applying refinement: addProgressLog is not defined"]
     | _ =>
         texts w' reviewDraftOutput_innerHTML = texts w reviewDraftOutput_innerHTML
         /\ texts w' writingEditor_innerHTML = texts w writingEditor_innerHTML
         /\ texts w' refinementFeedback_value = texts w refinementFeedback_value
         /\ exists e,
              alerts w'
              = alerts w ++ [("Error applying refinement: " ++ Value.message e)%string]
     end.
Proof.
  intros Helement Hpane Hanswer w'.
  pose proof (handleSectionRefinement_run refinementType w) as Hrun.
  unfold wp, refinedTo, refinementRequest, paneMarkup in Hrun. rewrite Helement in Hrun.
  destruct (serializedHTML (texts w reviewDraftOutput_innerHTML) =? "")%string eqn:Hempty.
  { apply String.eqb_eq in Hempty. contradiction. }
  rewrite Hanswer in Hrun. destruct Hrun as (_ & Ho & Hlog & Hshown).
  split; [exact Ho |]. split; [exact Hlog | exact Hshown].
Qed.

Lemma refinement_applied_witness :
  let B := RefinementExample.refiner in
  let w' := final (Enhanced.handleSectionRefinement "clarity") RefinementExample.reviewed in
  texts w' reviewDraftOutput_innerHTML = "Sharper.<br>Shorter."
  /\ texts w' refinementFeedback_value = ""
  /\ alerts w' = ["Error applying refinement: addProgressLog is not defined"].
Proof.
  intros B w'.
  pose proof (@refinement_applied B "clarity" _ RefinementExample.reviewed
                eq_refl ltac:(discriminate) eq_refl) as (_ & _ & Hresult).
  split; [exact (proj1 Hresult) |].
  split; [exact (proj1 (proj2 (proj2 Hresult))) | exact (proj2 (proj2 (proj2 Hresult)))].
Defined.

(* ================================================================== *)
(** ** The controls between two operations *)

Section Settled.

Context `{Browser}.

(** The page at rest: nothing is loading, the controls that only the
    loading state disables are enabled, and the others are as
    [setLoading(false)] leaves them. *)
Definition settled (w : World) : Prop :=
  isLoading w = false
  /\ flags w loader_hidden = true
  /\ flags w fileInput_disabled = false
  /\ flags w analyzeTextButton_disabled = false
  /\ flags w similarityCheckButton_disabled = false
  /\ flags w processButton_disabled = (texts w articleInput_value =? "")%string
  /\ flags w generateReviewButton_disabled = strictEqNum (documents_length w) 0
  /\ flags w questionInput_disabled = strictEqNum (documents_length w) 0
  /\ flags w chatButton_disabled = strictEqNum (documents_length w) 0.

Lemma loading_settled (text : string) (w : World) : settled (loading false text w).
Proof. destruct w. repeat split. Qed.

(** [finally { setLoading(false) }] *)
Lemma wp_finally_settled (A : Type) (body : Js A) (text : string) (w : World) :
  wp (try_finally body (setLoading false text)) (fun _ w' => settled w') w.
Proof.
  unfold wp, outcome, final, try_finally.
  destruct (body w) as [o w']. rewrite setLoading_run. cbn [fst snd].
  apply loading_settled.
Qed.

Lemma selectMany_settled (rev : Revision) (files : list File) (w : World) :
  wp (selectManyOf rev files) (fun _ w' => settled w') w.
Proof.
  assert (Hrun : forall (body : nat -> nat -> File -> Js unit),
             body = uploadOneOf rev ->
             wp (modify (set_text fileNameDisplay_textContent
                           ("Processing " ++ JsString.ofNat (List.length files) ++ " files...")) ;;
                 for_each (body (List.length files)) 0 files ;;
                 loadDocuments ;;
                 setLoading false "Processing..." ;;
                 modify (set_text fileNameDisplay_textContent
                           (JsString.ofNat (List.length files) ++ " file(s) processed.")) ;;
                 modify (set_text fileInput_value ""))
                (fun _ w' => settled w') w).
  { intros body ->.
    apply wp_bind, wp_modify. cbv beta iota. apply wp_bind.
    eapply wp_weaken; [| apply batch_loop].
    intros o w2 [-> _]. cbv beta iota.
    apply wp_bind, wp_loadDocuments. intros w3 _.
    apply wp_bind, wp_setLoading. cbv beta iota.
    apply wp_bind, wp_modify. cbv beta iota. apply wp_modify.
    destruct w3. repeat split. }
  destruct rev; apply Hrun; reflexivity.
Qed.

(** Whether a run gets as far as [setLoading(true, ...)]: past the input
    guard of a handler, with a file picked, and always at the page load.
    The click listeners never do. *)
Definition raisesLoading (op : Operation) (w : World) : bool :=
  match op with
  | ProcessArticle => passesGuard ExProcessArticle w
  | GenerateReview rev => passesGuard (ExGenerateReview rev) w
  | AskQuestion => passesGuard ExAskQuestion w
  | AnalyzeText => passesGuard ExAnalyzeText w
  | SimilarityCheck => passesGuard ExSimilarityCheck w
  | FileSelect _ (Some (_ :: _)) => true
  | FileSelect _ _ => false
  | SectionRefinement _ =>
      hasElement "refinement-feedback" && negb (paneMarkup w =? "")%string
  | Initialize _ => true
  | VersionClick _ | SectionClick _ => false
  end.

(** Every operation ends settled when it starts settled or raises the
    loading state. *)
Lemma run_settled (op : Operation) (w : World) :
  settled w \/ raisesLoading op w = true -> settled (final (run op) w).
Proof.
  intro Hstart.
  destruct (isBatch op) eqn:Hop.
  { destruct op as [| rev [[| f1 [| f2 rest]] |] | | | | | | | |];
      try discriminate Hop.
    assert (Hselect : run (FileSelect rev (Some (f1 :: f2 :: rest)))
                      = selectManyOf rev (f1 :: f2 :: rest))
      by (destruct rev; reflexivity).
    rewrite Hselect. apply selectMany_settled. }
  match goal with
  | |- settled (final ?m ?w0) => change (wp m (fun _ w' => settled w') w0)
  end.
  destruct w.
  destruct op as [| rev files | rev | | | | refinementType | k | k | rev];
    try destruct rev;
    try (destruct files as [[| file [| file' rest]] |]; try discriminate Hop);
    cbn [run handleFileSelect Legacy.handleFileSelect];
    unfold selectOne, Legacy.selectOne, Basic.handleGenerateReview,
      Legacy.handleGenerateReview, generateReview, Enhanced.handleGenerateReview,
      Enhanced.handleSectionRefinement, Enhanced.sectionButtonClick, Enhanced.sections,
      Basic.initializeApp, Legacy.initializeApp, Enhanced.initializeApp, initialize.
  all: unfold raisesLoading, passesGuard, paneMarkup, documents_length in Hstart;
    fields in Hstart.
  all: repeat lazymatch goal with
              | |- wp (try_finally _ _) _ _ => apply wp_finally_settled
              | |- wp _ _ _ => wp_next
              | |- match _ with _ => _ end => wp_next
              end.
  all: destruct Hstart as [Hsettled | Hpass]; [exact Hsettled |].
  all: revert Hpass;
    repeat match goal with
           | E : _ = _ |- _ => rewrite E; clear E
           end;
    cbn [negb andb orb]; intro Hpass; discriminate Hpass.
Qed.

End Settled.

(** X5.  Every run that raises the loading state leaves the controls as
    [setLoading(false)] sets them, whatever the state it started from and
    however it ends: a handler past its input guard, the selection of one
    file or of several, the page load.  Nothing is loading and the loader
    is hidden; the file input and the two analysis buttons are enabled;
    the process button is disabled exactly when the text area is empty;
    the review button, the question input and the chat button are
    disabled exactly when [documents.length === 0]. *)
Theorem controls_settled `{Browser} (op : Operation) (w : World) :
  raisesLoading op w = true ->
  let w' := final (run op) w in
  isLoading w' = false
  /\ flags w' loader_hidden = true
  /\ flags w' fileInput_disabled = false
  /\ flags w' analyzeTextButton_disabled = false
  /\ flags w' similarityCheckButton_disabled = false
  /\ flags w' processButton_disabled = (texts w' articleInput_value =? "")%string
  /\ flags w' generateReviewButton_disabled = strictEqNum (documents_length w') 0
  /\ flags w' questionInput_disabled = strictEqNum (documents_length w') 0
  /\ flags w' chatButton_disabled = strictEqNum (documents_length w') 0.
Proof.
  intros Hraises w'. apply (run_settled op (w := w)). now right.
Qed.

Lemma controls_settled_witness :
  let B := ContractExamples.down in
  let w := final (run AskQuestion) FailureExample.asking in
  raisesLoading AskQuestion FailureExample.asking = true
  /\ flags w chatButton_disabled = false /\ flags w fileInput_disabled = false.
Proof.
  intros B w. split; [reflexivity |].
  pose proof (@controls_settled B AskQuestion FailureExample.asking eq_refl) as Hw.
  split; [| exact (proj1 (proj2 (proj2 Hw)))].
  unfold w. rewrite (proj2 (proj2 (proj2 (proj2 (proj2 (proj2 (proj2 (proj2 Hw)))))))).
  reflexivity.
Defined.

(* ================================================================== *)
(** ** Sections, once shown *)

Section Shown.

Context `{Browser}.

(** The [hidden] classes that only ever come off. *)
Definition sectionFlags : list Flag :=
  [knowledgeBaseContainer_hidden; literatureReviewSection_hidden; qaSection_hidden;
   writingAssistantSection_hidden; reviewGenerationProgress_hidden;
   sectionRefinementControls_hidden].

Lemma run_keeps_shown (f : Flag) (op : Operation) :
  In f sectionFlags -> preserves (fun w => flags w f = false) (run op).
Proof.
  intro Hf.
  assert (Hset : forall g b w,
             (b = false \/ In g [loader_hidden; processButton_disabled; fileInput_disabled;
                                 generateReviewButton_disabled; analyzeTextButton_disabled;
                                 similarityCheckButton_disabled; questionInput_disabled;
                                 chatButton_disabled]) ->
             flags w f = false -> flags (set_flag g b w) f = false).
  { intros g b w Hg Hw. cbn [flags set_flag set_flags].
    destruct (Flag_beq f g) eqn:Hfg; [| exact Hw].
    destruct Hg as [-> | Hg]; [reflexivity |].
    exfalso. cbn in Hf, Hg.
    repeat destruct Hf as [<- | Hf]; try contradiction;
      repeat destruct Hg as [<- | Hg]; try contradiction; discriminate Hfg. }
  destruct op as [| rev files | rev | | | | refinementType | k | k | rev];
    try destruct rev; cbn [run].
  all: repeat first
    [ lazymatch goal with
      | |- preserves _ (apiCall _ _ _) =>
          apply preserves_apiCall; intros ? ?; cbv beta; fields; assumption
      | |- preserves _ (modify (set_flag _ _)) =>
          apply preserves_modify; intros ? ?; apply Hset; [| assumption];
          first [ left; reflexivity | right; cbn; tauto ]
      | |- preserves _ (modify (fun w => set_flag _ _ w)) =>
          apply preserves_modify; intros ? ?; apply Hset; [| assumption];
          first [ left; reflexivity | right; cbn; tauto ]
      end
    | preserve_step ].
Qed.

End Shown.

(** X6.  No operation hides a section again.  Once the knowledge base,
    the literature review section, the Q&A section, the writing
    assistant, the review progress or the refinement controls are shown,
    they stay shown whatever runs next. *)
Theorem sections_stay_shown `{Browser} (op : Operation) (w : World) (f : Flag) :
  In f sectionFlags -> flags w f = false -> flags (final (run op) w) f = false.
Proof. intros Hf Hw. now apply (run_keeps_shown op Hf). Qed.

Lemma sections_stay_shown_witness :
  let B := ContractExamples.down in
  let w := set_flag qaSection_hidden false FailureExample.asking in
  flags (final (run AskQuestion) w) qaSection_hidden = false.
Proof.
  intros B w.
  apply (@sections_stay_shown B AskQuestion w qaSection_hidden); [cbn; tauto | reflexivity].
Defined.

(* ================================================================== *)
(** ** The status check and the page load *)

Section Status.

Context `{Browser}.

(** Whether the backend reports itself ready in state [w]. *)
Definition reportsReady (w : World) : bool :=
  match answer w statusRequest with
  | Returned result => strictEqStr (field result "status") "ready"
  | Thrown _ => false
  end.

Lemma checkSystemStatus_run (w : World) :
  wp checkSystemStatus
     (fun o w' =>
        o = Returned (reportsReady w)
        /\ alerts w' = alerts w
        /\ requests w'
           = requests w ++ statusRequest :: (if reportsReady w then [documentsRequest] else [])) w.
Proof.
  destruct w. unfold reportsReady, answer, statusRequest, field. fields.
  wp_exec.
  all: norm_final.
  all: repeat match goal with
              | E : _ = _ |- _ => rewrite E
              end.
  all: rewrite <- ?app_assoc; cbn [app].
  all: repeat split; eauto.
Qed.

(** What the page load writes last to the console. *)
Definition verdict (w : World) : ConsoleEntry :=
  ConsoleLog (if reportsReady w then "✅ GraphRAG system is ready!"
              else "⚠️  GraphRAG system not ready, but you can still add documents").

Lemma initialize_run (port : string) (w : World) :
  wp (initialize port)
     (fun o w' =>
        o = Returned tt
        /\ alerts w' = alerts w
        /\ requests w'
           = requests w ++ statusRequest :: (if reportsReady w then [documentsRequest] else [])
        /\ exists before, console w' = before ++ [verdict w]) w.
Proof.
  destruct w. unfold verdict, reportsReady, answer, statusRequest, field, initialize. fields.
  wp_exec.
  all: norm_final.
  all: repeat match goal with
              | E : _ = _ |- _ => rewrite E
              end.
  all: rewrite <- ?app_assoc; cbn [app].
  all: repeat split; eauto.
  all: cbn [strictEqStr];
    match goal with
    | |- exists before, ?l ++ ?added = _ =>
        exists (l ++ removelast added); cbn [removelast]; rewrite <- ?app_assoc;
        try rewrite app_nil_r; reflexivity
    end.
Qed.

End Status.

(** X7.  [checkSystemStatus] never throws.  It returns [true] exactly
    when the status request succeeds with a body whose [status] is the
    string [ready], whether or not the reload that follows succeeds; it
    issues the status request and, only in that case, one reload of the
    document list. *)
Theorem status_check_reports_ready `{Browser} (w : World) :
  outcome checkSystemStatus w
  = Returned match answer w statusRequest with
             | Returned result => strictEqStr (field result "status") "ready"
             | Thrown _ => false
             end
  /\ issued checkSystemStatus w
     = statusRequest
       :: match answer w statusRequest with
          | Returned result =>
              if strictEqStr (field result "status") "ready"
              then [documentsRequest] else []
          | Thrown _ => []
          end.
Proof.
  destruct (checkSystemStatus_run w) as (Ho & _ & Hrequests). split; [exact Ho |].
  unfold issued. rewrite Hrequests, skipn_length_app. unfold reportsReady.
  now destruct (answer w statusRequest).
Qed.

(** X8.  The page load never raises an alert: [checkSystemStatus]
    catches every failure itself, so the [catch] block of [initializeApp]
    is never entered.  The load always returns, the last line it writes
    to the console says whether the backend reported itself ready, and
    the port the alert would name makes no difference to the run. *)
Theorem page_load_never_alerts `{Browser} (port : string) (w : World) :
  outcome (initialize port) w = Returned tt
  /\ alerts (final (initialize port) w) = alerts w
  /\ (exists before,
        console (final (initialize port) w)
        = before
          ++ [ConsoleLog
                (if reportsReady w then "✅ GraphRAG system is ready!"
                 else "⚠️  GraphRAG system not ready, but you can still add documents")])
  /\ forall port', initialize port' w = initialize port w.
Proof.
  destruct (initialize_run port w) as (Ho & Halerts & _ & Hconsole).
  split; [exact Ho |]. split; [exact Halerts |]. split; [exact Hconsole |].
  intro port'.
  destruct (checkSystemStatus_run
              (loading true "Connecting to GraphRAG system..."
                 (set_console
                    (console w ++ [ConsoleLog "🚀 Initializing GraphRAG Frontend..."]) w)))
    as (Hready & _).
  unfold outcome in Hready.
  unfold initialize, bind, try_finally, try_catch, console_log, modify.
  rewrite !setLoading_run.
  destruct (checkSystemStatus _) as [o w1]. cbn [fst] in Hready. subst o.
  now destruct (reportsReady _).
Qed.

(* ================================================================== *)
(** ** What the handlers make of an answer *)

Section Answers.

Context `{Browser}.

Definition apology (e : Exn) : string :=
  ("Sorry, I encountered an error: " ++ Value.message e)%string.

(** What the model says in the chat to the question typed in [w]. *)
Definition reply (w : World) : string :=
  match answer w (queryRequest (JsString.trim (texts w questionInput_value))) with
  | Returned result =>
      match Value.prop (Some result) "answer" with
      | inr text => textContentOf text
      | inl e => apology e
      end
  | Thrown e => apology e
  end.

Lemma handleAskQuestion_run (w : World) :
  wp handleAskQuestion
     (fun o w' =>
        o = Returned tt
        /\ if passesGuard ExAskQuestion w then
             chatContainer w'
             = chatContainer w
               ++ [(JsString.trim (texts w questionInput_value), "user"); (reply w, "model")]
             /\ texts w' questionInput_value = ""
             /\ alerts w' = alerts w
           else w' = w) w.
Proof.
  destruct w. unfold reply, apology, answer, queryRequest, passesGuard, documents_length.
  fields.
  wp_exec.
  all: norm_final.
  all: repeat match goal with
              | E : _ = _ |- _ => rewrite E
              end.
  all: cbn [negb andb orb]; rewrite <- ?app_assoc; cbn [app].
  all: repeat split; eauto.
Qed.

Definition analysisRequest (w : World) : Request :=
  queryRequest
    ("Please analyze this text for grammar, style, and clarity issues. Provide specific suggestions for improvement:"
     ++ blankLine ++ quoted (editorText w)).

Definition similarityRequest (w : World) : Request :=
  queryRequest
    ("Check if this text has any similarities to the documents in the knowledge base. Identify any potential plagiarism or very similar passages:"
     ++ blankLine ++ quoted (editorText w)).

(** What the suggestions panel shows after an analysis of the text of
    the editor in [w]. *)
Definition suggestions (w : World) : string :=
  match answer w (analysisRequest w) with
  | Returned result =>
      match field result "answer" with
      | Some (JStr text) => suggestionCard (JsString.replace_newlines text)
      | _ => placeholder "Failed to analyze text."
      end
  | Thrown _ => placeholder "Failed to analyze text."
  end.

Lemma handleAnalyzeText_run (w : World) :
  wp handleAnalyzeText
     (fun o w' =>
        o = Returned tt
        /\ if passesGuard ExAnalyzeText w then
             texts w' suggestionsPanel_innerHTML = suggestions w
             /\ alerts w' = alerts w
           else
             texts w' suggestionsPanel_innerHTML = texts w suggestionsPanel_innerHTML
             /\ alerts w' = alerts w ++ ["Please write some text first."]
             /\ requests w' = requests w) w.
Proof.
  destruct w.
  unfold suggestions, analysisRequest, answer, queryRequest, editorText, passesGuard, field.
  fields.
  wp_exec.
  all: norm_final.
  all: settle_replace.
  all: repeat match goal with
              | E : _ = _ |- _ => rewrite E
              end.
  all: cbn [negb andb orb]; rewrite <- ?app_assoc; cbn [app].
  all: repeat split; eauto.
Qed.

(** The alert that ends a similarity check of the text of the editor
    in [w]. *)
Definition similarityAlert (w : World) : string :=
  match answer w (similarityRequest w) with
  | Returned result =>
      match Value.prop (Some result) "answer" with
      | inr text =>
          ("Similarity Check Results:" ++ blankLine ++ Value.toString text)%string
      | inl _ => "Error during similarity check."
      end
  | Thrown _ => "Error during similarity check."
  end.

Lemma handleSimilarityCheck_run (w : World) :
  wp handleSimilarityCheck
     (fun o w' =>
        o = Returned tt
        /\ if passesGuard ExSimilarityCheck w then
             alerts w' = alerts w ++ [similarityAlert w]
           else
             alerts w' = alerts w ++ ["Please write some text first."]
             /\ requests w' = requests w) w.
Proof.
  destruct w.
  unfold similarityAlert, similarityRequest, answer, queryRequest, editorText, passesGuard.
  fields.
  wp_exec.
  all: norm_final.
  all: repeat match goal with
              | E : _ = _ |- _ => rewrite E
              end.
  all: cbn [negb andb orb]; rewrite <- ?app_assoc; cbn [app].
  all: repeat split; eauto.
Qed.

(** What process article leaves of the inputs. *)
Definition processed (w : World) (o : Outcome unit) (w' : World) : Prop :=
  o = Returned tt
  /\ match mainRequest ExProcessArticle w with
     | None =>
         alerts w' = alerts w ++ ["Please paste text into the text area or upload a file."]
         /\ requests w' = requests w
         /\ texts w' = texts w
         /\ currentFileName w' = currentFileName w
     | Some req =>
         match answer w req with
         | Returned _ =>
             texts w' articleInput_value = ""
             /\ texts w' fileInput_value = ""
             /\ texts w' fileNameDisplay_textContent = ""
             /\ currentFileName w' = ""
             /\ flags w' processButton_disabled = true
             /\ alerts w'
                = alerts w
                  ++ [("✅ Successfully added " ++ JsString.DQ ++ docName w
                       ++ JsString.DQ ++ " to GraphRAG system!")%string]
         | Thrown e =>
             texts w' articleInput_value = texts w articleInput_value
             /\ texts w' fileInput_value = texts w fileInput_value
             /\ texts w' fileNameDisplay_textContent = texts w fileNameDisplay_textContent
             /\ currentFileName w' = currentFileName w
             /\ flags w' processButton_disabled = (texts w articleInput_value =? "")%string
             /\ documents w' = documents w
         end
     end.

Lemma handleProcessArticle_run (w : World) :
  wp handleProcessArticle (processed w) w.
Proof.
  destruct w.
  unfold processed, mainRequest, answer, passesGuard, docName, quoted.
  fields.
  wp_exec.
  all: norm_final.
  all: repeat match goal with
              | E : _ = _ |- _ => rewrite E
              end.
  all: cbn [negb andb orb]; rewrite <- ?app_assoc; cbn [app].
  all: repeat split; eauto.
Qed.

End Answers.

Section Reviews.

Context `{Browser}.

Definition step1 : string := "<strong>Step 1:</strong> Querying GraphRAG system...".
Definition step2 : string := "<strong>Step 2:</strong> Literature review generated!".
Definition complete : string :=
  "<strong>Complete!</strong> Review ready for editing in Writing Assistant.".

(** What a review run of [index.js] or [part_000] leaves, case by case. *)
Definition reviewedTo (rev : Revision) (w : World) (o : Outcome unit) (w' : World) : Prop :=
  o = Returned tt
  /\ match mainRequest (ExGenerateReview rev) w with
     | Some req =>
         match answer w req with
         | Returned result =>
             match field result "answer" with
             | Some (JStr draft) =>
                 reviewProgressLog w' = [step1; step2; complete]
                 /\ texts w' reviewDraftOutput_innerHTML = JsString.replace_newlines draft
                 /\ texts w' writingEditor_innerHTML = JsString.replace_newlines draft
                 /\ flags w' writingAssistantSection_hidden = false
                 /\ flags w' reviewGenerationProgress_hidden = false
                 /\ alerts w' = alerts w
             | _ =>
                 (exists e, reviewProgressLog w'
                            = [step1; step2; ("❌ Error: " ++ Value.message e)%string])
                 /\ texts w' reviewDraftOutput_innerHTML = ""
                 /\ texts w' writingEditor_innerHTML = texts w writingEditor_innerHTML
                 /\ flags w' writingAssistantSection_hidden
                    = flags w writingAssistantSection_hidden
                 /\ alerts w' = alerts w ++ ["Error generating literature review."]
             end
         | Thrown _ => True
         end
     | None =>
         requests w' = requests w
         /\ if passesGuard (ExGenerateReview rev) w then
              reviewProgressLog w'
              = ["❌ Error: Cannot read properties of null (reading 'value')"]
              /\ alerts w' = alerts w ++ ["Error generating literature review."]
            else
              reviewProgressLog w' = reviewProgressLog w
              /\ alerts w'
                 = alerts w
                   ++ (if (topicOf w =? "")%string then []
                       else ["Please add some documents first!"])
     end.

Lemma generateReview_run (rev : Revision) (w : World) :
  rev <> part_001 -> wp (run (GenerateReview rev)) (reviewedTo rev w) w.
Proof.
  intro Hrev. destruct w. destruct rev; [| | congruence]; cbn [run].
  all: unfold reviewedTo, step1, step2, complete, mainRequest, answer,
         passesGuard, documents_length, queryRequest, topicOf, radio, field,
         Basic.handleGenerateReview, Legacy.handleGenerateReview, generateReview,
         Basic.readReviewLength, Legacy.readReviewLength;
       fields.
  all: wp_exec.
  all: norm_final.
  all: settle_replace.
  all: repeat match goal with
              | E : _ = _ |- _ => rewrite E
              end.
  all: cbn [negb andb orb]; rewrite <- ?app_assoc, ?app_nil_r; cbn [app].
  all: try match goal with
           | E1 : Value.prop ?v _ = inr _, E2 : Value.prop ?v _ = inl _ |- _ =>
               exfalso; eapply prop_defined; [exact E1 | exact E2]
           end.
  all: repeat split; eauto.
Qed.

End Reviews.



(** X10.  Analyze text, past its guard.  The suggestions panel ends up
    showing the card with the answer, newlines replaced by [<br>], when
    the response has a string [answer]; in every other case, a failed
    request or a response without such an [answer], it shows
    [Failed to analyze text.].  No alert is raised either way. *)
Theorem analysis_shown `{Browser} (w : World) :
  passesGuard ExAnalyzeText w = true ->
  let w' := final handleAnalyzeText w in
  texts w' suggestionsPanel_innerHTML
  = match answer w (analysisRequest w) with
    | Returned result =>
        match field result "answer" with
        | Some (JStr text) => suggestionCard (JsString.replace_newlines text)
        | _ => placeholder "Failed to analyze text."
        end
    | Thrown _ => placeholder "Failed to analyze text."
    end
  /\ alerts w' = alerts w.
Proof.
  intros Hguard w'. destruct (handleAnalyzeText_run w) as [_ Hrun].
  rewrite Hguard in Hrun. exact Hrun.
Qed.

Lemma analysis_shown_witness :
  let B := ExchangeExamples.agreeable in
  passesGuard ExAnalyzeText ContractExamples.busyPage = true
  /\ texts (final handleAnalyzeText ContractExamples.busyPage) suggestionsPanel_innerHTML
     = placeholder "Failed to analyze text.".
Proof.
  intro B. split; [reflexivity |].
  exact (proj1 (@analysis_shown B ContractExamples.busyPage eq_refl)).
Defined.



(** X12.  What process article leaves of the inputs.  After an upload
    that succeeded, the text area, the file input, the name display and
    the remembered file name are all empty, the process button is
    disabled and the alert names the document.  After an upload that
    failed, the text area, the file input, the name display, the
    remembered file name and the document list are as before and the
    process button is enabled again, so the user can retry. *)
Theorem article_inputs_after_processing `{Browser} (w : World) (req : Request) :
  mainRequest ExProcessArticle w = Some req ->
  let w' := final handleProcessArticle w in
  match answer w req with
  | Returned _ =>
      texts w' articleInput_value = ""
      /\ texts w' fileInput_value = ""
      /\ texts w' fileNameDisplay_textContent = ""
      /\ currentFileName w' = ""
      /\ flags w' processButton_disabled = true
      /\ alerts w'
         = alerts w
           ++ [("✅ Successfully added " ++ JsString.DQ ++ docName w
                ++ JsString.DQ ++ " to GraphRAG system!")%string]
  | Thrown e =>
      texts w' articleInput_value = texts w articleInput_value
      /\ texts w' fileInput_value = texts w fileInput_value
      /\ texts w' fileNameDisplay_textContent = texts w fileNameDisplay_textContent
      /\ currentFileName w' = currentFileName w
      /\ flags w' processButton_disabled = (texts w articleInput_value =? "")%string
      /\ documents w' = documents w
  end.
Proof.
  intros Hreq w'. destruct (handleProcessArticle_run w) as [_ Hrun].
  rewrite Hreq in Hrun. exact Hrun.
Qed.

Lemma article_inputs_after_processing_witness :
  let B := ContractExamples.down in
  let w' := final handleProcessArticle ContractExamples.busyPage in
  texts w' articleInput_value = "Some article."
  /\ flags w' processButton_disabled = false.
Proof.
  intros B w'.
  pose proof (@article_inputs_after_processing B ContractExamples.busyPage _ eq_refl)
    as Hrun.
  split; [exact (proj1 Hrun) | exact (proj1 (proj2 (proj2 (proj2 (proj2 Hrun)))))].
Defined.

(** X13.  A review of [index.js] or [part_000] whose request succeeded.
    With a string [answer], the progress log holds exactly the three lines
    [Step 1], [Step 2], [Complete!], the draft pane and the writing editor
    show the draft with [<br>] for newlines, the writing assistant and
    the progress section are shown and no alert is raised.  Without a
    string [answer], the run fails after [Step 2]: the log ends with the
    error line, the pane is left empty, the editor is untouched and the
    user gets the alert. *)
Theorem review_shown `{Browser} (rev : Revision) (w : World) (req : Request)
        (result : JSON) :
  rev <> part_001 ->
  mainRequest (ExGenerateReview rev) w = Some req ->
  answer w req = Returned result ->
  let w' := final (run (GenerateReview rev)) w in
  match field result "answer" with
  | Some (JStr draft) =>
      reviewProgressLog w'
      = ["<strong>Step 1:</strong> Querying GraphRAG system...";
         "<strong>Step 2:</strong> Literature review generated!";
         "<strong>Complete!</strong> Review ready for editing in Writing Assistant."]
      /\ texts w' reviewDraftOutput_innerHTML = JsString.replace_newlines draft
      /\ texts w' writingEditor_innerHTML = JsString.replace_newlines draft
      /\ flags w' writingAssistantSection_hidden = false
      /\ flags w' reviewGenerationProgress_hidden = false
      /\ alerts w' = alerts w
  | _ =>
      (exists e,
          reviewProgressLog w'
          = ["<strong>Step 1:</strong> Querying GraphRAG system...";
             "<strong>Step 2:</strong> Literature review generated!";
             ("❌ Error: " ++ Value.message e)%string])
      /\ texts w' reviewDraftOutput_innerHTML = ""
      /\ texts w' writingEditor_innerHTML = texts w writingEditor_innerHTML
      /\ flags w' writingAssistantSection_hidden = flags w writingAssistantSection_hidden
      /\ alerts w' = alerts w ++ ["Error generating literature review."]
  end.
Proof.
  intros Hrev Hreq Hanswer w'. destruct (generateReview_run w Hrev) as [_ Hrun].
  rewrite Hreq, Hanswer in Hrun. exact Hrun.
Qed.

Lemma review_shown_witness :
  let B := DraftExample.writer in
  let w' := final Basic.handleGenerateReview DraftExample.stale in
  texts w' writingEditor_innerHTML = "Graphs help retrieval."
  /\ List.length (reviewProgressLog w') = 3%nat.
Proof.
  intros B w'.
  pose proof (@review_shown B index_js DraftExample.stale _ _
                ltac:(discriminate) eq_refl eq_refl) as Hrun.
  split; [exact (proj1 (proj2 (proj2 Hrun))) |].
  unfold w'. change Basic.handleGenerateReview with (run (GenerateReview index_js)).
  rewrite (proj1 Hrun). reflexivity.
Defined.

(** X14.  The review of [part_000] reads the checked review-length radio
    button without a fallback.  When none is checked, a run past the guard
    sends nothing: the [TypeError] is caught, its message is the only line
    of the progress log, and the user gets the alert.  From the same page
    [index.js] falls back to [detailed] and sends its request. *)
Theorem legacy_review_needs_checked_length `{Browser} (w : World) :
  passesGuard (ExGenerateReview part_000) w = true ->
  checked w "review-length" = None ->
  let w' := final Legacy.handleGenerateReview w in
  outcome Legacy.handleGenerateReview w = Returned tt
  /\ requests w' = requests w
  /\ reviewProgressLog w' = ["❌ Error: Cannot read properties of null (reading 'value')"]
  /\ alerts w' = alerts w ++ ["Error generating literature review."]
  /\ issued Basic.handleGenerateReview w
     = [queryRequest (reviewPrompt "detailed" (topicOf w))].
Proof.
  intros Hguard Hchecked w'.
  assert (Hrev : part_000 <> part_001) by discriminate.
  destruct (generateReview_run w Hrev) as [Ho Hrun].
  unfold mainRequest in Hrun. rewrite Hguard, Hchecked in Hrun.
  split; [exact Ho |]. split; [exact (proj1 Hrun) |].
  split; [exact (proj1 (proj2 Hrun)) |]. split; [exact (proj2 (proj2 Hrun)) |].
  destruct (exchange_summary (ExGenerateReview index_js) w) as (_ & Hrequests & _).
  unfold issued. cbn [operation run] in Hrequests.
  fold (final Basic.handleGenerateReview w). rewrite Hrequests, skipn_length_app.
  unfold exchange, mainRequest.
  change (passesGuard (ExGenerateReview index_js) w)
    with (passesGuard (ExGenerateReview part_000) w).
  rewrite Hguard. unfold radio. rewrite Hchecked.
  reflexivity.
Qed.

Lemma legacy_review_needs_checked_length_witness :
  let B := DraftExample.writer in
  requests (final Legacy.handleGenerateReview DraftExample.stale) = []
  /\ alerts (final Legacy.handleGenerateReview DraftExample.stale)
     = ["Error generating literature review."].
Proof.
  intro B.
  pose proof (@legacy_review_needs_checked_length B DraftExample.stale eq_refl eq_refl)
    as Hrun.
  split; [exact (proj1 (proj2 Hrun)) | exact (proj1 (proj2 (proj2 (proj2 Hrun))))].
Defined.

(* ================================================================== *)
(** ** Picking one file *)

Section OneFile.

Context `{Browser}.

(** How the single-file path of [index.js] and [part_001] takes a file:
    as a PDF, as a Word document, or as text. *)
Inductive Kind : Type := PdfFile | WordFile | TextFile.

Definition kindOf (file : File) : Kind :=
  let fileExtension := JsString.fileExtension (file_name file) in
  if (file_type file =? "application/pdf")%string || (fileExtension =? "pdf")%string
  then PdfFile
  else if (fileExtension =? "docx")%string || (fileExtension =? "doc")%string
  then WordFile
  else TextFile.

Definition uploadOf (file : File) (fileType base64 : string) : Request :=
  requestOf "/add_document" "POST"
    (Some (JObj [("content", JStr base64);
                 ("filename", JStr (file_name file));
                 ("file_type", JStr fileType)])).

(** What cannot be read leaves the page with an error in the name
    display and no remembered file name. *)
Definition unread (file : File) (e : Exn) (w w' : World) : Prop :=
  texts w' fileNameDisplay_textContent = "Error processing file."
  /\ currentFileName w' = ""
  /\ texts w' articleInput_value = ""
  /\ alerts w'
     = alerts w
       ++ [("Error processing " ++ file_name file ++ ": " ++ Value.message e)%string]
  /\ requests w' = requests w.

Definition uploaded (file : File) (fileType kind : string) (w w' : World) : Prop :=
  match file_dataURL file with
  | None => unread file ProgressEvent w w'
  | Some base64 =>
      match answer w (uploadOf file fileType base64) with
      | Returned _ =>
          requests w' = requests w ++ [uploadOf file fileType base64; documentsRequest]
          /\ alerts w'
             = alerts w
               ++ [("✅ " ++ kind ++ " " ++ quoted (file_name file)
                    ++ " uploaded successfully!")%string]
          /\ texts w' fileNameDisplay_textContent = ""
          /\ texts w' fileInput_value = ""
          /\ texts w' articleInput_value = ""
          /\ currentFileName w' = ""
      | Thrown e =>
          requests w' = requests w ++ [uploadOf file fileType base64]
          /\ texts w' fileNameDisplay_textContent = "Error processing file."
          /\ currentFileName w' = ""
      end
  end.

Definition selectedTo (file : File) (w : World) (o : Outcome unit) (w' : World) : Prop :=
  o = Returned tt
  /\ match kindOf file with
     | PdfFile => uploaded file "pdf" "PDF file" w w'
     | WordFile => uploaded file "docx" "Word document" w w'
     | TextFile =>
         match file_text file with
         | inr fullText =>
             texts w' articleInput_value = JsString.trim fullText
             /\ currentFileName w' = file_name file
             /\ texts w' fileNameDisplay_textContent
                = ("Selected: " ++ file_name file)%string
             /\ alerts w' = alerts w
             /\ requests w' = requests w
         | inl e => unread file e w w'
         end
     end.

Lemma selectOne_run (file : File) (w : World) :
  wp (selectOne file) (selectedTo file w) w.
Proof.
  destruct w.
  unfold selectedTo, kindOf, uploaded, unread, uploadOf, answer, selectOne, uploadBinary,
    readAsDataURL, quoted.
  fields.
  wp_exec.
  all: norm_final.
  all: repeat match goal with
              | E : _ = _ |- _ => rewrite E
              end.
  all: cbn [negb andb orb]; rewrite <- ?app_assoc, ?app_nil_r; cbn [app].
  all: repeat split; eauto.
Qed.

End OneFile.

Section Article.

Context `{Browser}.

(** Whether a text holds a carriage return.  The [value] of a text area
    reads back as it was assigned for a text that holds none; [CR LF] and
    [CR] come back as [LF]. *)
Fixpoint hasCarriageReturn (s : string) : bool :=
  match s with
  | EmptyString => false
  | String c s' => (nat_of_ascii c =? 13)%nat || hasCarriageReturn s'
  end.

(** The first request of process article, from a text area that is not
    blank. *)
Lemma processArticle_first (w : World) :
  JsString.trim (texts w articleInput_value) <> "" ->
  nth_error (issued handleProcessArticle w) 0
  = Some (requestOf "/add_document" "POST"
            (Some (JObj [("content", JStr (JsString.trim (texts w articleInput_value)));
                         ("filename", JStr (docName w))]))).
Proof.
  intro Htext.
  destruct (exchange_summary ExProcessArticle w) as (_ & Hrequests & _).
  cbn [operation run] in Hrequests. unfold issued. rewrite Hrequests, skipn_length_app.
  unfold exchange, mainRequest, passesGuard.
  destruct (JsString.trim (texts w articleInput_value) =? "")%string eqn:Hempty.
  - apply String.eqb_eq in Hempty. contradiction.
  - reflexivity.
Qed.

End Article.

Module FileExample.

Definition notes : File :=
  {| file_name := "notes.txt"; file_type := "text/plain";
     file_text := inr "  Retrieval over graphs.  "; file_dataURL := None;
     file_pdfPages := inl (ErrorObj "not a PDF") |}.

(** A PDF by its MIME type, under a name that does not say so. *)
Definition download : File :=
  {| file_name := "download"; file_type := "application/pdf";
     file_text := inr " %PDF-1.7 "; file_dataURL := Some "data:application/pdf;base64,JVBERi0=";
     file_pdfPages := inl (ErrorObj "not read") |}.

End FileExample.

(** X15.  Picking one text file and then pressing process.  In
    [index.js] and [part_001], picking a single file that is neither a PDF
    nor a Word document sends nothing; it puts the trimmed text of the
    file into the text area.  For a text without carriage returns, which
    the text area gives back as it was assigned, process article then
    uploads exactly that text under the name of the file. *)
Theorem text_file_then_process `{Browser} (file : File) (fullText : string) (w : World) :
  kindOf file = TextFile ->
  file_text file = inr fullText ->
  hasCarriageReturn fullText = false ->
  JsString.trim fullText <> "" ->
  file_name file <> "" ->
  let w1 := final (handleFileSelect (Some [file])) w in
  texts w1 articleInput_value = JsString.trim fullText
  /\ requests w1 = requests w
  /\ nth_error (issued handleProcessArticle w1) 0
     = Some (requestOf "/add_document" "POST"
               (Some (JObj [("content", JStr (JsString.trim fullText));
                            ("filename", JStr (file_name file))]))).
Proof.
  intros Hkind Htext _ Hblank Hname w1.
  destruct (selectOne_run file w) as [_ Hrun].
  change (final (selectOne file) w) with w1 in Hrun.
  rewrite Hkind, Htext in Hrun.
  destruct Hrun as (Harticle & Hcurrent & _ & _ & Hrequests).
  split; [exact Harticle |]. split; [exact Hrequests |].
  rewrite processArticle_first; rewrite Harticle, trim_trim; [| exact Hblank].
  unfold docName. rewrite Hcurrent.
  destruct (file_name file =? "")%string eqn:Hempty; [| reflexivity].
  apply String.eqb_eq in Hempty. contradiction.
Qed.

Lemma text_file_then_process_witness :
  let B := ContractExamples.down in
  let w1 := final (handleFileSelect (Some [FileExample.notes])) Example.page in
  map req_body (firstn 1 (issued handleProcessArticle w1))
  = [Some (JObj [("content", JStr "Retrieval over graphs.");
                 ("filename", JStr "notes.txt")])].
Proof.
  intros B w1.
  pose proof (@text_file_then_process B FileExample.notes _ Example.page
                eq_refl eq_refl eq_refl ltac:(discriminate) ltac:(discriminate))
    as (_ & _ & Hfirst).
  fold w1 in Hfirst.
  destruct (issued handleProcessArticle w1) as [| req rest]; [discriminate Hfirst |].
  injection Hfirst as ->. reflexivity.
Defined.

(** X16.  Picking one file that cannot be read ([index.js], [part_001]).
    The handler returns, sends nothing, leaves the text area empty, shows
    [Error processing file.] in the name display, forgets the file name,
    and alerts [Error processing NAME: MESSAGE].  For a PDF or Word file
    the failure is the [FileReader]'s progress event, which has no
    [message]: the alert ends in [undefined]. *)
Theorem unreadable_file_reported `{Browser} (file : File) (e : Exn) (w : World) :
  match kindOf file with
  | TextFile => file_text file = inl e
  | _ => file_dataURL file = None /\ e = ProgressEvent
  end ->
  let w' := final (handleFileSelect (Some [file])) w in
  outcome (handleFileSelect (Some [file])) w = Returned tt
  /\ texts w' fileNameDisplay_textContent = "Error processing file."
  /\ currentFileName w' = ""
  /\ texts w' articleInput_value = ""
  /\ alerts w'
     = alerts w
       ++ [("Error processing " ++ file_name file ++ ": " ++ Value.message e)%string]
  /\ requests w' = requests w
  /\ Value.message ProgressEvent = "undefined".
Proof.
  intros Hfile w'. destruct (selectOne_run file w) as [Ho Hrun].
  change (final (selectOne file) w) with w' in Hrun.
  split; [exact Ho |]. unfold uploaded in Hrun.
  destruct (kindOf file).
  - destruct Hfile as [Hurl ->]. rewrite Hurl in Hrun. unfold unread in Hrun. tauto.
  - destruct Hfile as [Hurl ->]. rewrite Hurl in Hrun. unfold unread in Hrun. tauto.
  - rewrite Hfile in Hrun. unfold unread in Hrun. tauto.
Qed.

Lemma unreadable_file_reported_witness :
  let B := ContractExamples.down in
  alerts (final (handleFileSelect (Some [BatchExample.brokenPdf])) Example.page)
  = ["Error processing scan.pdf: undefined"].
Proof.
  intro B.
  exact (proj1 (proj2 (proj2 (proj2 (proj2
           (@unreadable_file_reported B BatchExample.brokenPdf ProgressEvent Example.page
              (conj eq_refl eq_refl))))))).
Defined.

(** X17.  The single-file path and the batch loop classify differently.
    A file whose MIME type is [application/pdf] but whose name does not
    end in [pdf], [docx] or [doc] is uploaded as a PDF (base64, [file_type]
    [pdf]) when picked alone, and as text (its trimmed text, [file_type]
    [text]) when it is part of a batch, where only the extension counts. *)
Theorem pdf_by_type_only_when_single `{Browser} (file : File) (base64 fullText : string)
        (total i : nat) (w : World) :
  file_type file = "application/pdf" ->
  (JsString.fileExtension (file_name file) =? "pdf")%string = false ->
  (JsString.fileExtension (file_name file) =? "docx")%string = false ->
  (JsString.fileExtension (file_name file) =? "doc")%string = false ->
  file_dataURL file = Some base64 ->
  file_text file = inr fullText ->
  nth_error (issued (handleFileSelect (Some [file])) w) 0
  = Some (requestOf "/add_document" "POST"
            (Some (JObj [("content", JStr base64);
                         ("filename", JStr (file_name file));
                         ("file_type", JStr "pdf")])))
  /\ issued (uploadOne total i file) w
     = [requestOf "/add_document" "POST"
          (Some (JObj [("content", JStr (JsString.trim fullText));
                       ("filename", JStr (file_name file));
                       ("file_type", JStr "text")]))].
Proof.
  intros Htype Hpdf Hdocx Hdoc Hurl Htext. split.
  - destruct (selectOne_run file w) as [_ Hrun].
    assert (Hkind : kindOf file = PdfFile) by (unfold kindOf; now rewrite Htype).
    rewrite Hkind in Hrun. unfold uploaded in Hrun. rewrite Hurl in Hrun.
    unfold issued. cbn [handleFileSelect].
    destruct (answer w _); destruct Hrun as [Hrequests _];
      rewrite Hrequests, skipn_length_app; reflexivity.
  - destruct (uploadOne_step index_js total i file w) as [_ Hstep].
    cbn [uploadOneOf] in Hstep. unfold batchStep, batchRequest in Hstep.
    rewrite Hpdf, Hdocx, Hdoc, Htext in Hstep. cbn [orb] in Hstep.
    destruct Hstep as [Hrequests _]. unfold issued.
    rewrite Hrequests, skipn_length_app. reflexivity.
Qed.

Lemma pdf_by_type_only_when_single_witness :
  let B := ContractExamples.down in
  map req_body (issued (uploadOne 2 0 FileExample.download) Example.page)
  = [Some (JObj [("content", JStr "%PDF-1.7");
                 ("filename", JStr "download");
                 ("file_type", JStr "text")])].
Proof.
  intro B.
  rewrite (proj2 (@pdf_by_type_only_when_single B FileExample.download _ _ 2 0 Example.page
                    eq_refl eq_refl eq_refl eq_refl eq_refl eq_refl)).
  reflexivity.
Defined.

(** X18.  Cancelling the file dialog clears the name display and the
    remembered file name, and nothing else: the text area keeps its text
    and nothing is sent.  A process article that follows therefore uploads
    that text under a generated name,
    [Manual_Entry_<Date.now()>.txt]. *)
Theorem cancelled_dialog_forgets_name `{Browser} (files : option (list File)) (w : World) :
  files = None \/ files = Some [] ->
  let w1 := final (handleFileSelect files) w in
  outcome (handleFileSelect files) w = Returned tt
  /\ currentFileName w1 = ""
  /\ texts w1 fileNameDisplay_textContent = ""
  /\ texts w1 articleInput_value = texts w articleInput_value
  /\ requests w1 = requests w
  /\ (JsString.trim (texts w articleInput_value) <> "" ->
      nth_error (issued handleProcessArticle w1) 0
      = Some (requestOf "/add_document" "POST"
                (Some (JObj [("content", JStr (JsString.trim (texts w articleInput_value)));
                             ("filename",
                              JStr ("Manual_Entry_" ++ JsString.ofZ (now w) ++ ".txt"))])))).
Proof.
  intros Hfiles w1.
  assert (Hw1 : handleFileSelect files w
                = (Returned tt,
                   set_currentFileName "" (set_text fileNameDisplay_textContent "" w)))
    by (destruct Hfiles as [-> | ->]; reflexivity).
  unfold w1, outcome, final. rewrite Hw1. cbn [fst snd].
  repeat split.
  intro Hblank. rewrite processArticle_first by exact Hblank. reflexivity.
Qed.

Lemma cancelled_dialog_forgets_name_witness :
  let B := ContractExamples.down in
  let w := set_currentFileName "notes.txt" ContractExamples.busyPage in
  map req_body (firstn 1 (issued handleProcessArticle (final (handleFileSelect None) w)))
  = [Some (JObj [("content", JStr "Some article.");
                 ("filename", JStr "Manual_Entry_1700000000000.txt")])].
Proof.
  intros B w.
  pose proof (@cancelled_dialog_forgets_name B None w (or_introl eq_refl))
    as (_ & _ & _ & _ & _ & Hfirst).
  specialize (Hfirst ltac:(discriminate)).
  destruct (issued handleProcessArticle (final (handleFileSelect None) w)) as [| req rest];
    [discriminate Hfirst |].
  injection Hfirst as ->. reflexivity.
Defined.

(* ================================================================== *)
(** ** The history of drafts never holds two drafts *)

Section History.

Context `{Browser}.

Lemma run_keeps_history (h : list JSVal) (op : Operation) :
  (forall rev, op <> GenerateReview rev) ->
  preserves (fun w => draftHistory w = h) (run op).
Proof.
  intro Hop.
  destruct op as [| rev files | rev | | | | refinementType | k | k | rev];
    try destruct rev; cbn [run]; try (exfalso; eapply Hop; reflexivity).
  all: preserve_with ltac:(assumption).
Qed.

End History.

(** X19.  The history of drafts never grows past one draft.  Every
    operation other than generate review leaves [draftHistory] as it was,
    and generate review leaves at most one draft in it. *)
Theorem draft_history_at_most_one `{Browser} (op : Operation) (w : World) :
  draftHistory (final (run op) w) = draftHistory w
  \/ (exists rev, op = GenerateReview rev)
     /\ (List.length (draftHistory (final (run op) w)) <= 1)%nat.
Proof.
  destruct op as [| rev files | rev | | | | refinementType | k | k | rev].
  3: { destruct (exchange_summary (ExGenerateReview rev) w) as (_ & _ & _ & Hdrafted).
       cbn [operation] in Hdrafted. unfold drafted in Hdrafted.
       assert (Hcases : draftHistory (final (run (GenerateReview rev)) w) = draftHistory w
                        \/ draftHistory (final (run (GenerateReview rev)) w) = []
                        \/ exists d, draftHistory (final (run (GenerateReview rev)) w) = [d]).
       { destruct (mainRequest (ExGenerateReview rev) w) as [req |].
         - destruct (answer w req) as [result | e]; [| auto].
           destruct Hdrafted as [Hhistory _]; destruct result; eauto.
         - destruct (passesGuard (ExGenerateReview rev) w); auto. }
       destruct Hcases as [Hsame | [Hnone | [d Hone]]]; [now left | right ..];
         (split; [now exists rev |]).
       - rewrite Hnone. cbn. lia.
       - rewrite Hone. cbn. lia. }
  all: left; apply (@run_keeps_history _ (draftHistory w)); [discriminate | reflexivity].
Qed.

(* ================================================================== *)
(** ** A reload that succeeds *)

Section Reload.

Context `{Browser}.



End Reload.

Module ReloadExample.


End ReloadExample.



(* ================================================================== *)
(** ** The section buttons of [part_001] *)

Section SectionButtons.

(** What the pane shows of the first draft, or [fallback]. *)
Definition firstDraft (drafts : list string) (fallback : string) : string :=
  match drafts with
  | draft :: _ =>
      if (draft =? "")%string then fallback else JsString.replace_newlines draft
  | [] => fallback
  end.

Lemma sectionButtonClick_run (w : World) (k : nat) (drafts : list string) :
  (k < List.length Enhanced.sections)%nat ->
  draftHistory w = historyOf drafts ->
  Enhanced.sectionButtonClick k w
  = (Returned tt,
     set_text reviewDraftOutput_innerHTML (firstDraft drafts "No content available")
       (set_draftVersionControls (activateOnly k (draftVersionControls w)) w)).
Proof.
  intros Hk Hh. unfold Enhanced.sectionButtonClick.
  destruct (nth_error Enhanced.sections k) as [section |] eqn:Hsection.
  2: { apply nth_error_None in Hsection. lia. }
  unfold bind, Enhanced.showSectionContent, bind, gets. unfold modify at 1.
  cbn [draftHistory set_draftVersionControls]. rewrite Hh.
  destruct drafts as [| draft rest]; [reflexivity |].
  cbn [historyOf map draftAt Z.ltb Z.compare Z.to_nat nth_error orElse Value.truthy firstDraft].
  destruct (draft =? "")%string; reflexivity.
Qed.

End SectionButtons.

(** X21.  The section buttons of [part_001].  For a [process] with
    truthy [phases], [renderEnhancedDraftViewer] makes six buttons, named
    after the sections, none of which stores an index.  A click on one of
    them runs the button's own listener, which shows the first draft or
    [No content available], and then, as the event bubbles and the button
    has the class [version-button], the listener of
    [draftVersionControls], which reads the missing index as 0 and shows
    the first draft again, or [Could not load this version.]: whichever
    section is clicked, the pane shows the whole review, and the clicked
    button is the only active one. *)
Theorem section_click_shows_whole_review `{Browser} (process : JSVal) (w : World)
        (drafts : list string) (k : nat) :
  Value.truthy process && Value.truthy (phasesOf process) = true ->
  draftHistory w = historyOf drafts ->
  (k < 6)%nat ->
  let w0 := final (Enhanced.renderEnhancedDraftViewer process) w in
  let w1 := final (Enhanced.sectionButtonClick k) w0 in
  let w2 := final (versionButtonClick k) w1 in
  map btn_text (draftVersionControls w0)
  = ["Introduction"; "Methodology"; "Themes"; "Analysis"; "Synthesis"; "Conclusion"]
  /\ Forall (fun button => btn_index button = None) (draftVersionControls w0)
  /\ texts w1 reviewDraftOutput_innerHTML = firstDraft drafts "No content available"
  /\ texts w2 reviewDraftOutput_innerHTML = firstDraft drafts "Could not load this version."
  /\ forall i button,
       nth_error (draftVersionControls w2) i = Some button ->
       btn_active button = (i =? k)%nat.
Proof.
  intros Hprocess Hh Hk w0 w1 w2.
  assert (Hw0 : w0 = set_draftVersionControls sectionButtons w).
  { unfold w0, final. rewrite renderEnhancedDraftViewer_run, Hprocess. reflexivity. }
  assert (Hw1 : w1 = set_text reviewDraftOutput_innerHTML
                       (firstDraft drafts "No content available")
                       (set_draftVersionControls (activateOnly k sectionButtons) w)).
  { unfold w1, final. rewrite (@sectionButtonClick_run w0 k drafts).
    - rewrite Hw0. now destruct w.
    - exact Hk.
    - rewrite Hw0. exact Hh. }
  assert (Htarget : exists target,
             nth_error (draftVersionControls w1) k = Some target
             /\ btn_index target = None).
  { rewrite Hw1. cbn [draftVersionControls set_text set_texts set_draftVersionControls].
    rewrite activateOnly_nth.
    do 6 (destruct k as [| k]; [eexists; split; reflexivity |]). lia. }
  destruct Htarget as (target & Htarget & Hindex).
  assert (Hw2 : w2 = set_text reviewDraftOutput_innerHTML
                       (firstDraft drafts "Could not load this version.")
                       (set_draftVersionControls
                          (activateOnly k (draftVersionControls w1)) w1)).
  { unfold w2, final. rewrite (@versionButtonClick_run w1 k target drafts Htarget).
    - unfold storedIndex. rewrite Hindex. cbn [snd]. f_equal.
      now destruct drafts as [| draft rest].
    - rewrite Hw1. exact Hh. }
  split; [rewrite Hw0; reflexivity |].
  split; [rewrite Hw0; repeat constructor |].
  split; [rewrite Hw1; reflexivity |].
  split; [rewrite Hw2; reflexivity |].
  intros i button. rewrite Hw2.
  cbn [draftVersionControls set_text set_texts set_draftVersionControls].
  rewrite activateOnly_nth.
  destruct (nth_error (draftVersionControls w1) i); [| discriminate].
  cbn [option_map]. now intros [= <-].
Qed.

Lemma section_click_shows_whole_review_witness :
  let B := ContractExamples.down in
  let w0 := final (Enhanced.renderEnhancedDraftViewer
                     (Some (JObj [("phases", JArr [])]))) Example.page in
  let w1 := final (Enhanced.sectionButtonClick 2) w0 in
  texts w1 reviewDraftOutput_innerHTML = "No content available"
  /\ texts (final (versionButtonClick 2) w1) reviewDraftOutput_innerHTML
     = "Could not load this version.".
Proof.
  intros B w0 w1.
  pose proof (@section_click_shows_whole_review B (Some (JObj [("phases", JArr [])]))
                Example.page [] 2 eq_refl eq_refl ltac:(lia))
    as (_ & _ & Hown & Hbubbled & _).
  split; [exact Hown | exact Hbubbled].
Defined.

(* ================================================================== *)
(** ** The enhanced review *)

Section EnhancedReview.

Context `{Browser}.

(** What [addProgressLog(...)] raises in [part_001]. *)
Definition notDefined : Exn := ReferenceError "addProgressLog is not defined".

(** What a review run of [part_001] leaves: at the guard, as in the
    other revisions; past it, the page as the statements before the [try]
    set it, the error on the console, and nothing of the review. *)
Definition enhancedTo (w : World) (o : Outcome unit) (w' : World) : Prop :=
  requests w' = requests w
  /\ if passesGuard (ExGenerateReview part_001) w then
       o = Thrown notDefined
       /\ alerts w' = alerts w
       /\ console w'
          = console w ++ [ConsoleError "Error generating enhanced review:" notDefined]
       /\ reviewProgressLog w' = []
       /\ draftHistory w' = []
       /\ draftVersionControls w' = []
       /\ texts w' reviewDraftOutput_innerHTML = ""
       /\ texts w' writingEditor_innerHTML = texts w writingEditor_innerHTML
       /\ texts w' currentPhaseText_textContent = texts w currentPhaseText_textContent
       /\ flags w' reviewGenerationProgress_hidden = false
       /\ flags w' writingAssistantSection_hidden = flags w writingAssistantSection_hidden
       /\ flags w' sectionRefinementControls_hidden
          = flags w sectionRefinementControls_hidden
     else
       o = Returned tt
       /\ reviewProgressLog w' = reviewProgressLog w
       /\ alerts w'
          = alerts w
            ++ (if (topicOf w =? "")%string then []
                else ["Please add some documents first!"]).

Lemma enhancedReview_run (w : World) :
  wp Enhanced.handleGenerateReview (enhancedTo w) w.
Proof.
  destruct w.
  unfold enhancedTo, notDefined, passesGuard, documents_length, topicOf.
  fields.
  wp_exec.
  all: norm_final.
  all: repeat match goal with
              | E : _ = _ |- _ => rewrite E
              end.
  all: cbn [negb andb orb]; rewrite ?app_nil_r.
  all: repeat split; reflexivity.
Qed.

End EnhancedReview.

Module EnhancedExample.

(** A backend that sends a review and no account of the process. *)
Definition terse : Browser :=
  Example.constantly
    (Responded {| status := 200;
                  body := Parsed (JObj [("final_review",
                                         JStr ("Graphs." ++ String JsString.LF "Done."))]) |}).

End EnhancedExample.

(** X22.  The review of [part_001] never reaches the backend.  A run
    past the guard empties the progress log, the pane, the version
    controls and the history, shows the progress section and raises the
    loading state; its first statement after reading the radio buttons is
    [addProgressLog(...)], a function [part_001] does not define.  The
    [ReferenceError] goes to the [catch], which logs it on the console
    and calls [addProgressLog] again: the second [ReferenceError] leaves
    the handler, after [finally] has lowered the loading state.  No
    request is sent, no alert is raised, no draft is pushed, and the
    phase indicator, the writing editor and the refinement controls are
    not touched. *)
Theorem enhanced_review_stops_before_request `{Browser} (w : World) :
  passesGuard (ExGenerateReview part_001) w = true ->
  let w' := final Enhanced.handleGenerateReview w in
  outcome Enhanced.handleGenerateReview w
  = Thrown (ReferenceError "addProgressLog is not defined")
  /\ requests w' = requests w
  /\ alerts w' = alerts w
  /\ console w'
     = console w
       ++ [ConsoleError "Error generating enhanced review:"
             (ReferenceError "addProgressLog is not defined")]
  /\ reviewProgressLog w' = []
  /\ draftHistory w' = []
  /\ draftVersionControls w' = []
  /\ texts w' reviewDraftOutput_innerHTML = ""
  /\ texts w' writingEditor_innerHTML = texts w writingEditor_innerHTML
  /\ texts w' currentPhaseText_textContent = texts w currentPhaseText_textContent
  /\ flags w' reviewGenerationProgress_hidden = false
  /\ flags w' writingAssistantSection_hidden = flags w writingAssistantSection_hidden
  /\ flags w' sectionRefinementControls_hidden = flags w sectionRefinementControls_hidden
  /\ isLoading w' = false
  /\ flags w' loader_hidden = true.
Proof.
  intros Hguard w'. destruct (enhancedReview_run w) as [Hrequests Hrun].
  rewrite Hguard in Hrun. fold w' in Hrequests, Hrun.
  destruct (@exchange_idle _ (ExGenerateReview part_001) w (or_intror Hguard))
    as [Hloading Hloader].
  cbn [operation run] in Hloading, Hloader. fold w' in Hloading, Hloader.
  unfold notDefined in Hrun. tauto.
Qed.

Lemma enhanced_review_stops_before_request_witness :
  let B := EnhancedExample.terse in
  let w' := final Enhanced.handleGenerateReview DraftExample.stale in
  passesGuard (ExGenerateReview part_001) DraftExample.stale = true
  /\ requests w' = []
  /\ draftHistory w' = [].
Proof.
  intros B w'.
  pose proof (@enhanced_review_stops_before_request B DraftExample.stale eq_refl)
    as (_ & Hrequests & _ & _ & _ & Hhistory & _).
  split; [reflexivity |]. split; [exact Hrequests | exact Hhistory].
Defined.

(* ================================================================== *)
(** ** The phases of an enhanced review *)

Section Phases.

Context `{Browser}.


End Phases.


(* ================================================================== *)
(** ** Reading a picked file in the browser ([part_000]) *)

Section LegacyFile.

Context `{Browser}.

(** What [part_000] reads from a file: the text of the pages of a PDF,
    or the text of the file. *)
Definition fullTextOf (file : File) : Exn + string :=
  if (file_type file =? "application/pdf")%string then
    match file_pdfPages file with
    | inr pages => inr (String.concat "" (map Legacy.pageText pages))
    | inl e => inl e
    end
  else file_text file.

Lemma legacySelectOne_run (file : File) (w : World) :
  wp (Legacy.selectOne file)
     (fun o w' =>
        o = Returned tt
        /\ requests w' = requests w
        /\ match fullTextOf file with
           | inr fullText =>
               texts w' articleInput_value = JsString.trim fullText
               /\ currentFileName w' = file_name file
               /\ texts w' fileNameDisplay_textContent
                  = ("Selected: " ++ file_name file)%string
               /\ alerts w' = alerts w
           | inl e =>
               texts w' articleInput_value = ""
               /\ currentFileName w' = ""
               /\ texts w' fileNameDisplay_textContent = "Error processing file."
               /\ alerts w' = alerts w ++ [("Error processing " ++ file_name file ++ ".")%string]
           end) w.
Proof.
  destruct w. unfold fullTextOf, Legacy.selectOne, Legacy.readFullText. fields.
  wp_exec.
  all: norm_final.
  all: repeat split; eauto.
Qed.

End LegacyFile.

Module LegacyExample.

(** A PDF of two pages; one text item of the first page has no [str]. *)
Definition twoPages : File :=
  {| file_name := "paper.pdf"; file_type := "application/pdf";
     file_text := inl (ErrorObj "binary");
     file_dataURL := Some "data:application/pdf;base64,JVBERi0=";
     file_pdfPages := inr [[Some "Graph"; None; Some "retrieval"]; [Some "works."]] |}.

End LegacyExample.

(** X24.  In [part_000] a single picked file is read in the browser and
    nothing is sent.  The text area receives the trimmed text: for a file
    of type [application/pdf] the text items of each page joined by
    spaces (an item without [str] counting as empty), each page followed
    by a blank line; for any other file its text.  When the read fails
    the alert is [Error processing NAME.], without the error's message. *)
Theorem legacy_file_read_in_browser `{Browser} (file : File) (w : World) :
  let w' := final (Legacy.handleFileSelect (Some [file])) w in
  outcome (Legacy.handleFileSelect (Some [file])) w = Returned tt
  /\ requests w' = requests w
  /\ match (if (file_type file =? "application/pdf")%string then
              match file_pdfPages file with
              | inr pages => inr (String.concat "" (map Legacy.pageText pages))
              | inl e => inl e
              end
            else file_text file) with
     | inr fullText =>
         texts w' articleInput_value = JsString.trim fullText
         /\ currentFileName w' = file_name file
         /\ alerts w' = alerts w
     | inl e =>
         texts w' articleInput_value = ""
         /\ currentFileName w' = ""
         /\ texts w' fileNameDisplay_textContent = "Error processing file."
         /\ alerts w' = alerts w ++ [("Error processing " ++ file_name file ++ ".")%string]
     end.
Proof.
  intro w'. destruct (legacySelectOne_run file w) as (Ho & Hrequests & Hrun).
  split; [exact Ho |]. split; [exact Hrequests |].
  unfold fullTextOf in Hrun. fold w'.
  change (final (Legacy.selectOne file) w) with w' in Hrun.
  destruct (if (file_type file =? "application/pdf")%string then _ else _); tauto.
Qed.

Lemma legacy_file_read_in_browser_witness :
  let B := ContractExamples.down in
  let w' := final (Legacy.handleFileSelect (Some [LegacyExample.twoPages])) Example.page in
  texts w' articleInput_value
  = ("Graph  retrieval" ++ blankLine ++ "works.")%string
  /\ requests w' = [].
Proof.
  intros B w'.
  pose proof (@legacy_file_read_in_browser B LegacyExample.twoPages Example.page)
    as (_ & Hrequests & Hread).
  split; [exact (proj1 Hread) | exact Hrequests].
Defined.

(* ================================================================== *)
(** ** Returning at the guard *)

(** What a handler tells the user when it returns at its input guard:
    ask question and a review without a topic say nothing. *)
Definition guardAlert (x : Exchange) (w : World) : list string :=
  match x with
  | ExProcessArticle => ["Please paste text into the text area or upload a file."]
  | ExGenerateReview _ =>
      if (JsString.trim (texts w reviewTopicInput_value) =? "")%string then []
      else ["Please add some documents first!"]
  | ExAskQuestion => []
  | ExAnalyzeText | ExSimilarityCheck => ["Please write some text first."]
  end.

(** X25.  A handler that returns at its input guard sends nothing and
    leaves the history of drafts alone.  Process article, analyze text and
    similarity check say why in an alert; generate review alerts only
    when there is a topic but no document, and says nothing when the
    topic is blank; ask question says nothing and changes nothing. *)
Theorem stopped_at_the_guard `{Browser} (x : Exchange) (w : World) :
  passesGuard x w = false ->
  let w' := final (run (operation x)) w in
  outcome (run (operation x)) w = Returned tt
  /\ requests w' = requests w
  /\ alerts w' = alerts w ++ guardAlert x w
  /\ draftHistory w' = draftHistory w
  /\ (x = ExAskQuestion -> w' = w).
Proof.
  intros Hguard w'.
  destruct (exchange_summary x w) as (Ho & Hrequests & _ & Hhistory).
  fold w' in Hrequests, Hhistory.
  assert (Hnone : mainRequest x w = None) by (unfold mainRequest; now rewrite Hguard).
  unfold exchange in Hrequests. rewrite Hnone, app_nil_r in Hrequests.
  assert (Hreturns : ending x w = Returned tt).
  { destruct x as [| [] | | |]; try reflexivity. cbn [ending]. now rewrite Hguard. }
  rewrite Hreturns in Ho.
  split; [exact Ho |]. split; [exact Hrequests |].
  assert (Hsame : draftHistory w' = draftHistory w).
  { destruct x as [| rev | | |]; try exact Hhistory.
    unfold drafted in Hhistory. now rewrite Hnone, Hguard in Hhistory. }
  destruct x as [| rev | | |]; cbn [operation run guardAlert] in *.
  - destruct (handleProcessArticle_run w) as [_ Hrun]. rewrite Hnone in Hrun.
    split; [exact (proj1 Hrun) |]. split; [exact Hsame | discriminate].
  - split; [| split; [exact Hsame | discriminate]].
    destruct rev.
    + assert (Hrev : index_js <> part_001) by discriminate.
      destruct (generateReview_run w Hrev) as [_ Hrun].
      rewrite Hnone in Hrun. destruct Hrun as [_ Hrun].
      rewrite Hguard in Hrun. exact (proj2 Hrun).
    + assert (Hrev : part_000 <> part_001) by discriminate.
      destruct (generateReview_run w Hrev) as [_ Hrun].
      rewrite Hnone in Hrun. destruct Hrun as [_ Hrun].
      rewrite Hguard in Hrun. exact (proj2 Hrun).
    + destruct (enhancedReview_run w) as [_ Hrun].
      rewrite Hguard in Hrun. exact (proj2 (proj2 Hrun)).
  - destruct (handleAskQuestion_run w) as [_ Hrun]. rewrite Hguard in Hrun.
    fold w' in Hrun. rewrite Hrun, app_nil_r. auto.
  - destruct (handleAnalyzeText_run w) as [_ Hrun]. rewrite Hguard in Hrun.
    split; [exact (proj1 (proj2 Hrun)) |]. split; [exact Hsame | discriminate].
  - destruct (handleSimilarityCheck_run w) as [_ Hrun]. rewrite Hguard in Hrun.
    split; [exact (proj1 Hrun) |]. split; [exact Hsame | discriminate].
Qed.

Lemma stopped_at_the_guard_witness :
  let B := ContractExamples.down in
  passesGuard ExAnalyzeText Example.page = false
  /\ alerts (final handleAnalyzeText Example.page) = ["Please write some text first."]
  /\ requests (final handleAnalyzeText Example.page) = [].
Proof.
  intro B. split; [reflexivity |].
  pose proof (@stopped_at_the_guard B ExAnalyzeText Example.page eq_refl)
    as (_ & Hrequests & Halerts & _).
  split; [exact Halerts | exact Hrequests].
Defined.
